(** * Instapaper archive: the synchronisation pipeline, embedded in Rocq

    The development follows the scripts of the repository:

    - [scripts/export_instapaper_to_obsidian.py]  (module [LiveExport]): the retry
      engine [retry_request], the list request of [fetch_bookmarks], the
      manifest, the per-bookmark body of [main] and its [while True] loop;
    - [scripts/bulk_import_instapaper_from_csv.py] (module [BulkImport]): the
      dictionary manifest and the loop of [main];
    - [scripts/diagnostic_scripts/test_instapaper_pagination.py]
      (module [PaginationTest]): the capped list request and its loop.

    Python values are modelled as the scripts use them: a [str] is a list of
    code points, an [int] is a [Z], a [set] of ints is a [gset Z], the
    dictionary manifest is a [gmap] keyed by the stringified identifier. *)

From Stdlib Require Import ZArith Lia List Ascii String.
From stdpp Require Import gmap strings list fin_maps fin_sets.

Local Open Scope Z_scope.

(** ** Python text *)

(** A Python [str]: a sequence of Unicode code points. *)
Abbreviation pystr := (list N).

(** An ASCII literal of the source, as code points. *)
Definition lit (s : string) : pystr :=
  List.map N_of_ascii (list_ascii_of_string s).

(** The double quote, U+0022, and the backslash, U+005C. *)
Definition QUOTE : N := 34%N.
Definition BACKSLASH : N := 92%N.
(** The en dash of the file names, U+2013. *)
Definition EN_DASH : N := 8211%N.
Definition NEWLINE : N := 10%N.

Definition code_eqb (a b : N) : bool := N.eqb a b.

(** [c in s] for a one-character [c]. *)
Fixpoint char_in (c : N) (s : pystr) : bool :=
  match s with
  | [] => false
  | d :: s' => code_eqb c d || char_in c s'
  end.

Fixpoint is_prefix (p s : pystr) : bool :=
  match p, s with
  | [], _ => true
  | _ :: _, [] => false
  | a :: p', b :: s' => code_eqb a b && is_prefix p' s'
  end.

(** [needle in hay] on strings. *)
Fixpoint contains (needle hay : pystr) : bool :=
  is_prefix needle hay ||
  match hay with
  | [] => false
  | _ :: hay' => contains needle hay'
  end.

(** [s.startswith(p)]. *)
Definition startswith (s p : pystr) : bool := is_prefix p s.

(** [sep.join(parts)]. *)
Fixpoint join (sep : pystr) (parts : list pystr) : pystr :=
  match parts with
  | [] => []
  | [p] => p
  | p :: rest => p ++ sep ++ join sep rest
  end.

(** [s.replace(old, new)] for a one-character [old]. *)
Fixpoint replace_char (old : N) (new : pystr) (s : pystr) : pystr :=
  match s with
  | [] => []
  | c :: s' => (if code_eqb c old then new else [c]) ++ replace_char old new s'
  end.

(** [str.isspace] on one code point (the characters [str.strip()] removes). *)
Definition is_space (c : N) : bool :=
  ((9 <=? c) && (c <=? 13) || (28 <=? c) && (c <=? 32) ||
   (c =? 133) || (c =? 160) || (c =? 5760) ||
   (8192 <=? c) && (c <=? 8202) || (c =? 8232) || (c =? 8233) ||
   (c =? 8239) || (c =? 8287) || (c =? 12288))%N.

Fixpoint lstrip (s : pystr) : pystr :=
  match s with
  | [] => []
  | c :: s' => if is_space c then lstrip s' else s
  end.

(** [s.strip()]. *)
Definition strip (s : pystr) : pystr := rev (lstrip (rev (lstrip s))).

(** [str(n)] for a non-negative [int], most significant digit first. *)
Fixpoint digits_fuel (fuel : nat) (n : N) (acc : pystr) : pystr :=
  match fuel with
  | O => acc
  | S fuel' =>
      let acc' := (48 + n mod 10)%N :: acc in
      if (n <? 10)%N then acc' else digits_fuel fuel' (n / 10)%N acc'
  end.

Definition str_N (n : N) : pystr := digits_fuel (S (N.size_nat n)) n [].

(** [str(z)] for an [int]. *)
Definition str_Z (z : Z) : pystr :=
  if z <? 0 then 45%N :: str_N (Z.to_N (- z)) else str_N (Z.to_N z).

(** [f"{n:0{w}d}"] for a non-negative [n]: zero padding to width [w]. *)
Definition zero_pad (w : nat) (n : Z) : pystr :=
  let d := str_Z n in
  repeat 48%N (w - length d) ++ d.

(** ** JSON values, as [resp.json()] returns them *)

#[local] Set Warnings "-register-all".

Inductive json : Type :=
| JNull
| JBool (b : bool)
| JInt (z : Z)
| JStr (s : pystr)
| JList (items : list json)
| JDict (fields : list (pystr * json)).

(** [d.get(key)] on the fields of a parsed object. *)
Fixpoint dict_get (key : pystr) (fields : list (pystr * json)) : option json :=
  match fields with
  | [] => None
  | (k, v) :: rest => if bool_decide (k = key) then Some v else dict_get key rest
  end.

(** [isinstance(data, dict) and data.get(key) == text]. *)
Definition dict_field_is (key text : pystr) (data : json) : bool :=
  match data with
  | JDict fields =>
      match dict_get key fields with
      | Some (JStr s) => bool_decide (s = text)
      | _ => false
      end
  | _ => false
  end.


(** ** Exceptions and HTTP responses *)

(** The exception classes the scripts raise or test with [isinstance]. *)
Inductive exn_class : Type :=
| HTTPError | ConnectionError | Timeout | JSONDecodeError | RequestException
| ValueError | TypeError | RuntimeError | OverflowError.

(** An exception object: its class, [str(e)], and [e.response.status_code]
    ([None] when [e.response is None]). *)
Record exn : Type := Exn {
  exn_class_of : exn_class;
  exn_text : pystr;
  exn_status : option Z
}.

(** [isinstance(e, requests.exceptions.RequestException)]. *)
Definition is_RequestException (e : exn) : bool :=
  match exn_class_of e with
  | HTTPError | ConnectionError | Timeout | JSONDecodeError | RequestException => true
  | _ => false
  end.

(** [isinstance(e, ValueError)]: [requests]' [JSONDecodeError] is one too. *)
Definition is_ValueError (e : exn) : bool :=
  match exn_class_of e with
  | ValueError | JSONDecodeError => true
  | _ => false
  end.

Definition is_HTTPError (e : exn) : bool :=
  match exn_class_of e with HTTPError => true | _ => false end.

Definition is_ConnectionError_or_Timeout (e : exn) : bool :=
  match exn_class_of e with ConnectionError | Timeout => true | _ => false end.

(** What [resp.json()] does on the body: it raises [JSONDecodeError] with a
    message, or returns the parsed value. *)
Inductive decoded : Type :=
| Undecodable (msg : pystr)
| Decoded (data : json).

Record response : Type := Response {
  status_code : Z;
  reason : pystr;
  url : pystr;
  body : decoded
}.

(** One invocation of the wrapped call [fn]. *)
Inductive call_result : Type :=
| Responds (r : response)
| Throws (e : exn).

(** [resp.raise_for_status()]: [HTTPError] for a status in 400..599. *)
Definition raise_for_status (r : response) : option exn :=
  let text kind :=
    str_Z (status_code r) ++ lit kind ++ reason r ++ lit " for url: " ++ url r in
  if (400 <=? status_code r) && (status_code r <? 500) then
    Some (Exn HTTPError (text " Client Error: ") (Some (status_code r)))
  else if (500 <=? status_code r) && (status_code r <? 600) then
    Some (Exn HTTPError (text " Server Error: ") (Some (status_code r)))
  else None.

(** * [export_instapaper_to_obsidian.py] *)

(** ** Calendar dates, as [datetime] computes them *)

Record datetime : Type := DateTime {
  year : Z; month : Z; day : Z; hour : Z; minute : Z; second : Z
}.

(** The proleptic Gregorian date of a day number counted from 1970-01-01. *)
Definition civil_from_days (days : Z) : Z * Z * Z :=
  let z := days + 719468 in
  let era := z / 146097 in
  let doe := z mod 146097 in
  let yoe := (doe - doe / 1460 + doe / 36524 - doe / 146096) / 365 in
  let doy := doe - (365 * yoe + yoe / 4 - yoe / 100) in
  let mp := (5 * doy + 2) / 153 in
  let d := doy - (153 * mp + 2) / 5 + 1 in
  let m := if mp <? 10 then mp + 3 else mp - 9 in
  let y := yoe + era * 400 + (if m <=? 2 then 1 else 0) in
  (y, m, d).

(** The broken-down time of [seconds] counted from 1970-01-01T00:00:00. *)
Definition datetime_of_seconds (seconds : Z) : datetime :=
  let '(y, m, d) := civil_from_days (seconds / 86400) in
  let s := seconds mod 86400 in
  DateTime y m d (s / 3600) (s mod 3600 / 60) (s mod 60).

(** How [datetime.fromtimestamp(t)] ends for an [int] [t] (CPython on a
    platform with a 64-bit [time_t]): the local date when its year is within
    [MINYEAR..MAXYEAR]; [ValueError] when the year is out of that range;
    [OverflowError] when the C [localtime] cannot represent the year at all. *)
Inductive timestamp_result : Type :=
| LocalTime (dt : datetime)
| YearOutOfRange
| PlatformOverflow.

(** [utc_offset t]: the offset of local time from UTC, in seconds, that is in
    force at instant [t] (the zone of the process). *)
Definition fromtimestamp (utc_offset : Z -> Z) (t : Z) : timestamp_result :=
  let dt := datetime_of_seconds (t + utc_offset t) in
  if (1 <=? year dt) && (year dt <=? 9999) then LocalTime dt
  else if (- 2 ^ 31 <=? year dt - 1900) && (year dt - 1900 <? 2 ^ 31)
          && (- 2 ^ 63 <=? t) && (t <? 2 ^ 63)
       then YearOutOfRange
       else PlatformOverflow.

(** [dt.strftime("%Y-%m-%d")] (four-digit years print alike on every
    platform; [datetime] has no others above year 999). *)
Definition strftime_date (dt : datetime) : pystr :=
  zero_pad 4 (year dt) ++ lit "-" ++ zero_pad 2 (month dt) ++ lit "-"
  ++ zero_pad 2 (day dt).

(** [dt.strftime("%Y-%m-%d %H:%M:%S")]. *)
Definition strftime_datetime (dt : datetime) : pystr :=
  strftime_date dt ++ lit " " ++ zero_pad 2 (hour dt) ++ lit ":"
  ++ zero_pad 2 (minute dt) ++ lit ":" ++ zero_pad 2 (second dt).

(** ** [int(x)] and truth of a JSON value *)

Definition is_digit (c : N) : bool := ((48 <=? c) && (c <=? 57))%N.

(** Decimal digits with single underscores between them. *)
Fixpoint parse_digits (s : pystr) (acc : Z) (after_digit : bool) : option Z :=
  match s with
  | [] => if after_digit then Some acc else None
  | c :: s' =>
      if is_digit c then parse_digits s' (10 * acc + (Z.of_N c - 48)) true
      else if code_eqb c 95 && after_digit then parse_digits s' acc false
      else None
  end.

(** [int(s)] for a [str]: surrounding white space, a sign, decimal digits.
    [None] is [ValueError]. Digits outside ASCII are not recognised. *)
Definition int_of_str (s : pystr) : option Z :=
  match strip s with
  | [] => None
  | c :: t =>
      if code_eqb c 45 then Z.opp <$> parse_digits t 0 false
      else if code_eqb c 43 then parse_digits t 0 false
      else parse_digits (c :: t) 0 false
  end.

(** [int(v)]: [inr z], or [inl] the class of the exception. *)
Definition py_int (v : json) : exn_class + Z :=
  match v with
  | JInt z => inr z
  | JBool b => inr (if b then 1 else 0)
  | JStr s => match int_of_str s with Some z => inr z | None => inl ValueError end
  | JNull | JList _ | JDict _ => inl TypeError
  end.

(** [bool(v)], the test of [if v:]. *)
Definition truthy (v : json) : bool :=
  match v with
  | JNull => false
  | JBool b => b
  | JInt z => negb (z =? 0)
  | JStr s => negb (bool_decide (s = []))
  | JList l => negb (bool_decide (length l = 0%nat))
  | JDict l => negb (bool_decide (length l = 0%nat))
  end.

(** [s.split(sep)] ([skip] characters of a separator are still to pass). *)
Fixpoint split_go (sep s cur : pystr) (skip : nat) : list pystr :=
  match s with
  | [] => [rev cur]
  | c :: s' =>
      match skip with
      | S k => split_go sep s' cur k
      | O =>
          if is_prefix sep s then rev cur :: split_go sep s' [] (length sep - 1)
          else split_go sep s' (c :: cur) 0
      end
  end.

Definition split (s sep : pystr) : list pystr := split_go sep s [] 0.

Module LiveExport.

Definition MAX_LIMIT : Z := 500.
Definition MAX_RETRIES : nat := 5.
Definition BACKOFF_FACTOR : Z := 2.

(** ** [retry_request] *)

(** What one call of the engine did: the value returned or the exception
    raised, how often the wrapped call was invoked, and the arguments of the
    [time.sleep] calls in order. *)
Record run : Type := Run {
  outcome : exn + json;
  calls : nat;
  sleeps : list Z
}.

(** How the [try] block of one attempt ends. [Threw e bound]: [e] reaches the
    [except] clauses; [bound] tells whether [last_error] was bound to this very
    object just before it was raised, which is what [last_error is e] tests
    (every other exception is a fresh object). *)
Inductive attempt_end : Type :=
| Returned (data : json)
| Threw (e : exn) (bound : bool).

Section Engine.

(** [str()] of a JSON value inside an f-string. *)
Variable format_value : json -> pystr.
Variable max_retries : nat.
Variable backoff : Z.
(** The result of the [k]-th invocation of the wrapped call, [k] from 0. *)
Variable fn : nat -> call_result.

(** [data.get(key, default)] formatted in the f-string of the message. *)
Definition field_or (key default : pystr) (data : json) : pystr :=
  match data with
  | JDict fields =>
      match dict_get key fields with
      | Some v => format_value v
      | None => default
      end
  | _ => default
  end.

Definition api_error (data : json) : exn :=
  Exn RequestException
      (lit "Instapaper API Error " ++ field_or (lit "error_code") (lit "N/A") data
       ++ lit ": " ++ field_or (lit "message") (lit "No message") data)
      None.

(** Lines 101-131: the body of the [try], with the binding of [last_error]
    it leaves behind. *)
Definition try_body (c : call_result) (last_error : option exn)
  : option exn * attempt_end :=
  match c with
  | Throws e => (last_error, Threw e false)
  | Responds resp =>
      match raise_for_status resp with
      | Some e => (last_error, Threw e false)
      | None =>
          match body resp with
          | Undecodable msg =>
              (Some (Exn JSONDecodeError msg None),
               Threw (Exn ValueError (lit "JSON Decode Error: " ++ msg) None) false)
          | Decoded data =>
              if dict_field_is (lit "type") (lit "error") data then
                (Some (api_error data), Threw (api_error data) true)
              else (last_error, Returned data)
          end
      end
  end.

(** Lines 134-154: the [except] clause up to [should_retry]; the result is
    the new [last_error] and [should_retry]. *)
Definition handler (e : exn) (bound : bool) (last_error : option exn)
  : option exn * bool :=
  if bound && is_RequestException e
     && contains (lit "Instapaper API Error") (exn_text e) then
    (last_error, false)
  else
    (Some e,
     if is_HTTPError e && bool_decide (exn_status e <> None) then
       bool_decide (exn_status e = Some 503)
     else if is_ConnectionError_or_Timeout e || is_ValueError e then true
     else false).

(** The [for attempt in range(1, MAX_RETRIES+1)] loop, over the attempts
    that remain. *)
Fixpoint attempts_loop (attempts : list nat) (delay : Z)
    (last_error : option exn) (calls : nat) (slept : list Z) : run :=
  match attempts with
  | [] =>
      Run (inl (default (Exn RuntimeError
                   (lit "Retry loop completed without success or specific error.")
                   None) last_error))
          calls slept
  | attempt :: later =>
      let '(last_error1, ending) := try_body (fn calls) last_error in
      match ending with
      | Returned data => Run (inr data) (S calls) slept
      | Threw e bound =>
          if negb (is_RequestException e || is_ValueError e) then
            Run (inl e) (S calls) slept
          else
            let '(last_error2, should_retry) := handler e bound last_error1 in
            if negb should_retry || bool_decide (attempt = max_retries) then
              Run (inl (default e last_error2)) (S calls) slept
            else
              attempts_loop later (delay * backoff) last_error2 (S calls)
                            (slept ++ [delay])
      end
  end.

Definition retry_request_with : run :=
  attempts_loop (seq 1 max_retries) 1 None 0%nat [].

End Engine.

(** The first [n] delays of a backoff that starts at [delay]. *)
Definition delays_from (backoff delay : Z) (n : nat) : list Z :=
  (fun k => delay * backoff ^ Z.of_nat k) <$> seq 0 n.

(** The answers of the wrapped call after which the engine tries again (when
    attempts remain): a transport error, a [ValueError], an [HTTPError] for
    status 503, a 503 answer, or an answer without HTTP error whose body is
    not JSON. *)
Definition retryable (c : call_result) : bool :=
  match c with
  | Throws e =>
      match exn_class_of e with
      | ConnectionError | Timeout | ValueError | JSONDecodeError => true
      | HTTPError => bool_decide (exn_status e = Some 503)
      | _ => false
      end
  | Responds r =>
      bool_decide (status_code r = 503)
      || negb ((400 <=? status_code r) && (status_code r <? 600))
         && match body r with Undecodable _ => true | Decoded _ => false end
  end.

(** The exception that reaches the [except] clause for an answer, if any. *)
Definition failure_of (format_value : json -> pystr) (c : call_result) : option exn :=
  match snd (try_body format_value c None) with
  | Threw e _ => Some e
  | Returned _ => None
  end.

(** [retry_request(fn, ...)] with the constants of the script. *)
Definition retry_request (format_value : json -> pystr) (fn : nat -> call_result) : run :=
  retry_request_with format_value MAX_RETRIES BACKOFF_FACTOR fn.

(** ** [retry_request_html] and [fetch_full_text] *)

(** An answer of the full-text endpoint: its status, [resp.text], and what
    [resp.json()] gives for it. *)
Record page : Type := Page {
  page_status : Z;
  page_reason : pystr;
  page_url : pystr;
  page_text : pystr;
  page_json : decoded
}.

(** One [sess.post(url, ...)]: an answer, or an exception together with what
    [e.response.json()] gives when [e] carries a response. *)
Inductive post_result : Type :=
| Answers (p : page)
| Breaks (e : exn) (error_body : decoded).

(** What one call of [retry_request_html] did. *)
Record html_run : Type := HtmlRun {
  html_outcome : exn + pystr;
  html_calls : nat;
  html_sleeps : list Z
}.

Section HtmlEngine.

Variable format_value : json -> pystr.
Variable max_retries : nat.
Variable backoff : Z.
(** The address posted to. *)
Variable target : pystr.
(** The result of the [k]-th [sess.post], [k] from 0. *)
Variable post : nat -> post_result.

(** Lines 208-219: the message of a non-503 [HTTPError] is replaced when the
    body is a JSON list whose first element is an error object. *)
Definition describe_http_error (e : exn) (error_body : decoded) : exn :=
  match error_body with
  | Decoded (JList (JDict fields :: _)) =>
      if dict_field_is (lit "type") (lit "error") (JDict fields) then
        Exn (exn_class_of e)
            (lit "Instapaper API Error "
             ++ field_or format_value (lit "error_code") (lit "N/A") (JDict fields)
             ++ lit ": "
             ++ field_or format_value (lit "message") (lit "No message") (JDict fields)
             ++ lit " (HTTP " ++ str_Z (default 0 (exn_status e)) ++ lit ")")
            (exn_status e)
      else e
  | _ => e
  end.

(** Lines 178-195: the [try] block: the text of a 200 answer, or the
    exception raised and the body its response decodes to. *)
Definition html_try (r : post_result) : pystr + (exn * decoded) :=
  match r with
  | Breaks e error_body => inr (e, error_body)
  | Answers p =>
      if bool_decide (page_status p = 200) then inl (page_text p)
      else
        match raise_for_status
                (Response (page_status p) (page_reason p) (page_url p) (page_json p))
        with
        | Some e => inr (e, page_json p)
        | None =>
            inr (Exn RequestException
                     (lit "Unexpected status " ++ str_Z (page_status p)) None,
                 page_json p)
        end
  end.

(** Lines 197-226: the exception to re-raise, and [should_retry]. *)
Definition html_handler (e : exn) (error_body : decoded) : exn * bool :=
  if is_HTTPError e && bool_decide (exn_status e <> None) then
    if bool_decide (exn_status e = Some 503) then (e, true)
    else (describe_http_error e error_body, false)
  else if is_ConnectionError_or_Timeout e then (e, true)
  else (e, false).

(** The [for attempt in range(1, MAX_RETRIES + 1)] loop. *)
Fixpoint html_attempts_loop (attempts : list nat) (delay : Z)
    (last_error : option exn) (calls : nat) (slept : list Z) : html_run :=
  match attempts with
  | [] =>
      HtmlRun (inl (default (Exn RuntimeError
                      (lit "Retry loop completed without success for " ++ target)
                      None)
                      last_error))
              calls slept
  | attempt :: later =>
      match html_try (post calls) with
      | inl text => HtmlRun (inr text) (S calls) slept
      | inr (e, error_body) =>
          if negb (is_RequestException e) then HtmlRun (inl e) (S calls) slept
          else
            let '(e', should_retry) := html_handler e error_body in
            if negb should_retry || bool_decide (attempt = max_retries) then
              HtmlRun (inl e') (S calls) slept
            else
              html_attempts_loop later (delay * backoff) (Some e') (S calls)
                                 (slept ++ [delay])
      end
  end.

Definition retry_request_html : html_run :=
  html_attempts_loop (seq 1 max_retries) 1 None 0%nat [].

(** [fetch_full_text] of the export: the HTML, or the empty string when
    [retry_request_html] raises. *)
Definition fetch_full_text : pystr :=
  match html_outcome retry_request_html with
  | inr html => html
  | inl _ => []
  end.

(** [fetch_full_text] of the import: the HTML and [None], or the empty string
    and [str(e)]. *)
Definition fetch_full_text_with_error : pystr * option pystr :=
  match html_outcome retry_request_html with
  | inr html => (html, None)
  | inl e => ([], Some (exn_text e))
  end.

End HtmlEngine.

(** ** [get_oauth_session] *)

(** What lines 79-87 can raise: the [HTTPError] of [raise_for_status], the
    [ValueError] of [dict] on a pair that does not split in two, or the
    [KeyError] of a missing key. *)
Inductive session_error : Type :=
| StatusError (e : exn)
| BadPair
| MissingKey (key : pystr).

(** [dict(...)] on the split pairs, as the key-value pairs in the order
    [dict] receives them; [None] when a pair has not exactly two parts. *)
Fixpoint creds_pairs (pairs : list (list pystr)) : option (list (pystr * pystr)) :=
  match pairs with
  | [] => Some []
  | [k; v] :: rest =>
      match creds_pairs rest with
      | Some l => Some ((k, v) :: l)
      | None => None
      end
  | _ :: _ => None
  end.

(** Line 80: [dict(pair.split("=") for pair in resp.text.split("&"))]. *)
Definition parse_creds (text : pystr) : option (list (pystr * pystr)) :=
  creds_pairs ((fun pair => split pair (lit "=")) <$> split text (lit "&")).

(** [creds[key]]: a later pair with the same key has replaced an earlier
    one. *)
Fixpoint creds_get (key : pystr) (creds : list (pystr * pystr)) : option pystr :=
  match creds with
  | [] => None
  | (k, v) :: rest =>
      match creds_get key rest with
      | Some v' => Some v'
      | None => if bool_decide (k = key) then Some v else None
      end
  end.

(** Lines 79-87 on the answer of the xAuth endpoint: the resource owner key
    and secret the signed session is made with. *)
Definition get_oauth_session (p : page) : session_error + (pystr * pystr) :=
  match raise_for_status
          (Response (page_status p) (page_reason p) (page_url p) (page_json p))
  with
  | Some e => inl (StatusError e)
  | None =>
      match parse_creds (page_text p) with
      | None => inl BadPair
      | Some creds =>
          match creds_get (lit "oauth_token") creds with
          | None => inl (MissingKey (lit "oauth_token"))
          | Some token =>
              match creds_get (lit "oauth_token_secret") creds with
              | None => inl (MissingKey (lit "oauth_token_secret"))
              | Some secret => inr (token, secret)
              end
          end
      end
  end.

(** ** The answers of [/bookmarks/list] and [/folders/list] *)

(** Lines 264-287 of [fetch_bookmarks]: the bookmarks of a parsed answer.
    For an object, line 271 takes [len] of the value found, which raises
    [TypeError] for [null], a number or a boolean. *)
Definition normalize_bookmarks (data : json) : exn_class + json :=
  match data with
  | JDict fields =>
      match dict_get (lit "bookmarks") fields with
      | None => inr (JList [])
      | Some (JNull | JBool _ | JInt _) => inl TypeError
      | Some v => inr v
      end
  | JList items =>
      inr (JList (List.filter (dict_field_is (lit "type") (lit "bookmark")) items))
  | _ => inl TypeError
  end.

(** What building the folder dictionary can raise. *)
Inductive folder_error : Type :=
| NotAList
| KeyError (key : pystr)
| Unhashable.

(** Line 249: the pairs [(f["title"], f["folder_id"])] of the folder records,
    in order. *)
Fixpoint folder_pairs (items : list json) : folder_error + list (json * json) :=
  match items with
  | [] => inr []
  | item :: rest =>
      if dict_field_is (lit "type") (lit "folder") item then
        match item with
        | JDict fields =>
            match dict_get (lit "title") fields, dict_get (lit "folder_id") fields with
            | None, _ => inl (KeyError (lit "title"))
            | Some _, None => inl (KeyError (lit "folder_id"))
            | Some (JList _), Some _ | Some (JDict _), Some _ => inl Unhashable
            | Some t, Some i =>
                match folder_pairs rest with
                | inl e => inl e
                | inr pairs => inr ((t, i) :: pairs)
                end
            end
        | _ => folder_pairs rest
        end
      else folder_pairs rest
  end.

(** Lines 242-251 of [fetch_folders], on the parsed answer. *)
Definition fetch_folders (data : json) : folder_error + list (json * json) :=
  match data with
  | JList items => folder_pairs items
  | _ => inl NotAList
  end.

(** [folders.get(key)] on the dictionary built from the pairs: the value of
    the last pair whose title is the string [key]. *)
Fixpoint folders_get (key : pystr) (pairs : list (json * json)) : option json :=
  match pairs with
  | [] => None
  | (t, i) :: rest =>
      match folders_get key rest with
      | Some v => Some v
      | None =>
          match t with
          | JStr s => if bool_decide (s = key) then Some i else None
          | _ => None
          end
      end
  end.

(** Line 312: [user_folders.get(FOLDER_KEY, FOLDER_KEY)]. *)
Definition resolve_folder (key : pystr) (pairs : list (json * json)) : json :=
  default (JStr key) (folders_get key pairs).

(** ** The list request of [fetch_bookmarks] *)

(** The form data posted to [/bookmarks/list]. [have] is absent or the
    identifiers that are then joined with commas. *)
Record payload : Type := Payload {
  limit : Z;
  folder_id : pystr;
  have : option (list Z)
}.

(** The text sent for [have]: [",".join(map(str, have_list))]. *)
Definition have_text (ids : list Z) : pystr := join (lit ",") (str_Z <$> ids).

(** Lines 256-261: the payload for the set [have_list] (the caller passes
    [processed]), with the identifiers in the order of [elements];
    [OrderedExport.bookmarks_payload] has them in the order of the run. *)
Definition bookmarks_payload (have_list : gset Z) (folder : pystr) : payload :=
  Payload MAX_LIMIT folder
          (if bool_decide (elements have_list = []) then None
           else Some (elements have_list)).

(** The number of identifiers in the exclusion hint of a request. *)
Definition hint_size (p : payload) : nat :=
  match have p with None => 0%nat | Some ids => length ids end.

(** ** Bookmarks and the world around the script *)

(** One record of the list response, with the fields [main] reads:
    [bm["bookmark_id"]] converted by [int], [bm.get("title")],
    [bm.get("url")], [bm.get("time_saved")] and [bm.get("time")]. *)
Record bookmark : Type := Bookmark {
  bookmark_id : Z;
  title : option pystr;
  bm_url : option pystr;
  time_saved : option json;
  time : option json
}.

(** How writing one document ends: [with open(out, "w") as f: f.write(..)]
    completes, or raises leaving [residue] at the path ([None]: the path is
    untouched because [open] itself failed). *)
Inductive write_end : Type :=
| WriteCompletes
| WriteRaises (e : exn) (residue : option pystr).

(** Everything outside the process. Requests are numbered from 0 within a
    run, and so are the bookmarks that get past the [processed] test. *)
Record world : Type := World {
  (** [fetch_bookmarks]' result for the [k]-th list request: the bookmarks
      that [retry_request] and the normalisation of lines 264-287 yield, or
      the exception that escapes. *)
  list_bookmarks : nat -> payload -> exn + list bookmark;
  (** [fetch_full_text(sess, bid)]: the HTML, or the empty string. *)
  full_text : nat -> Z -> pystr;
  (** [markdownify(html, heading_style="ATX")]. *)
  markdownify : pystr -> exn + pystr;
  write_document : nat -> pystr -> pystr -> write_end;
  (** [time.time()] when the [k]-th bookmark is handled. *)
  clock : nat -> Z;
  utc_offset : Z -> Z;
  VAULT_PATH : pystr;
  FOLDER_ID : pystr
}.

(** ** The manifest *)

(** The manifest file holds a JSON array of integers, or does not exist. *)
Definition load_manifest (manifest_file : option (list Z)) : gset Z :=
  match manifest_file with
  | Some ids => list_to_set ids
  | None => ∅
  end.

(** The document [json.dumps(list(ids))], with the identifiers in the order
    of [elements]; [OrderedExport.manifest_document] has them in the order
    of the run. *)
Definition manifest_document (ids : gset Z) : list Z := elements ids.

(** [json.dumps] of a list of integers. *)
Definition json_dumps_ints (ids : list Z) : pystr :=
  lit "[" ++ join (lit ", ") (str_Z <$> ids) ++ lit "]".

(** [Path.write_text(data)] opens the file with mode ["w"], which truncates
    it, writes the text and closes the file. The contents of the file that a
    crash would leave behind, at each point of the call in order: before the
    call, after [open], and after each further character reaches the file. *)
Definition write_text_states (old : option pystr) (data : pystr)
  : list (option pystr) :=
  old :: ((fun n => Some (take n data)) <$> seq 0 (S (length data))).

(** The states of the manifest file during [save_manifest(ids)]. *)
Definition save_manifest_states (old : option pystr) (ids : gset Z)
  : list (option pystr) :=
  write_text_states old (json_dumps_ints (manifest_document ids)).

(** ** The body of the [for bm in bms] loop *)

(** The characters [sanitize_title] drops: the raw string of line 305. *)
Definition FORBIDDEN : pystr := lit "<>:" ++ [QUOTE] ++ lit "/\\|?*".

Definition sanitize_title (t : pystr) : pystr :=
  strip (List.filter (fun c => negb (char_in c FORBIDDEN)) t).

(** Lines 342-358: which timestamp is taken, and the source noted for it. *)
Definition choose_timestamp (bm : bookmark) : option json * pystr :=
  if from_option truthy false (time_saved bm) then
    (time_saved bm, lit "original - time_saved")
  else if from_option truthy false (time bm) then
    (time bm, lit "original - time")
  else (None, lit "fallback - missing").

(** Lines 360-373: the save date and its source, or the exception that
    escapes ([OverflowError] is not among the ones line 363 catches).
    [now] is [time.time()]. *)
Definition resolve_saved (off : Z -> Z) (now : Z) (bm : bookmark)
  : exn_class + (datetime * pystr) :=
  let '(timestamp_to_use, source) := choose_timestamp bm in
  let invalid :=
    lit "fallback - invalid format (" ++ nth 1 (split source (lit " - ")) []
    ++ lit ")" in
  let parsed : exn_class + (option datetime * pystr) :=
    match timestamp_to_use with
    | None => inr (None, source)
    | Some v =>
        match py_int v with
        | inl _ => inr (None, invalid)
        | inr t =>
            match fromtimestamp off t with
            | LocalTime dt => inr (Some dt, source)
            | YearOutOfRange => inr (None, invalid)
            | PlatformOverflow => inl OverflowError
            end
        end
    end in
  match parsed with
  | inl e => inl e
  | inr (Some dt, source') => inr (dt, source')
  | inr (None, source') =>
      match fromtimestamp off now with
      | LocalTime dt =>
          inr (dt, if startswith source' (lit "fallback") then source'
                   else lit "fallback - unknown error")
      | YearOutOfRange => inl ValueError
      | PlatformOverflow => inl OverflowError
      end
  end.

(** What a timestamp field leads to at lines 360-366: a local date; nothing,
    when [int] or [fromtimestamp] raises one of the exceptions line 363
    catches; or an exception that escapes. *)
Inductive reading : Type :=
| Reads (dt : datetime)
| Unreadable
| Escapes.

Definition read_timestamp (off : Z -> Z) (v : json) : reading :=
  match py_int v with
  | inl _ => Unreadable
  | inr t =>
      match fromtimestamp off t with
      | LocalTime dt => Reads dt
      | YearOutOfRange => Unreadable
      | PlatformOverflow => Escapes
      end
  end.

(** Lines 377-378: the file name for a save date and a title. *)
Definition file_name (saved : pystr) (title : pystr) : pystr :=
  saved ++ lit " " ++ [EN_DASH] ++ lit " " ++ take 80 (sanitize_title title)
  ++ lit ".md".

(** Lines 392-400: the front matter. *)
Definition front_matter (title url : pystr) (bid : Z) (saved source : pystr)
  : list pystr :=
  [ lit "---";
    lit "title: " ++ [QUOTE] ++ replace_char QUOTE [BACKSLASH; QUOTE] title ++ [QUOTE];
    lit "original_url: " ++ [QUOTE] ++ url ++ [QUOTE];
    lit "instapaper_id: " ++ str_Z bid;
    lit "date_saved: " ++ saved;
    lit "date_saved_source: " ++ source;
    lit "---";
    [] ].

Definition title_of (bm : bookmark) : pystr := default (lit "Untitled") (title bm).
Definition url_of (bm : bookmark) : pystr := default (lit "URL_MISSING") (bm_url bm).

(** What the script holds and has done: the set [processed], [count], the
    files of the vault, the documents whose write completed (path and text,
    oldest first), the manifest file, and how many list requests and
    bookmarks the world has answered. *)
Record state : Type := State {
  processed : gset Z;
  count : nat;
  files : gmap pystr pystr;
  written : list (pystr * pystr);
  manifest_file : option (list Z);
  requests : nat;
  handled : nat
}.

Definition set_processed (f : gset Z -> gset Z) (st : state) : state :=
  State (f (processed st)) (count st) (files st) (written st)
        (manifest_file st) (requests st) (handled st).

(** The file system after a write that ended with [w]. *)
Definition files_after (w : write_end) (out text : pystr)
    (fs : gmap pystr pystr) : gmap pystr pystr :=
  match w with
  | WriteCompletes => <[out := text]> fs
  | WriteRaises _ (Some residue) => <[out := residue]> fs
  | WriteRaises _ None => fs
  end.

(** Lines 328-413 for one bookmark. [Some e]: the exception [e] escapes. *)
Definition process_bookmark (w : world) (st : state) (bm : bookmark)
  : option exn_class * state :=
  let bid := bookmark_id bm in
  if bool_decide (bid ∈ processed st) then (None, st)
  else
    let k := handled st in
    let st := State (processed st) (count st) (files st) (written st)
                    (manifest_file st) (requests st) (S k) in
    match resolve_saved (utc_offset w) (clock w k) bm with
    | inl e => (Some e, st)
    | inr (saved_dt, source) =>
        let saved := strftime_date saved_dt in
        let out := VAULT_PATH w ++ lit "/" ++ file_name saved (title_of bm) in
        let html := full_text w k bid in
        if bool_decide (html = []) then
          (None, set_processed (fun p => {[bid]} ∪ p) st)
        else
          match markdownify w html with
          | inl e => (Some (exn_class_of e), st)
          | inr mdt =>
              let text :=
                join [NEWLINE]
                     (front_matter (title_of bm) (url_of bm) bid saved source)
                ++ mdt in
              let fs := files_after (write_document w k out text) out text (files st) in
              match write_document w k out text with
              | WriteRaises _ _ =>
                  (None, State (processed st) (count st) fs (written st)
                               (manifest_file st) (requests st) (handled st))
              | WriteCompletes =>
                  (None, State ({[bid]} ∪ processed st) (S (count st)) fs
                               (written st ++ [(out, text)])
                               (manifest_file st) (requests st) (handled st))
              end
          end
    end.

(** The [for bm in bms] loop. *)
Fixpoint process_batch (w : world) (st : state) (bms : list bookmark)
  : option exn_class * state :=
  match bms with
  | [] => (None, st)
  | bm :: rest =>
      match process_bookmark w st bm with
      | (Some e, st') => (Some e, st')
      | (None, st') => process_batch w st' rest
      end
  end.

(** [save_manifest(processed)] when the write completes;
    [OrderedExport.save_manifest] has the writes that stop. *)
Definition save_manifest (st : state) : state :=
  State (processed st) (count st) (files st) (written st)
        (Some (manifest_document (processed st))) (requests st) (handled st).

(** ** [main] *)

(** How a run ends: the [while True] loop is left and the final manifest
    saved; an exception escapes; or the loop is still going after the given
    number of iterations. *)
Inductive ending : Type :=
| Completed (st : state)
| Aborted (e : exn_class) (st : state)
| Running (st : state).

(** The [while True] loop of lines 318-419 and the final save, for at most
    [fuel] iterations. *)
Fixpoint main_loop (fuel : nat) (w : world) (st : state) : ending :=
  match fuel with
  | O => Running st
  | S fuel' =>
      let k := requests st in
      let st := State (processed st) (count st) (files st) (written st)
                      (manifest_file st) (S k) (handled st) in
      match list_bookmarks w k (bookmarks_payload (processed st) (FOLDER_ID w)) with
      | inl e => Aborted (exn_class_of e) st
      | inr [] => Completed (save_manifest st)
      | inr bms =>
          match process_batch w st bms with
          | (Some e, st') => Aborted e st'
          | (None, st') => main_loop fuel' w (save_manifest st')
          end
      end
  end.

(** A run of the script on the files and the manifest it finds. *)
Definition main (fuel : nat) (w : world) (fs : gmap pystr pystr)
    (manifest : option (list Z)) : ending :=
  main_loop fuel w (State (load_manifest manifest) 0 fs [] manifest 0 0).

(** The state a run is in when it ends or is cut off. *)
Definition final_state (e : ending) : state :=
  match e with
  | Completed st | Aborted _ st | Running st => st
  end.

(** The document that line 401 is about to write for [bm], as path and text;
    [None] when [process_bookmark] does not get that far. *)
Definition document_for (w : world) (st : state) (bm : bookmark)
  : option (pystr * pystr) :=
  if bool_decide (bookmark_id bm ∈ processed st) then None
  else
    match resolve_saved (utc_offset w) (clock w (handled st)) bm with
    | inl _ => None
    | inr (saved_dt, source) =>
        let html := full_text w (handled st) (bookmark_id bm) in
        if bool_decide (html = []) then None
        else
          match markdownify w html with
          | inl _ => None
          | inr mdt =>
              Some (VAULT_PATH w ++ lit "/"
                    ++ file_name (strftime_date saved_dt) (title_of bm),
                    join [NEWLINE]
                      (front_matter (title_of bm) (url_of bm) (bookmark_id bm)
                                    (strftime_date saved_dt) source) ++ mdt)
          end
    end.

(** [text] is a document of the bookmark [bid]: front matter with that
    identifier, then a body. *)
Definition document_of (bid : Z) (text : pystr) : Prop :=
  exists title url saved source mdt,
    text = join [NEWLINE] (front_matter title url bid saved source) ++ mdt.

(** Where the identifiers of [processed] come from, in a run that started in
    [st0]. *)
Definition accounted (w : world) (st0 st : state) : Prop :=
  forall bid, bid ∈ processed st ->
    bid ∈ processed st0 \/
    (exists k, full_text w k bid = []) \/
    (exists out text, (out, text) ∈ written st /\ document_of bid text).

(** The documents written so far are counted by [count] and belong to
    pairwise different bookmarks, each of them in [processed] and none of
    them in [p0], the set the run loaded. *)
Definition writes_fresh (p0 : gset Z) (st : state) : Prop :=
  p0 ⊆ processed st /\
  count st = length (written st) /\
  exists ids, NoDup ids /\
    Forall2 (fun bid doc => document_of bid doc.2) ids (written st) /\
    forall bid, bid ∈ ids -> bid ∈ processed st /\ bid ∉ p0.

(** The last complete manifest document is the one the run found, or lists,
    in some order and without repetition, a set between the set the run
    loaded and [processed]. *)
Definition manifest_between (m0 : option (list Z)) (st : state) : Prop :=
  manifest_file st = m0 \/
  exists p ids, manifest_file st = Some ids /\ ids ≡ₚ elements p /\
                load_manifest m0 ⊆ p /\ p ⊆ processed st.

End LiveExport.

(** * The export, with the order of the set and the manifest write *)

(** [LiveExport] lists the set [processed] in one fixed order and lets every
    manifest write complete. The script iterates a Python [set], whose order
    depends on how the set was built, and writes the manifest with
    [Path.write_text], which can stop after truncating the file. This module
    has the same loop with both made explicit; the bookmarks of a batch are
    handled by [LiveExport.process_batch]. *)
Module OrderedExport.

(** Iterating the set [s]. [pref] stands for the history of the set: the
    elements of [s] that occur in [pref] come first, in the order of their
    first occurrence there, then the others. The result lists every element
    of [s] once, and every such listing of [s] is [list_set pref s] for some
    [pref]. *)
Definition list_set (pref : list Z) (s : gset Z) : list Z :=
  filter (fun x => x ∈ s) (remove_dups pref)
  ++ filter (fun x => x ∉ pref) (elements s).

(** How [MANIFEST_FILE.write_text(text)] ends: it returns, or it stops, by
    the exception [cause] or by the death of the process ([None]), before
    the file is opened ([progress] is [None]) or after the file was
    truncated and [n] characters were written. *)
Inductive save_end : Type :=
| SaveCompletes
| SaveStops (cause : option exn) (progress : option nat).

(** A run: the world of [LiveExport], the order in which [processed] is
    iterated when the [k]-th list request is built and when the manifest is
    saved after [k] list requests, and the end of that save. *)
Record world : Type := World {
  base : LiveExport.world;
  have_order : nat -> list Z;
  dump_order : nat -> list Z;
  write_manifest : nat -> pystr -> save_end
}.

(** Lines 256-261: [if have_list: payload["have"] = ",".join(map(str,
    have_list))], with the set iterated in the order [pref] gives. *)
Definition bookmarks_payload (pref : list Z) (have_list : gset Z) (folder : pystr)
  : LiveExport.payload :=
  LiveExport.Payload LiveExport.MAX_LIMIT folder
    (if bool_decide (have_list = ∅) then None
     else Some (list_set pref have_list)).

(** The document [json.dumps(list(ids))], as the list it encodes. *)
Definition manifest_document (pref : list Z) (ids : gset Z) : list Z :=
  list_set pref ids.

(** [save_manifest(processed)] after [requests st] list requests: the state
    with the new document in the manifest file, or the way the write stopped
    and the text it left in the file, if it got as far as opening it. *)
Definition save_manifest (w : world) (st : LiveExport.state)
  : LiveExport.state + (option exn * option pystr) :=
  let doc :=
    manifest_document (dump_order w (LiveExport.requests st)) (LiveExport.processed st) in
  let text := LiveExport.json_dumps_ints doc in
  match write_manifest w (LiveExport.requests st) text with
  | SaveCompletes =>
      inl (LiveExport.State (LiveExport.processed st) (LiveExport.count st)
             (LiveExport.files st) (LiveExport.written st) (Some doc)
             (LiveExport.requests st) (LiveExport.handled st))
  | SaveStops cause progress =>
      inr (cause, (fun n => take n text) <$> progress)
  end.

(** How a run ends: as in [LiveExport], or inside a manifest write, which
    leaves [residue] in the manifest file ([None]: the file is untouched, and
    still holds the document of the state). *)
Inductive ending : Type :=
| Completed (st : LiveExport.state)
| Aborted (e : exn_class) (st : LiveExport.state)
| SaveFailed (cause : option exn) (st : LiveExport.state) (residue : option pystr)
| Running (st : LiveExport.state).

(** The [while True] loop of lines 318-419 and the final save of line 423,
    for at most [fuel] iterations. *)
Fixpoint main_loop (fuel : nat) (w : world) (st : LiveExport.state) : ending :=
  match fuel with
  | O => Running st
  | S fuel' =>
      let k := LiveExport.requests st in
      let st := LiveExport.State (LiveExport.processed st) (LiveExport.count st)
                  (LiveExport.files st) (LiveExport.written st)
                  (LiveExport.manifest_file st) (S k) (LiveExport.handled st) in
      match LiveExport.list_bookmarks (base w) k
              (bookmarks_payload (have_order w k) (LiveExport.processed st)
                                 (LiveExport.FOLDER_ID (base w)))
      with
      | inl e => Aborted (exn_class_of e) st
      | inr [] =>
          match save_manifest w st with
          | inl st' => Completed st'
          | inr (cause, residue) => SaveFailed cause st residue
          end
      | inr bms =>
          match LiveExport.process_batch (base w) st bms with
          | (Some e, st') => Aborted e st'
          | (None, st') =>
              match save_manifest w st' with
              | inl st'' => main_loop fuel' w st''
              | inr (cause, residue) => SaveFailed cause st' residue
              end
          end
      end
  end.

(** A run of the script on the files and the manifest it finds. *)
Definition main (fuel : nat) (w : world) (fs : gmap pystr pystr)
    (manifest : option (list Z)) : ending :=
  main_loop fuel w
    (LiveExport.State (LiveExport.load_manifest manifest) 0 fs [] manifest 0 0).

Definition final_state (e : ending) : LiveExport.state :=
  match e with
  | Completed st | Aborted _ st | SaveFailed _ st _ | Running st => st
  end.

(** Two list requests that differ at most in the order and the repetitions
    of the identifiers of [have]. *)
Definition same_request (p p' : LiveExport.payload) : Prop :=
  LiveExport.limit p = LiveExport.limit p' /\
  LiveExport.folder_id p = LiveExport.folder_id p' /\
  (list_to_set (default [] (LiveExport.have p)) : gset Z)
  = list_to_set (default [] (LiveExport.have p')).

(** The run of [LiveExport] within this model: the set listed in the order
    of [elements], every manifest write completing. *)
Definition plain (w : LiveExport.world) : world :=
  World w (fun _ => []) (fun _ => []) (fun _ _ => SaveCompletes).

Definition forget (e : ending) : option LiveExport.ending :=
  match e with
  | Completed st => Some (LiveExport.Completed st)
  | Aborted e st => Some (LiveExport.Aborted e st)
  | SaveFailed _ _ _ => None
  | Running st => Some (LiveExport.Running st)
  end.

End OrderedExport.

(** * [bulk_import_instapaper_from_csv.py] *)

Module BulkImport.

(** One row of the CSV export that [load_archived_bookmarks_from_csv] kept. *)
Record bm_data : Type := BmData {
  id : Z;
  title : pystr;
  url : pystr;
  description : pystr;
  author : pystr;
  words : Z;
  folder : pystr;
  saved_time_dt : option datetime;
  published_time_dt : option datetime;
  archived_time_dt : option datetime
}.

(** One value of the manifest dictionary: the keys ["status"] and ["title"],
    and ["error_message"] or ["file_path"] where the script sets them. *)
Record entry : Type := Entry {
  status : pystr;
  entry_title : pystr;
  error_message : option pystr;
  file_path : option pystr
}.

#[global] Instance entry_eq_dec : EqDecision entry.
Proof. solve_decision. Defined.

Definition STATUS_SUCCESS : pystr := lit "success".
Definition STATUS_FETCH_FAILED : pystr := lit "text_fetch_failed".
Definition STATUS_CONVERSION_FAILED : pystr := lit "markdown_conversion_failed".

Record world : Type := World {
  (** [fetch_full_text(sess, bid)]: the HTML and no error, or the empty
      string and [str(e)]. *)
  full_text : nat -> Z -> pystr * option pystr;
  (** [markdownify(html, heading_style="ATX")]: [inl] is [str(e)] of the
      exception it raises. *)
  markdownify : pystr -> pystr + pystr;
  write_document : nat -> pystr -> pystr -> LiveExport.write_end;
  VAULT_PATH : pystr
}.

(** The script's variables and effects: the manifest dictionary, the two
    counters, the files of the vault, the documents whose write completed,
    every document [save_manifest] has written (oldest first), and how many
    rows got past the manifest test. *)
Record state : Type := State {
  processed_manifest : gmap pystr entry;
  count : nat;
  processed_in_session : nat;
  files : gmap pystr pystr;
  written : list (pystr * pystr);
  saves : list (gmap pystr entry);
  handled : nat
}.

(** [save_manifest(processed_manifest)]. *)
Definition save_manifest (st : state) : state :=
  State (processed_manifest st) (count st) (processed_in_session st) (files st)
        (written st) (saves st ++ [processed_manifest st]) (handled st).

(** The manifest file after the run: the last document saved, if any. *)
Definition manifest_file (initial : option (gmap pystr entry)) (st : state)
  : option (gmap pystr entry) :=
  match last (saves st) with
  | Some doc => Some doc
  | None => initial
  end.

(** The raw string of line 257. *)
Definition FORBIDDEN : pystr := lit "<>:" ++ [QUOTE] ++ lit "/\|?*".

Definition sanitize_title (t : pystr) : pystr :=
  strip (List.filter (fun c => negb (char_in c FORBIDDEN)) t).

Definition escape_quotes (s : pystr) : pystr :=
  replace_char QUOTE [BACKSLASH; QUOTE] s.

(** Lines 325-332. *)
Definition filename_date_str (bm : bm_data) : pystr :=
  match archived_time_dt bm, saved_time_dt bm with
  | Some dt, _ => strftime_date dt
  | None, Some dt => strftime_date dt
  | None, None => lit "YYYY-MM-DD_unknown_date"
  end.

Definition line_if {A} (x : option A) (f : A -> pystr) : list pystr :=
  match x with Some a => [f a] | None => [] end.

Definition nonempty (s : pystr) : option pystr :=
  if bool_decide (s = []) then None else Some s.

(** Lines 334-375. *)
Definition frontmatter (bm : bm_data) : list pystr :=
  [ lit "---";
    lit "title: " ++ [QUOTE] ++ escape_quotes (title bm) ++ [QUOTE];
    lit "original_url: " ++ [QUOTE] ++ url bm ++ [QUOTE];
    lit "instapaper_id: " ++ str_Z (id bm) ]
  ++ line_if (saved_time_dt bm) (fun dt => lit "date_saved: " ++ strftime_date dt)
  ++ line_if (saved_time_dt bm) (fun dt => lit "saved_time: " ++ strftime_datetime dt)
  ++ line_if (nonempty (description bm))
       (fun d => lit "description: " ++ [QUOTE] ++ escape_quotes d ++ [QUOTE])
  ++ line_if (nonempty (author bm))
       (fun a => lit "author: " ++ [QUOTE] ++ escape_quotes a ++ [QUOTE])
  ++ (if words bm =? 0 then [] else [lit "words: " ++ str_Z (words bm)])
  ++ line_if (published_time_dt bm)
       (fun dt => lit "published_time: " ++ strftime_datetime dt)
  ++ line_if (archived_time_dt bm)
       (fun dt => lit "archived_time: " ++ strftime_datetime dt)
  ++ line_if (archived_time_dt bm)
       (fun dt => lit "date_archived: " ++ strftime_date dt)
  ++ line_if (nonempty (folder bm))
       (fun f => lit "folder: " ++ [QUOTE] ++ escape_quotes f ++ [QUOTE])
  ++ [ lit "---"; [] ].

(** Lines 378-380. *)
Definition output_file_path (w : world) (bm : bm_data) : pystr :=
  VAULT_PATH w ++ lit "/" ++ filename_date_str bm ++ lit " " ++ [EN_DASH]
  ++ lit " " ++ take 80 (sanitize_title (title bm)) ++ lit ".md".

(** [processed_manifest[bid_str] = e; processed_in_session += 1]. *)
Definition record_entry (bid_str : pystr) (e : entry) (st : state) : state :=
  State (<[bid_str := e]> (processed_manifest st)) (count st)
        (S (processed_in_session st)) (files st) (written st) (saves st)
        (handled st).

(** [if processed_in_session % n == 0: save_manifest(processed_manifest)]. *)
Definition save_every (n : nat) (st : state) : state :=
  if bool_decide (processed_in_session st `mod` n = 0)%nat then save_manifest st
  else st.

(** Lines 278-399 for one row. *)
Definition process_row (w : world) (st : state) (bm : bm_data) : state :=
  let bid_str := str_Z (id bm) in
  if bool_decide (is_Some (processed_manifest st !! bid_str)) then st
  else
    let k := handled st in
    let st := State (processed_manifest st) (count st) (processed_in_session st)
                    (files st) (written st) (saves st) (S k) in
    let '(html_content, fetch_error_msg) := full_text w k (id bm) in
    if bool_decide (html_content = []) then
      save_every 50
        (record_entry bid_str
           (Entry STATUS_FETCH_FAILED (title bm)
              (Some (default
                       (lit "No HTML content returned, no specific error captured.")
                       (fetch_error_msg ≫= nonempty)))
              None)
           st)
    else
      match markdownify w html_content with
      | inl msg =>
          record_entry bid_str
            (Entry STATUS_CONVERSION_FAILED (title bm) (Some msg) None) st
      | inr md_content =>
          let out := output_file_path w bm in
          let text := join [NEWLINE] (frontmatter bm) ++ md_content in
          let fs :=
            LiveExport.files_after (write_document w k out text) out text (files st) in
          match write_document w k out text with
          | LiveExport.WriteRaises _ _ =>
              State (processed_manifest st) (count st) (processed_in_session st)
                    fs (written st) (saves st) (handled st)
          | LiveExport.WriteCompletes =>
              save_every 20
                (record_entry bid_str
                   (Entry STATUS_SUCCESS (title bm) None (Some out))
                   (State (processed_manifest st) (S (count st))
                          (processed_in_session st) fs
                          (written st ++ [(out, text)]) (saves st) (handled st)))
          end
      end.

(** Lines 259-403: [main] on the manifest and the rows it loads. *)
Definition main (w : world) (fs : gmap pystr pystr)
    (manifest : option (gmap pystr entry)) (archived_bookmarks : list bm_data)
  : state :=
  let st := State (default ∅ manifest) 0 0 fs [] [] 0 in
  match archived_bookmarks with
  | [] => st
  | _ => save_manifest (foldl (process_row w) st archived_bookmarks)
  end.

(** The document that line 383 is about to write for a row, as path and
    text; [None] when [process_row] does not get that far. *)
Definition document_for (w : world) (st : state) (bm : bm_data)
  : option (pystr * pystr) :=
  if bool_decide (is_Some (processed_manifest st !! str_Z (id bm))) then None
  else
    let html := fst (full_text w (handled st) (id bm)) in
    if bool_decide (html = []) then None
    else
      match markdownify w html with
      | inl _ => None
      | inr md_content =>
          Some (output_file_path w bm, join [NEWLINE] (frontmatter bm) ++ md_content)
      end.

(** The three shapes of the entries [process_row] records. *)
Definition entry_ok (e : entry) : bool :=
  bool_decide (status e = STATUS_SUCCESS) && bool_decide (error_message e = None)
    && bool_decide (is_Some (file_path e))
  || (bool_decide (status e = STATUS_FETCH_FAILED)
      || bool_decide (status e = STATUS_CONVERSION_FAILED))
     && bool_decide (is_Some (error_message e)) && bool_decide (file_path e = None).

(** A manifest document as the import writes it, for the rows [rows] and the
    manifest [initial] the run found: every entry has one of the three
    shapes, and it is an entry of [initial] or it is keyed by the stringified
    identifier of a row and carries that row's title. *)
Definition manifest_ok (initial : gmap pystr entry) (rows : list bm_data)
    (doc : gmap pystr entry) : Prop :=
  forall key e, doc !! key = Some e ->
    entry_ok e = true /\
    (initial !! key = Some e \/
     exists bm, bm ∈ rows /\ key = str_Z (id bm) /\ entry_title e = title bm).

(** Every entry of [doc] with status ["success"] is an entry the run found
    in [initial], or names a file among the documents [written]. *)
Definition backed (initial : gmap pystr entry) (written : list (pystr * pystr))
    (doc : gmap pystr entry) : Prop :=
  forall key e, doc !! key = Some e -> status e = STATUS_SUCCESS ->
    initial !! key = Some e \/
    exists out text, file_path e = Some out /\ (out, text) ∈ written.

(** The property [P] of a manifest, given the documents written so far,
    holds of the manifest of [st] and of every document [st] has saved. *)
Definition kept (P : list (pystr * pystr) -> gmap pystr entry -> Prop)
    (st : state) : Prop :=
  P (written st) (processed_manifest st) /\
  Forall (P (written st)) (saves st).



End BulkImport.

(** * [diagnostic_scripts/test_instapaper_pagination.py] *)

Module PaginationTest.

Definition MAX_LIMIT : Z := 500.

(** Lines 58-67: the payload for [have_ids] ([None] or a set). *)
Definition bookmarks_payload (have_ids : option (gset Z)) (folder : pystr)
  : LiveExport.payload :=
  LiveExport.Payload MAX_LIMIT folder
    (match have_ids with
     | None => None
     | Some ids =>
         if bool_decide (elements ids = []) then None
         else Some (take 50 (elements ids))
     end).

(** Lines 105-110: the identifiers of a batch that are added, with the
    number of them. *)
Fixpoint add_new (batch : list Z) (all_bookmark_ids : gset Z) : gset Z * nat :=
  match batch with
  | [] => (all_bookmark_ids, 0%nat)
  | bookmark_id :: rest =>
      if (0 <? bookmark_id) && negb (bool_decide (bookmark_id ∈ all_bookmark_ids))
      then let '(s, n) := add_new rest ({[bookmark_id]} ∪ all_bookmark_ids) in (s, S n)
      else add_new rest all_bookmark_ids
  end.

(** How the test ends: the loop is left with the number of bookmarks
    retrieved, or it is still going after the given number of batches. *)
Inductive ending : Type :=
| Finished (total_retrieved : nat) (all_bookmark_ids : gset Z)
| Running (total_retrieved : nat) (all_bookmark_ids : gset Z).

(** Lines 89-129, for at most [fuel] batches. [remote k p] is the list of
    [bookmark_id]s (after [int]) in the answer to the [k]-th request, or
    [None] when the request or the decoding raises, which the [except] of
    line 128 catches. *)
Fixpoint main_loop (fuel : nat) (remote : nat -> LiveExport.payload -> option (list Z))
    (folder : pystr) (batch_number : nat) (all_bookmark_ids : gset Z)
    (total_retrieved : nat) : ending :=
  match fuel with
  | O => Running total_retrieved all_bookmark_ids
  | S fuel' =>
      let have_ids :=
        if bool_decide (elements all_bookmark_ids = []) then None
        else Some all_bookmark_ids in
      match remote (batch_number - 1)%nat (bookmarks_payload have_ids folder) with
      | None => Finished total_retrieved all_bookmark_ids
      | Some batch =>
          let '(ids, new_bookmark_count) := add_new batch all_bookmark_ids in
          let total := (total_retrieved + new_bookmark_count)%nat in
          if bool_decide (new_bookmark_count = 0%nat) then Finished total ids
          else main_loop fuel' remote folder (S batch_number) ids total
      end
  end.

Definition main (fuel : nat) (remote : nat -> LiveExport.payload -> option (list Z))
  : ending :=
  main_loop fuel remote (lit "archive") 1 ∅ 0.

End PaginationTest.

(** * Sample inputs *)

Module Samples.

(** [str()] of the scalars an error object carries. *)
Definition format_scalar (v : json) : pystr :=
  match v with
  | JInt z => str_Z z
  | JStr s => s
  | _ => []
  end.

Definition unavailable : response :=
  Response 503 (lit "Service Unavailable")
           (lit "https://www.instapaper.com/api/1/bookmarks/list")
           (Undecodable (lit "Expecting value: line 1 column 1 (char 0)")).

Definition always_unavailable (k : nat) : call_result := Responds unavailable.

Definition rate_limited : json :=
  JDict [ (lit "type", JStr (lit "error"));
          (lit "error_code", JInt 1040);
          (lit "message", JStr (lit "Rate-limit exceeded")) ].

Definition ok_with_error : response :=
  Response 200 (lit "OK") (lit "https://www.instapaper.com/api/1/bookmarks/list")
           (Decoded rate_limited).

(** Two 503 answers, then a 200 answer that carries an API error. *)
Definition error_on_third (k : nat) : call_result :=
  if (k <? 2)%nat then Responds unavailable else Responds ok_with_error.

Definition empty_listing : json := JDict [ (lit "bookmarks", JList []) ].

Definition ok_listing : response :=
  Response 200 (lit "OK") (lit "https://www.instapaper.com/api/1/bookmarks/list")
           (Decoded empty_listing).

(** Two 503 answers, then a good one. *)
Definition recovers_on_third (k : nat) : call_result :=
  if (k <? 2)%nat then Responds unavailable else Responds ok_listing.

(** A 200 answer whose body is not JSON, every time. *)
Definition garbled : response :=
  Response 200 (lit "OK") (lit "https://www.instapaper.com/api/1/bookmarks/list")
           (Undecodable (lit "Expecting value: line 1 column 1 (char 0)")).

Definition always_garbled (k : nat) : call_result := Responds garbled.

Definition forbidden : response :=
  Response 403 (lit "Forbidden") (lit "https://www.instapaper.com/api/1/bookmarks/list")
           (Undecodable []).

Definition always_forbidden (k : nat) : call_result := Responds forbidden.

Definition text_url : pystr := lit "https://www.instapaper.com/api/1/bookmarks/get_text".

(** A 204 answer, and a 400 answer that carries an API error. *)
Definition no_content_page : LiveExport.page :=
  LiveExport.Page 204 (lit "No Content") text_url [] (Undecodable []).

Definition text_error : json :=
  JDict [ (lit "type", JStr (lit "error"));
          (lit "error_code", JInt 1550);
          (lit "message", JStr (lit "Error generating text version of this URL")) ].

Definition bad_request_page : LiveExport.page :=
  LiveExport.Page 400 (lit "Bad Request") text_url
    (lit "[{...}]") (Decoded (JList [text_error])).

(** A list answer that mixes a user record, two bookmarks and a string. *)
Definition mixed_listing : json :=
  JList [ JDict [ (lit "type", JStr (lit "user")); (lit "user_id", JInt 1) ];
          JDict [ (lit "type", JStr (lit "bookmark")); (lit "bookmark_id", JInt 42) ];
          JStr (lit "noise");
          JDict [ (lit "type", JStr (lit "bookmark")); (lit "bookmark_id", JInt 43) ] ].

(** A folder list with two folders of the same title. *)
Definition folder_listing : json :=
  JList [ JDict [ (lit "type", JStr (lit "folder")); (lit "title", JStr (lit "archive"));
                  (lit "folder_id", JInt 100) ];
          JDict [ (lit "type", JStr (lit "folder")); (lit "title", JStr (lit "Recipes"));
                  (lit "folder_id", JInt 101) ];
          JDict [ (lit "type", JStr (lit "folder")); (lit "title", JStr (lit "archive"));
                  (lit "folder_id", JInt 102) ] ].

(** The title [A "Quoted" Title]. *)
Definition quoted_title : pystr :=
  lit "A " ++ [QUOTE] ++ lit "Quoted" ++ [QUOTE] ++ lit " Title".

(** The item [{id: 42, title: 'A "Quoted" Title', saved_ts: 1700000000}]. *)
Definition item42 : LiveExport.bookmark :=
  LiveExport.Bookmark 42 (Some quoted_title)
    (Some (lit "https://example.com/a")) (Some (JInt 1700000000)) None.

(** An item whose primary timestamp does not parse and whose secondary
    timestamp does. *)
Definition item_bad_primary : LiveExport.bookmark :=
  LiveExport.Bookmark 7 (Some (lit "Seven")) (Some (lit "https://example.com/7"))
    (Some (JStr (lit "soon"))) (Some (JInt 1700000000)).

(** Another bookmark with the title and the save time of item 42. *)
Definition item43 : LiveExport.bookmark :=
  LiveExport.Bookmark 43 (Some quoted_title)
    (Some (lit "https://example.com/b")) (Some (JInt 1700000000)) None.

(** A process whose local time is UTC, and one two hours east of it. *)
Definition utc (t : Z) : Z := 0.
Definition utc_plus_2 (t : Z) : Z := 7200.

Definition html_page : pystr := lit "<p>Hello</p>".

(** A remote that ignores the hint: every list request returns item 42. *)
Definition stubborn_world : LiveExport.world :=
  LiveExport.World
    (fun _ _ => inr [item42])
    (fun _ _ => html_page)
    (fun html => inr html)
    (fun _ _ _ => LiveExport.WriteCompletes)
    (fun _ => 1700000000)
    utc (lit "/vault") (lit "archive").

(** A remote that honours the hint: item 42 is returned until the request
    says the caller has it. [text] is what the full-text endpoint yields. *)
Definition honest_world (text : pystr) : LiveExport.world :=
  LiveExport.World
    (fun _ p =>
       if bool_decide (42 ∈ default [] (LiveExport.have p)) then inr []
       else inr [item42])
    (fun _ _ => text)
    (fun html => inr html)
    (fun _ _ _ => LiveExport.WriteCompletes)
    (fun _ => 1700000000)
    utc (lit "/vault") (lit "archive").

(** The same remote, on a disk that refuses every write. *)
Definition read_only_world : LiveExport.world :=
  LiveExport.World
    (LiveExport.list_bookmarks (honest_world html_page))
    (fun _ _ => html_page)
    (fun html => inr html)
    (fun _ _ _ =>
       LiveExport.WriteRaises
         (Exn RuntimeError (lit "[Errno 30] Read-only file system") None) None)
    (fun _ => 1700000000)
    utc (lit "/vault") (lit "archive").

(** A remote that holds six bookmarks and returns, in its own order, those
    the request does not list in [have]. *)
Definition six_ids : list Z := [185; 59; 152; 27; 82; 8].

Definition item_of (bid : Z) : LiveExport.bookmark :=
  LiveExport.Bookmark bid (Some (lit "Item " ++ str_Z bid))
    (Some (lit "https://example.com/" ++ str_Z bid)) (Some (JInt 1700000000)) None.

Definition six_remote : LiveExport.world :=
  LiveExport.World
    (fun _ p =>
       inr (item_of <$>
            List.filter (fun bid =>
                           negb (bool_decide (bid ∈ default [] (LiveExport.have p))))
                        six_ids))
    (fun _ _ => html_page)
    (fun html => inr html)
    (fun _ _ _ => LiveExport.WriteCompletes)
    (fun _ => 1700000000)
    utc (lit "/vault") (lit "archive").

(** Two runs against that remote. CPython 3.11 lists the set built by adding
    185, 59, 152, 27, 82, 8 as 27, 8, 82, 152, 185, 59, and the set built
    from that list as 8, 59, 82, 152, 185, 27. *)
Definition first_run : OrderedExport.world :=
  OrderedExport.World six_remote
    (fun _ => [27; 8; 82; 152; 185; 59]) (fun _ => [27; 8; 82; 152; 185; 59])
    (fun _ _ => OrderedExport.SaveCompletes).

Definition second_run : OrderedExport.world :=
  OrderedExport.World six_remote
    (fun _ => [8; 59; 82; 152; 185; 27]) (fun _ => [8; 59; 82; 152; 185; 27])
    (fun _ _ => OrderedExport.SaveCompletes).

(** The first run on a disk that fills up while the manifest is written:
    the write stops after three characters. *)
Definition disk_full_run : OrderedExport.world :=
  OrderedExport.World six_remote
    (fun _ => [27; 8; 82; 152; 185; 59]) (fun _ => [27; 8; 82; 152; 185; 59])
    (fun _ _ =>
       OrderedExport.SaveStops
         (Some (Exn RuntimeError (lit "[Errno 28] No space left on device") None))
         (Some 3%nat)).

(** Two rows of a CSV export, and a world in which the text of the first
    can be fetched and the text of the second cannot. *)
Definition row42 : BulkImport.bm_data :=
  BulkImport.BmData 42 quoted_title (lit "https://example.com/a") [] [] 0
    (lit "Archive") (Some (DateTime 2023 11 14 22 13 20)) None None.

Definition row43 : BulkImport.bm_data :=
  BulkImport.BmData 43 (lit "Gone") (lit "https://example.com/b") [] [] 0
    (lit "Archive") None None None.

Definition bulk_world : BulkImport.world :=
  BulkImport.World
    (fun _ bid => if bid =? 42 then (html_page, None)
                  else ([], Some (lit "Instapaper API Error 1550 (HTTP 400)")))
    (fun html => inr html)
    (fun _ _ _ => LiveExport.WriteCompletes)
    (lit "/vault").

End Samples.

(** * Properties *)

Section RetryFacts.

Import LiveExport.

Variable format_value : json -> pystr.
Variable max_retries : nat.
Variable backoff : Z.
Variable fn : nat -> call_result.

Lemma is_prefix_app (p s : pystr) : is_prefix p (p ++ s) = true.
Proof.
  induction p as [|a p IH]; simpl; [reflexivity|].
  unfold code_eqb. rewrite N.eqb_refl. exact IH.
Qed.

Lemma contains_prefix (p s : pystr) : contains p (p ++ s) = true.
Proof. destruct (p ++ s) eqn:E; simpl; rewrite <- E, is_prefix_app; reflexivity. Qed.

Lemma contains_prefix_lit (s : pystr) :
  contains (lit "Instapaper API Error") (lit "Instapaper API Error " ++ s) = true.
Proof.
  change (lit "Instapaper API Error " ++ s)
    with (lit "Instapaper API Error" ++ (32%N :: s)).
  apply contains_prefix.
Qed.

Lemma raise_for_status_503 (r : response) :
  status_code r = 503 ->
  raise_for_status r =
    Some (Exn HTTPError
            (str_Z 503 ++ lit " Server Error: " ++ reason r ++ lit " for url: " ++ url r)
            (Some 503)).
Proof. intros H. unfold raise_for_status. rewrite H. reflexivity. Qed.

Lemma raise_for_status_2xx (r : response) :
  200 <= status_code r < 300 -> raise_for_status r = None.
Proof.
  intros H. unfold raise_for_status.
  replace (status_code r <? 500) with true by (symmetry; apply Z.ltb_lt; lia).
  replace (400 <=? status_code r) with false by (symmetry; apply Z.leb_gt; lia).
  replace (500 <=? status_code r) with false by (symmetry; apply Z.leb_gt; lia).
  reflexivity.
Qed.

Lemma delays_from_S (delay : Z) (n : nat) :
  delays_from backoff delay (S n) = delay :: delays_from backoff (delay * backoff) n.
Proof.
  unfold delays_from. rewrite <- cons_seq, fmap_cons, <- fmap_S_seq, <- list_fmap_compose.
  f_equal; [simpl; lia|].
  apply list_fmap_ext. intros _ k _. simpl.
  rewrite Nat2Z.inj_succ, Z.pow_succ_r by lia. lia.
Qed.

(** The loop when every remaining invocation answers 503: [S n] attempts
    remain, the last of them being attempt number [max_retries]. *)
Lemma attempts_loop_503 (resp : nat -> response) (n : nat) :
  (forall k, fn k = Responds (resp k) /\ status_code (resp k) = 503) ->
  forall a delay last_error c slept,
    (a + n = max_retries)%nat ->
    attempts_loop format_value max_retries backoff fn (seq a (S n)) delay last_error c slept
    = Run (inl (Exn HTTPError
                  (str_Z 503 ++ lit " Server Error: " ++ reason (resp (c + n)%nat)
                   ++ lit " for url: " ++ url (resp (c + n)%nat))
                  (Some 503)))
          (S (c + n)) (slept ++ delays_from backoff delay n).
Proof.
  intros Hfn. induction n as [|n IH]; intros a delay last_error c slept Ha.
  - simpl. destruct (Hfn c) as [-> Hs]. simpl.
    rewrite (raise_for_status_503 _ Hs). simpl.
    rewrite bool_decide_eq_true_2 by lia.
    rewrite Nat.add_0_r, app_nil_r. reflexivity.
  - change (seq a (S (S n))) with (a :: seq (S a) (S n)).
    cbn [attempts_loop]. destruct (Hfn c) as [-> Hs]. cbn [try_body].
    rewrite (raise_for_status_503 _ Hs). cbn -[attempts_loop seq str_Z lit].
    rewrite (bool_decide_eq_true_2 (Some 503 = Some 503)) by reflexivity.
    rewrite (bool_decide_eq_false_2 (a = max_retries)) by lia. cbn [negb orb].
    rewrite IH by lia. rewrite delays_from_S.
    replace (S c + n)%nat with (c + S n)%nat by lia.
    rewrite <- app_assoc. reflexivity.
Qed.

(** C4. A wrapped call that answers HTTP 503 on every invocation is invoked
    exactly [max_retries] times; the engine then raises the [HTTPError] of
    the last answer; it sleeps between the attempts for 1, [backoff],
    [backoff^2], ... time units, each delay being the previous one
    multiplied by [backoff]. *)
Theorem retry_cap_on_503 (resp : nat -> response) :
  (1 <= max_retries)%nat ->
  (forall k, fn k = Responds (resp k) /\ status_code (resp k) = 503) ->
  let r := retry_request_with format_value max_retries backoff fn in
  calls r = max_retries /\
  (exists e, outcome r = inl e /\ is_HTTPError e = true /\ exn_status e = Some 503
             /\ raise_for_status (resp (max_retries - 1)%nat) = Some e) /\
  sleeps r = delays_from backoff 1 (max_retries - 1) /\
  length (sleeps r) = (max_retries - 1)%nat /\
  ((2 <= max_retries)%nat -> sleeps r !! 0%nat = Some 1) /\
  (forall k d d', sleeps r !! k = Some d -> sleeps r !! S k = Some d' ->
                  d' = d * backoff).
Proof.
  intros Hmax Hfn r.
  assert (Hr : r = Run (inl (Exn HTTPError
                  (str_Z 503 ++ lit " Server Error: "
                   ++ reason (resp (max_retries - 1)%nat)
                   ++ lit " for url: " ++ url (resp (max_retries - 1)%nat))
                  (Some 503)))
                max_retries (delays_from backoff 1 (max_retries - 1))).
  { subst r. unfold retry_request_with.
    destruct max_retries as [|m] eqn:Em; [lia|].
    rewrite <- Em at 1.
    rewrite (attempts_loop_503 resp m Hfn 1%nat 1 None 0%nat []) by lia.
    simpl. rewrite Nat.sub_0_r. reflexivity. }
  rewrite Hr. cbn [calls outcome sleeps].
  split; [reflexivity|]. split.
  { eexists. repeat split; try reflexivity.
    destruct (Hfn (max_retries - 1)%nat) as [_ Hs].
    symmetry. rewrite (raise_for_status_503 _ Hs). reflexivity. }
  split; [reflexivity|]. split.
  { unfold delays_from. rewrite length_fmap, length_seq. reflexivity. }
  split.
  { intros H2. unfold delays_from. rewrite list_lookup_fmap, lookup_seq_lt by lia.
    simpl. reflexivity. }
  intros k d d'. unfold delays_from. rewrite !list_lookup_fmap.
  intros Hk HSk.
  destruct (seq 0 (max_retries - 1) !! k) as [i|] eqn:Ei; [|discriminate].
  destruct (seq 0 (max_retries - 1) !! S k) as [j|] eqn:Ej; [|discriminate].
  apply lookup_seq in Ei as [-> _]. apply lookup_seq in Ej as [-> _].
  simpl in Hk, HSk. injection Hk as <-. injection HSk as <-.
  rewrite Nat2Z.inj_succ, Z.pow_succ_r by lia. lia.
Qed.

(** C10. Whatever the engine has done so far, when the wrapped call answers
    with a 2xx status and a JSON object whose ["type"] is ["error"], the
    engine raises the API error at once: the wrapped call is not invoked
    again and nothing more is slept. *)
Theorem api_error_is_fatal (attempt : nat) (later : list nat) (delay : Z)
    (last_error : option exn) (c : nat) (slept : list Z)
    (resp : response) (data : json) :
  fn c = Responds resp ->
  200 <= status_code resp < 300 ->
  body resp = Decoded data ->
  dict_field_is (lit "type") (lit "error") data = true ->
  attempts_loop format_value max_retries backoff fn (attempt :: later) delay
                last_error c slept
  = Run (inl (api_error format_value data)) (S c) slept.
Proof.
  intros Hfn Hst Hbody Herr. cbn [attempts_loop]. rewrite Hfn.
  unfold try_body. rewrite (raise_for_status_2xx _ Hst), Hbody, Herr.
  cbn [is_RequestException is_ValueError api_error exn_class_of orb negb].
  unfold handler.
  cbn [is_RequestException api_error exn_class_of exn_text andb].
  rewrite contains_prefix_lit. reflexivity.
Qed.

End RetryFacts.

Lemma retry_cap_on_503_default :
  let r := LiveExport.retry_request Samples.format_scalar Samples.always_unavailable in
  LiveExport.calls r = 5%nat /\ LiveExport.sleeps r = [1; 2; 4; 8]
  /\ exists e, LiveExport.outcome r = inl e /\ exn_status e = Some 503.
Proof.
  pose proof (retry_cap_on_503 Samples.format_scalar LiveExport.MAX_RETRIES
                LiveExport.BACKOFF_FACTOR Samples.always_unavailable
                (fun _ => Samples.unavailable)) as H.
  cbv zeta in H.
  destruct H as (Hc & (e & He & _ & Hs & _) & Hd & _).
  - unfold LiveExport.MAX_RETRIES. lia.
  - intros k. split; reflexivity.
  - cbv zeta. split; [exact Hc|]. split; [exact Hd|]. exists e. split; [exact He|exact Hs].
Defined.

Lemma api_error_is_fatal_on_third :
  LiveExport.retry_request Samples.format_scalar Samples.error_on_third
  = LiveExport.Run
      (inl (LiveExport.api_error Samples.format_scalar Samples.rate_limited))
      3 [1; 2].
Proof.
  transitivity
    (LiveExport.attempts_loop Samples.format_scalar LiveExport.MAX_RETRIES
       LiveExport.BACKOFF_FACTOR Samples.error_on_third [3; 4; 5]%nat 4
       (Some (Exn HTTPError
                (str_Z 503 ++ lit " Server Error: " ++ reason Samples.unavailable
                 ++ lit " for url: " ++ url Samples.unavailable) (Some 503)))
       2%nat [1; 2]).
  - vm_compute. reflexivity.
  - apply (api_error_is_fatal Samples.format_scalar LiveExport.MAX_RETRIES
             LiveExport.BACKOFF_FACTOR Samples.error_on_third 3%nat [4; 5]%nat 4
             _ 2%nat [1; 2] Samples.ok_with_error Samples.rate_limited).
    + reflexivity.
    + cbn. lia.
    + reflexivity.
    + vm_compute. reflexivity.
Defined.

(** ** More on the retry engine *)

Section RetryMore.

Import LiveExport.

Variable format_value : json -> pystr.
Variable max_retries : nat.
Variable backoff : Z.
Variable fn : nat -> call_result.

Lemma retryable_failure (c : call_result) :
  retryable c = true -> exists e, failure_of format_value c = Some e.
Proof.
  unfold failure_of, try_body, retryable. destruct c as [r|e]; [|eauto].
  destruct (raise_for_status r) eqn:Hrs; [eauto|].
  destruct (body r); [eauto|]. rewrite andb_false_r, orb_false_r.
  intros H. apply bool_decide_eq_true_1 in H.
  rewrite (raise_for_status_503 r H) in Hrs. discriminate Hrs.
Qed.

Lemma seq_split (n m : nat) :
  (n < m)%nat -> seq 1 m = seq 1 n ++ (S n :: seq (S (S n)) (m - S n)).
Proof.
  intros H. replace m with (n + S (m - S n))%nat at 1 by lia.
  rewrite seq_app. reflexivity.
Qed.

Lemma raise_for_status_some (r : response) (e : exn) :
  raise_for_status r = Some e ->
  exn_class_of e = HTTPError /\ exn_status e = Some (status_code r)
  /\ 400 <= status_code r < 600.
Proof.
  unfold raise_for_status.
  destruct ((400 <=? status_code r) && (status_code r <? 500)) eqn:H4;
    [|destruct ((500 <=? status_code r) && (status_code r <? 600)) eqn:H5];
    intros H; inversion H; cbn; repeat split; lia.
Qed.

Lemma try_body_bound (c : call_result) (le le1 : option exn) (e : exn) :
  try_body format_value c le = (le1, Threw e true) -> le1 = Some e.
Proof.
  unfold try_body. destruct c as [resp|e0]; [|intros H; inversion H].
  destruct (raise_for_status resp); [intros H; inversion H|].
  destruct (body resp); [intros H; inversion H|].
  destruct (dict_field_is (lit "type") (lit "error") data); intros H; inversion H.
  reflexivity.
Qed.

(** One attempt that ends in a retryable failure, with attempts left. *)
Lemma attempts_loop_retry (attempt : nat) (later : list nat) (delay : Z)
    (last_error : option exn) (c : nat) (slept : list Z) :
  retryable (fn c) = true -> attempt <> max_retries ->
  exists e,
    failure_of format_value (fn c) = Some e /\
    attempts_loop format_value max_retries backoff fn (attempt :: later) delay
                  last_error c slept
    = attempts_loop format_value max_retries backoff fn later (delay * backoff)
                    (Some e) (S c) (slept ++ [delay]).
Proof.
  intros Hr Hne. cbn [attempts_loop]. unfold failure_of, retryable in *.
  destruct (fn c) as [r|e]; cbn [try_body snd].
  - destruct (raise_for_status r) as [e|] eqn:Hrs.
    + assert (Hs : status_code r = 503).
      { unfold raise_for_status in Hrs.
        destruct ((400 <=? status_code r) && (status_code r <? 500)) eqn:H4;
          [|destruct ((500 <=? status_code r) && (status_code r <? 600)) eqn:H5;
            [|discriminate]].
        - assert (Hh : (400 <=? status_code r) && (status_code r <? 600) = true) by lia.
          rewrite Hh in Hr. cbn in Hr. rewrite orb_false_r in Hr.
          apply bool_decide_eq_true_1 in Hr. exact Hr.
        - assert (Hh : (400 <=? status_code r) && (status_code r <? 600) = true) by lia.
          rewrite Hh in Hr. cbn in Hr. rewrite orb_false_r in Hr.
          apply bool_decide_eq_true_1 in Hr. exact Hr. }
      rewrite (raise_for_status_503 r Hs) in Hrs. injection Hrs as <-.
      eexists. split; [reflexivity|]. cbn.
      rewrite (bool_decide_eq_true_2 (Some 503 = Some 503)) by reflexivity.
      rewrite (bool_decide_eq_false_2 (attempt = max_retries)) by exact Hne.
      reflexivity.
    + destruct (body r) as [msg|data].
      * eexists. split; [reflexivity|]. cbn.
        rewrite (bool_decide_eq_false_2 (attempt = max_retries)) by exact Hne.
        reflexivity.
      * exfalso. rewrite andb_false_r, orb_false_r in Hr.
        apply bool_decide_eq_true_1 in Hr.
        rewrite (raise_for_status_503 r Hr) in Hrs. discriminate Hrs.
  - exists e. split; [reflexivity|].
    unfold handler, is_RequestException, is_ValueError, is_HTTPError,
      is_ConnectionError_or_Timeout.
    rewrite (bool_decide_eq_false_2 (attempt = max_retries)) by exact Hne.
    destruct e as [cls text status]. cbn [exn_class_of exn_status] in *.
    destruct cls; try discriminate Hr; cbn; try reflexivity.
    apply bool_decide_eq_true_1 in Hr. subst status.
    rewrite (bool_decide_eq_true_2 (Some 503 <> None)) by discriminate.
    rewrite (bool_decide_eq_true_2 (Some 503 = Some 503)) by reflexivity.
    reflexivity.
Qed.

(** [n] retryable failures in a row, with attempts left after them. *)
Lemma attempts_loop_retries (n : nat) :
  forall a later delay last_error c slept,
    (forall k, (k < n)%nat -> retryable (fn (c + k)%nat) = true) ->
    (a + n <= max_retries)%nat ->
    exists last_error',
      attempts_loop format_value max_retries backoff fn (seq a n ++ later) delay
                    last_error c slept
      = attempts_loop format_value max_retries backoff fn later
                      (delay * backoff ^ Z.of_nat n) last_error' (c + n)%nat
                      (slept ++ delays_from backoff delay n).
Proof.
  induction n as [|n IH]; intros a later delay last_error c slept Hr Ha.
  - exists last_error. cbn [seq app delays_from]. unfold delays_from. cbn.
    rewrite Z.mul_1_r, Nat.add_0_r, app_nil_r. reflexivity.
  - cbn [seq app].
    destruct (attempts_loop_retry a (seq (S a) n ++ later) delay last_error c slept)
      as (e & _ & ->).
    + specialize (Hr 0%nat). rewrite Nat.add_0_r in Hr. apply Hr. lia.
    + lia.
    + destruct (IH (S a) later (delay * backoff) (Some e) (S c) (slept ++ [delay]))
        as (le' & ->).
      * intros k Hk. replace (S c + k)%nat with (c + S k)%nat by lia.
        apply Hr. lia.
      * lia.
      * exists le'. rewrite delays_from_S, <- app_assoc.
        replace (S c + n)%nat with (c + S n)%nat by lia.
        rewrite Nat2Z.inj_succ, Z.pow_succ_r by lia.
        replace (delay * backoff * backoff ^ Z.of_nat n)
          with (delay * (backoff * backoff ^ Z.of_nat n)) by lia.
        reflexivity.
Qed.

(** An answer without HTTP error whose JSON is not an API error ends the
    run with the parsed data. *)
Lemma attempts_loop_good (attempt : nat) (later : list nat) (delay : Z)
    (last_error : option exn) (c : nat) (slept : list Z) (resp : response)
    (data : json) :
  fn c = Responds resp -> raise_for_status resp = None ->
  body resp = Decoded data -> dict_field_is (lit "type") (lit "error") data = false ->
  attempts_loop format_value max_retries backoff fn (attempt :: later) delay
                last_error c slept
  = Run (inr data) (S c) slept.
Proof.
  intros Hfn Hrs Hbody Herr. cbn [attempts_loop]. rewrite Hfn. unfold try_body.
  rewrite Hrs, Hbody, Herr. reflexivity.
Qed.

(** The engine returns the first good answer that comes after retryable
    failures only: after [n] such failures, with [n] below the cap, it has
    invoked the wrapped call [n + 1] times and slept 1, [backoff], ...,
    [backoff ^ (n - 1)]. *)
Theorem retry_returns_first_good (n : nat) (resp : response) (data : json) :
  (n < max_retries)%nat ->
  (forall k, (k < n)%nat -> retryable (fn k) = true) ->
  fn n = Responds resp ->
  ~ (400 <= status_code resp < 600) ->
  body resp = Decoded data ->
  dict_field_is (lit "type") (lit "error") data = false ->
  retry_request_with format_value max_retries backoff fn
  = Run (inr data) (S n) (delays_from backoff 1 n).
Proof.
  intros Hn Hr Hfn Hst Hbody Herr. unfold retry_request_with.
  rewrite (seq_split n max_retries Hn).
  destruct (attempts_loop_retries n 1%nat
              (S n :: seq (S (S n)) (max_retries - S n)) 1 None 0%nat [])
    as (le' & ->); [exact Hr|lia|].
  cbn [app Nat.add]. apply attempts_loop_good with (resp := resp); try assumption.
  unfold raise_for_status.
  destruct ((400 <=? status_code resp) && (status_code resp <? 500)) eqn:H4; [lia|].
  destruct ((500 <=? status_code resp) && (status_code resp <? 600)) eqn:H5; [lia|].
  reflexivity.
Qed.

(** When every answer is a retryable failure, the wrapped call is invoked
    exactly [max_retries] times, the delays slept are 1, [backoff], ...,
    [backoff ^ (max_retries - 2)], and the exception of the last attempt is
    raised: for a body that is not JSON this is the [ValueError] of line 119. *)
Theorem retry_gives_up_at_cap :
  (1 <= max_retries)%nat ->
  (forall k, (k < max_retries)%nat -> retryable (fn k) = true) ->
  let r := retry_request_with format_value max_retries backoff fn in
  calls r = max_retries /\
  sleeps r = delays_from backoff 1 (max_retries - 1) /\
  exists e, outcome r = inl e /\
            failure_of format_value (fn (max_retries - 1)%nat) = Some e.
Proof.
  intros Hmax Hr r.
  cut (exists e, r = Run (inl e) max_retries (delays_from backoff 1 (max_retries - 1))
                 /\ failure_of format_value (fn (max_retries - 1)%nat) = Some e).
  { intros (e & -> & He). cbn [calls sleeps outcome]. eauto. }
  subst r. unfold retry_request_with.
  rewrite (seq_split (max_retries - 1) max_retries) by lia.
  replace (max_retries - S (max_retries - 1))%nat with 0%nat by lia. cbn [seq].
  destruct (attempts_loop_retries (max_retries - 1) 1%nat
              [S (max_retries - 1)] 1 None 0%nat [])
    as (le' & ->); [intros k Hk; apply Hr; lia|lia|].
  cbn [app Nat.add].
  assert (Hlast : retryable (fn (max_retries - 1)%nat) = true) by (apply Hr; lia).
  destruct (retryable_failure _ Hlast) as (e & He).
  cbn [attempts_loop]. unfold failure_of in He.
  destruct (try_body format_value (fn (max_retries - 1)%nat) le') as [le1 ending] eqn:Et.
  assert (Hend : exists b, ending = Threw e b).
  { unfold try_body in *. destruct (fn (max_retries - 1)%nat) as [resp|e0].
    - destruct (raise_for_status resp).
      + cbn in He. injection He as <-. injection Et as _ <-. eauto.
      + destruct (body resp).
        * cbn in He. injection He as <-. injection Et as _ <-. eauto.
        * destruct (dict_field_is (lit "type") (lit "error") data).
          -- cbn in He. injection He as <-. injection Et as _ <-. eauto.
          -- cbn in He. discriminate He.
    - cbn in He. injection He as <-. injection Et as _ <-. eauto. }
  destruct Hend as (b & ->).
  assert (Hcaught : is_RequestException e || is_ValueError e = true).
  { unfold retryable, try_body in *. destruct (fn (max_retries - 1)%nat) as [resp|e0].
    - destruct (raise_for_status resp) as [e1|] eqn:Hrs.
      + cbn in He. injection He as <-. unfold raise_for_status in Hrs.
        repeat case_match; try discriminate; injection Hrs as <-; reflexivity.
      + destruct (body resp).
        * cbn in He. injection He as <-. reflexivity.
        * destruct (dict_field_is (lit "type") (lit "error") data);
            cbn in He; [injection He as <-; reflexivity|discriminate].
    - cbn in He. injection He as <-.
      unfold is_RequestException, is_ValueError.
      destruct (exn_class_of e0); try discriminate Hlast; reflexivity. }
  rewrite Hcaught. cbn [negb].
  destruct (handler e b le1) as [le2 sr] eqn:Eh.
  replace (S (max_retries - 1)) with max_retries by lia.
  rewrite (bool_decide_eq_true_2 (max_retries = max_retries)) by reflexivity.
  rewrite orb_true_r.
  assert (Hle2 : default e le2 = e).
  { unfold handler in Eh. destruct (b && is_RequestException e
        && contains (lit "Instapaper API Error") (exn_text e)) eqn:Eb.
    - injection Eh as <- _. destruct b; [|discriminate Eb].
      rewrite (try_body_bound _ _ _ _ Et). reflexivity.
    - injection Eh as <- _. reflexivity. }
  rewrite Hle2. exists e. split; [|exact He].
  cbn [app]. reflexivity.
Qed.

(** An answer that is not retryable ends the run at once, whatever the
    engine has done before: an exception of the wrapped call is raised as it
    is, an HTTP error status other than 503 is raised as the [HTTPError] of
    [raise_for_status]; the wrapped call is not invoked again and nothing
    more is slept. *)
Theorem retry_stops_on_fatal (attempt : nat) (later : list nat) (delay : Z)
    (last_error : option exn) (c : nat) (slept : list Z) :
  (forall e, fn c = Throws e -> retryable (Throws e) = false ->
     attempts_loop format_value max_retries backoff fn (attempt :: later) delay
                   last_error c slept
     = Run (inl e) (S c) slept) /\
  (forall resp e, fn c = Responds resp -> raise_for_status resp = Some e ->
     status_code resp <> 503 ->
     attempts_loop format_value max_retries backoff fn (attempt :: later) delay
                   last_error c slept
     = Run (inl e) (S c) slept).
Proof.
  split.
  - intros e Hfn Hr. cbn [attempts_loop]. rewrite Hfn. cbn [try_body].
    unfold retryable in Hr. destruct e as [cls text status].
    cbn [exn_class_of exn_status] in Hr.
    unfold handler, is_RequestException, is_ValueError, is_HTTPError,
      is_ConnectionError_or_Timeout.
    destruct cls; try discriminate Hr; cbn; try reflexivity.
    apply bool_decide_eq_false_1 in Hr.
    destruct status as [s|]; cbn.
    + rewrite (bool_decide_eq_false_2 (Some s = Some 503)) by exact Hr.
      reflexivity.
    + reflexivity.
  - intros resp e Hfn Hrs Hne. cbn [attempts_loop]. rewrite Hfn. cbn [try_body].
    rewrite Hrs. destruct (raise_for_status_some resp e Hrs) as (Hc & Hs & _).
    destruct e as [cls text status]. cbn [exn_class_of exn_status] in Hc, Hs.
    subst cls status. cbn.
    rewrite (bool_decide_eq_false_2 (Some (status_code resp) = Some 503)) by congruence.
    reflexivity.
Qed.

(** From a loop state with [m + 1] attempts left, the last being attempt
    number [max_retries]: the run makes between 1 and [m + 1] further
    invocations and sleeps before each but the first of them. *)
Lemma attempts_loop_bounds (m : nat) :
  forall a delay last_error c slept, (a + m = max_retries)%nat ->
    exists n, (n <= m)%nat /\
      calls (attempts_loop format_value max_retries backoff fn (seq a (S m)) delay
                           last_error c slept) = (c + S n)%nat /\
      sleeps (attempts_loop format_value max_retries backoff fn (seq a (S m)) delay
                            last_error c slept)
      = slept ++ delays_from backoff delay n.
Proof.
  induction m as [|m IH]; intros a delay last_error c slept Ha.
  - exists 0%nat. split; [lia|]. cbn [seq attempts_loop].
    destruct (try_body format_value (fn c) last_error) as [le1 [data|e b]].
    + cbn. rewrite app_nil_r. split; [lia|reflexivity].
    + destruct (negb (is_RequestException e || is_ValueError e)).
      * cbn. rewrite app_nil_r. split; [lia|reflexivity].
      * destruct (handler e b le1) as [le2 sr].
        rewrite (bool_decide_eq_true_2 (a = max_retries)) by lia.
        rewrite orb_true_r. cbn. rewrite app_nil_r. split; [lia|reflexivity].
  - change (seq a (S (S m))) with (a :: seq (S a) (S m)). cbn [attempts_loop].
    destruct (try_body format_value (fn c) last_error) as [le1 [data|e b]].
    + exists 0%nat. cbn. rewrite app_nil_r. split; [lia|]. split; [lia|reflexivity].
    + destruct (negb (is_RequestException e || is_ValueError e)).
      * exists 0%nat. cbn. rewrite app_nil_r. split; [lia|]. split; [lia|reflexivity].
      * destruct (handler e b le1) as [le2 sr].
        destruct (negb sr || bool_decide (a = max_retries)).
        -- exists 0%nat. cbn. rewrite app_nil_r. split; [lia|]. split; [lia|reflexivity].
        -- destruct (IH (S a) (delay * backoff) le2 (S c) (slept ++ [delay]))
             as (n & Hn & Hc & Hs); [lia|].
           exists (S n). split; [lia|]. rewrite Hc, Hs. split; [lia|].
           rewrite delays_from_S, <- app_assoc. reflexivity.
Qed.

(** Whatever the wrapped call does, the engine invokes it at most
    [max_retries] times (at least once when [max_retries] is positive) and
    sleeps only between invocations: the delays are 1, [backoff],
    [backoff ^ 2], ..., one fewer than the invocations. With [max_retries]
    zero it raises [RuntimeError] without invoking the call. *)
Theorem retry_request_bounds :
  let r := retry_request_with format_value max_retries backoff fn in
  (calls r <= max_retries)%nat /\
  sleeps r = delays_from backoff 1 (calls r - 1) /\
  ((1 <= max_retries)%nat -> (1 <= calls r)%nat) /\
  (max_retries = 0%nat ->
   calls r = 0%nat /\ exists e, outcome r = inl e /\ exn_class_of e = RuntimeError).
Proof.
  cbv zeta. unfold retry_request_with.
  destruct (Nat.eq_dec max_retries 0%nat) as [E0|Hpos].
  - rewrite E0. cbn. repeat split; try lia. eexists. split; reflexivity.
  - replace (seq 1 max_retries) with (seq 1 (S (max_retries - 1)))
      by (f_equal; lia).
    destruct (attempts_loop_bounds (max_retries - 1) 1%nat 1 None 0%nat [])
      as (n & Hn & Hc & Hs); [lia|].
    rewrite Hc, Hs. cbn [app Nat.add].
    replace (S n - 1)%nat with n by lia.
    repeat split; try lia.
Qed.

End RetryMore.

Lemma retry_returns_first_good_witness :
  LiveExport.retry_request Samples.format_scalar Samples.recovers_on_third
  = LiveExport.Run (inr Samples.empty_listing) 3 [1; 2].
Proof.
  apply (retry_returns_first_good Samples.format_scalar LiveExport.MAX_RETRIES
           LiveExport.BACKOFF_FACTOR Samples.recovers_on_third 2 Samples.ok_listing
           Samples.empty_listing).
  - unfold LiveExport.MAX_RETRIES. lia.
  - intros k Hk. destruct k as [|[|k]]; [reflexivity|reflexivity|lia].
  - reflexivity.
  - cbn. lia.
  - reflexivity.
  - vm_compute. reflexivity.
Defined.

Lemma retry_gives_up_at_cap_witness :
  let r := LiveExport.retry_request Samples.format_scalar Samples.always_garbled in
  LiveExport.calls r = 5%nat /\ LiveExport.sleeps r = [1; 2; 4; 8] /\
  exists e, LiveExport.outcome r = inl e /\ exn_class_of e = ValueError.
Proof.
  destruct (retry_gives_up_at_cap Samples.format_scalar LiveExport.MAX_RETRIES
              LiveExport.BACKOFF_FACTOR Samples.always_garbled)
    as (Hc & Hs & e & He & Hf).
  - unfold LiveExport.MAX_RETRIES. lia.
  - intros k _. reflexivity.
  - cbv zeta. split; [exact Hc|]. split; [exact Hs|]. exists e. split; [exact He|].
    vm_compute in Hf. injection Hf as <-. reflexivity.
Defined.

Lemma retry_stops_on_fatal_witness :
  exists e,
    LiveExport.retry_request Samples.format_scalar Samples.always_forbidden
    = LiveExport.Run (inl e) 1 [] /\ exn_status e = Some 403.
Proof.
  destruct (raise_for_status Samples.forbidden) as [e|] eqn:Hrs;
    [|vm_compute in Hrs; discriminate Hrs].
  exists e. split.
  - apply (proj2 (retry_stops_on_fatal Samples.format_scalar LiveExport.MAX_RETRIES
                    LiveExport.BACKOFF_FACTOR Samples.always_forbidden 1%nat
                    [2; 3; 4; 5]%nat 1 None 0%nat []) Samples.forbidden e).
    + reflexivity.
    + exact Hrs.
    + cbn. lia.
  - vm_compute in Hrs. injection Hrs as <-. reflexivity.
Defined.

Lemma retry_request_bounds_witness :
  let r := LiveExport.retry_request Samples.format_scalar Samples.recovers_on_third in
  (1 <= LiveExport.calls r <= 5)%nat.
Proof.
  destruct (retry_request_bounds Samples.format_scalar LiveExport.MAX_RETRIES
              LiveExport.BACKOFF_FACTOR Samples.recovers_on_third)
    as (Hle & _ & Hge & _).
  cbv zeta. split; [apply Hge; unfold LiveExport.MAX_RETRIES; lia|exact Hle].
Defined.

(** ** The full-text endpoint, the list answers and the folders *)

Section HtmlFacts.

Import LiveExport.

Variable format_value : json -> pystr.
Variable max_retries : nat.
Variable backoff : Z.
Variable target : pystr.
Variable post : nat -> post_result.

(** A 200 answer ends [retry_request_html] with its text, whatever that text
    is; an answer with another status outside 400..599 (a 204, a 302) ends
    it with a [RequestException] and is not retried, so [fetch_full_text]
    yields the empty string for it. *)
Theorem html_answer_ends_run (attempt : nat) (later : list nat) (delay : Z)
    (last_error : option exn) (c : nat) (slept : list Z) (p : page) :
  post c = Answers p ->
  ~ (400 <= page_status p < 600) ->
  html_attempts_loop format_value max_retries backoff target post
                     (attempt :: later) delay last_error c slept
  = HtmlRun (if bool_decide (page_status p = 200) then inr (page_text p)
             else inl (Exn RequestException
                           (lit "Unexpected status " ++ str_Z (page_status p)) None))
            (S c) slept.
Proof.
  intros Hpost Hst. cbn [html_attempts_loop]. rewrite Hpost. unfold html_try.
  case_bool_decide as H200; [reflexivity|].
  assert (Hrs : raise_for_status
                  (Response (page_status p) (page_reason p) (page_url p) (page_json p))
                = None).
  { unfold raise_for_status. cbn [status_code].
    destruct ((400 <=? page_status p) && (page_status p <? 500)) eqn:H4; [lia|].
    destruct ((500 <=? page_status p) && (page_status p <? 600)) eqn:H5; [lia|].
    reflexivity. }
  rewrite Hrs. reflexivity.
Qed.

(** An HTTP error other than 503 whose body is a JSON list starting with an
    error object is raised at once, and its message becomes
    [Instapaper API Error <code>: <message> (HTTP <status>)]. *)
Theorem html_api_error_message (attempt : nat) (later : list nat) (delay : Z)
    (last_error : option exn) (c : nat) (slept : list Z) (p : page)
    (fields : list (pystr * json)) (rest : list json) :
  post c = Answers p ->
  400 <= page_status p < 600 -> page_status p <> 503 ->
  page_json p = Decoded (JList (JDict fields :: rest)) ->
  dict_field_is (lit "type") (lit "error") (JDict fields) = true ->
  html_attempts_loop format_value max_retries backoff target post
                     (attempt :: later) delay last_error c slept
  = HtmlRun (inl (Exn HTTPError
                      (lit "Instapaper API Error "
                       ++ field_or format_value (lit "error_code") (lit "N/A")
                                   (JDict fields)
                       ++ lit ": "
                       ++ field_or format_value (lit "message") (lit "No message")
                                   (JDict fields)
                       ++ lit " (HTTP " ++ str_Z (page_status p) ++ lit ")")
                      (Some (page_status p))))
            (S c) slept.
Proof.
  intros Hpost Hst Hne Hjson Herr. cbn [html_attempts_loop]. rewrite Hpost.
  unfold html_try. rewrite bool_decide_eq_false_2 by lia.
  destruct (raise_for_status
              (Response (page_status p) (page_reason p) (page_url p) (page_json p)))
    as [e|] eqn:Hrs.
  - destruct (raise_for_status_some _ _ Hrs) as (Hc & Hs & _).
    cbn [status_code] in Hs. destruct e as [cls text status].
    cbn [exn_class_of exn_status] in Hc, Hs. subst cls status.
    unfold html_handler, describe_http_error. rewrite Hjson, Herr. cbn.
    rewrite (bool_decide_eq_false_2 (Some (page_status p) = Some 503)) by congruence.
    reflexivity.
  - exfalso. unfold raise_for_status in Hrs. cbn [status_code] in Hrs.
    destruct ((400 <=? page_status p) && (page_status p <? 500)) eqn:H4;
      [discriminate|].
    destruct ((500 <=? page_status p) && (page_status p <? 600)) eqn:H5;
      [discriminate|]. lia.
Qed.

(** From a loop state with [m + 1] attempts left, the last being attempt
    number [max_retries]. *)
Lemma html_attempts_loop_bounds (m : nat) :
  forall a delay last_error c slept, (a + m = max_retries)%nat ->
    exists n, (n <= m)%nat /\
      html_calls (html_attempts_loop format_value max_retries backoff target post
                    (seq a (S m)) delay last_error c slept) = (c + S n)%nat /\
      html_sleeps (html_attempts_loop format_value max_retries backoff target post
                     (seq a (S m)) delay last_error c slept)
      = slept ++ delays_from backoff delay n.
Proof.
  induction m as [|m IH]; intros a delay last_error c slept Ha.
  - exists 0%nat. split; [lia|]. cbn [seq html_attempts_loop].
    destruct (html_try (post c)) as [text|[e error_body]].
    + cbn. rewrite app_nil_r. split; [lia|reflexivity].
    + destruct (negb (is_RequestException e)).
      * cbn. rewrite app_nil_r. split; [lia|reflexivity].
      * destruct (html_handler format_value e error_body) as [e' sr].
        rewrite (bool_decide_eq_true_2 (a = max_retries)) by lia.
        rewrite orb_true_r. cbn. rewrite app_nil_r. split; [lia|reflexivity].
  - change (seq a (S (S m))) with (a :: seq (S a) (S m)). cbn [html_attempts_loop].
    destruct (html_try (post c)) as [text|[e error_body]].
    + exists 0%nat. cbn. rewrite app_nil_r. split; [lia|]. split; [lia|reflexivity].
    + destruct (negb (is_RequestException e)).
      * exists 0%nat. cbn. rewrite app_nil_r. split; [lia|]. split; [lia|reflexivity].
      * destruct (html_handler format_value e error_body) as [e' sr].
        destruct (negb sr || bool_decide (a = max_retries)).
        -- exists 0%nat. cbn. rewrite app_nil_r. split; [lia|]. split; [lia|reflexivity].
        -- destruct (IH (S a) (delay * backoff) (Some e') (S c) (slept ++ [delay]))
             as (n & Hn & Hc & Hs); [lia|].
           exists (S n). split; [lia|]. rewrite Hc, Hs. split; [lia|].
           rewrite delays_from_S, <- app_assoc. reflexivity.
Qed.

(** Whatever the endpoint does, [retry_request_html] posts at most
    [max_retries] times and sleeps 1, [backoff], ... between the posts only.
    With [max_retries] zero (the import reads it from the environment) it
    posts nothing and raises [RuntimeError], so [fetch_full_text] reports a
    failure for every item. *)
Theorem retry_request_html_bounds :
  let r := retry_request_html format_value max_retries backoff target post in
  (html_calls r <= max_retries)%nat /\
  html_sleeps r = delays_from backoff 1 (html_calls r - 1) /\
  (max_retries = 0%nat ->
   html_calls r = 0%nat /\
   fetch_full_text format_value max_retries backoff target post = [] /\
   fetch_full_text_with_error format_value max_retries backoff target post
   = ([], Some (lit "Retry loop completed without success for " ++ target))).
Proof.
  cbv zeta. unfold fetch_full_text, fetch_full_text_with_error, retry_request_html.
  destruct (Nat.eq_dec max_retries 0%nat) as [E0|Hpos].
  - rewrite E0. cbn. repeat split; lia.
  - replace (seq 1 max_retries) with (seq 1 (S (max_retries - 1)))
      by (f_equal; lia).
    destruct (html_attempts_loop_bounds (max_retries - 1) 1%nat 1 None 0%nat [])
      as (n & Hn & Hc & Hs); [lia|].
    rewrite Hc, Hs. cbn [app Nat.add].
    replace (S n - 1)%nat with n by lia.
    repeat split; try lia.
Qed.

End HtmlFacts.

Lemma html_answer_ends_run_witness :
  LiveExport.retry_request_html Samples.format_scalar 5 2 Samples.text_url
    (fun _ => LiveExport.Answers Samples.no_content_page)
  = LiveExport.HtmlRun
      (inl (Exn RequestException (lit "Unexpected status 204") None)) 1 [].
Proof.
  apply (html_answer_ends_run Samples.format_scalar 5 2 Samples.text_url
           (fun _ => LiveExport.Answers Samples.no_content_page)
           1%nat [2; 3; 4; 5]%nat 1 None 0%nat [] Samples.no_content_page).
  - reflexivity.
  - cbn. lia.
Defined.

Lemma html_api_error_message_witness :
  LiveExport.fetch_full_text_with_error Samples.format_scalar 5 2 Samples.text_url
    (fun _ => LiveExport.Answers Samples.bad_request_page)
  = ([], Some (lit "Instapaper API Error 1550: Error generating text version of this URL (HTTP 400)")).
Proof.
  unfold LiveExport.fetch_full_text_with_error, LiveExport.retry_request_html.
  change (seq 1 5) with (1 :: [2; 3; 4; 5])%nat.
  rewrite (html_api_error_message Samples.format_scalar 5 2 Samples.text_url
             (fun _ => LiveExport.Answers Samples.bad_request_page)
             1%nat [2; 3; 4; 5]%nat 1 None 0%nat [] Samples.bad_request_page
             [ (lit "type", JStr (lit "error")); (lit "error_code", JInt 1550);
               (lit "message", JStr (lit "Error generating text version of this URL")) ]
             []).
  - vm_compute. reflexivity.
  - reflexivity.
  - cbn. lia.
  - cbn. lia.
  - reflexivity.
  - vm_compute. reflexivity.
Defined.

Lemma retry_request_html_bounds_witness :
  LiveExport.fetch_full_text_with_error Samples.format_scalar 0 2 Samples.text_url
    (fun _ => LiveExport.Answers Samples.bad_request_page)
  = ([], Some (lit "Retry loop completed without success for " ++ Samples.text_url)).
Proof.
  destruct (retry_request_html_bounds Samples.format_scalar 0 2 Samples.text_url
              (fun _ => LiveExport.Answers Samples.bad_request_page))
    as (_ & _ & H).
  destruct (H eq_refl) as (_ & _ & H'). exact H'.
Defined.

Section ListAnswers.

Import LiveExport.

Lemma filter_sublist {A} (f : A -> bool) (l : list A) : sublist (List.filter f l) l.
Proof.
  induction l as [|x l IH]; cbn; [constructor|].
  destruct (f x); [apply sublist_skip|apply sublist_cons]; exact IH.
Qed.

Lemma filter_filter_same {A} (f : A -> bool) (l : list A) :
  List.filter f (List.filter f l) = List.filter f l.
Proof.
  induction l as [|x l IH]; cbn; [reflexivity|].
  destruct (f x) eqn:E; cbn; [rewrite E, IH|]; auto.
Qed.

(** What [fetch_bookmarks] makes of the parsed answer. A list answer is
    narrowed to its bookmark-typed objects, unchanged and in their order,
    and narrowing again changes nothing. An object answer yields the list
    under ["bookmarks"] as it is, the empty list when the key is missing,
    and raises [TypeError] when the value is [null] (the [None] guard of
    line 284 comes after the [len] of line 271). Any other answer raises
    [TypeError]. *)
Theorem normalize_bookmarks_shapes :
  (forall items, exists kept,
      normalize_bookmarks (JList items) = inr (JList kept) /\
      sublist kept items /\
      (forall x, In x kept <->
                 In x items /\ dict_field_is (lit "type") (lit "bookmark") x = true) /\
      normalize_bookmarks (JList kept) = inr (JList kept)) /\
  (forall fields l, dict_get (lit "bookmarks") fields = Some (JList l) ->
      normalize_bookmarks (JDict fields) = inr (JList l)) /\
  (forall fields, dict_get (lit "bookmarks") fields = None ->
      normalize_bookmarks (JDict fields) = inr (JList [])) /\
  (forall fields, dict_get (lit "bookmarks") fields = Some JNull ->
      normalize_bookmarks (JDict fields) = inl TypeError) /\
  (forall data, (forall items, data <> JList items) ->
                (forall fields, data <> JDict fields) ->
                normalize_bookmarks data = inl TypeError).
Proof.
  split; [|split; [|split; [|split]]].
  - intros items.
    exists (List.filter (dict_field_is (lit "type") (lit "bookmark")) items).
    split; [reflexivity|]. split; [apply filter_sublist|]. split.
    + intros x. apply filter_In.
    + cbn [normalize_bookmarks]. rewrite filter_filter_same. reflexivity.
  - intros fields l H. cbn [normalize_bookmarks]. rewrite H. reflexivity.
  - intros fields H. cbn [normalize_bookmarks]. rewrite H. reflexivity.
  - intros fields H. cbn [normalize_bookmarks]. rewrite H. reflexivity.
  - intros data Hl Hd. destruct data; try reflexivity.
    + exfalso. exact (Hl _ eq_refl).
    + exfalso. exact (Hd _ eq_refl).
Qed.

Lemma folder_pairs_origin (items : list json) :
  forall pairs t i, folder_pairs items = inr pairs -> In (t, i) pairs ->
    exists fields, In (JDict fields) items /\
                   dict_field_is (lit "type") (lit "folder") (JDict fields) = true /\
                   dict_get (lit "title") fields = Some t /\
                   dict_get (lit "folder_id") fields = Some i.
Proof.
  induction items as [|item rest IH]; intros pairs t i; cbn [folder_pairs].
  - intros H; injection H as <-. intros [].
  - destruct (dict_field_is (lit "type") (lit "folder") item) eqn:Et.
    + destruct item as [| | | |l|fields];
        try (intros H Hin; destruct (IH _ _ _ H Hin) as (f & Hf & Hrest);
             exists f; split; [right; exact Hf|exact Hrest]).
      destruct (dict_get (lit "title") fields) as [tt|] eqn:Ett; [|discriminate].
      destruct (dict_get (lit "folder_id") fields) as [ii|] eqn:Eii;
        [|destruct tt; discriminate].
      destruct (folder_pairs rest) as [err|ps] eqn:Er.
      * destruct tt; discriminate.
      * intros H Hin.
        assert (Hp : pairs = (tt, ii) :: ps) by (destruct tt; congruence).
        subst pairs. destruct Hin as [Heq|Hin].
        -- injection Heq as <- <-. exists fields.
           split; [left; reflexivity|]. auto.
        -- destruct (IH ps t i eq_refl Hin) as (f & Hf & Hrest).
           exists f. split; [right; exact Hf|exact Hrest].
    + intros H Hin. destruct (IH _ _ _ H Hin) as (f & Hf & Hrest).
      exists f. split; [right; exact Hf|exact Hrest].
Qed.

Lemma folders_get_none (key : pystr) (pairs : list (json * json)) :
  (forall t i, In (t, i) pairs -> t <> JStr key) -> folders_get key pairs = None.
Proof.
  induction pairs as [|[t i] rest IH]; intros H; cbn [folders_get]; [reflexivity|].
  rewrite IH by (intros t' i' Hin; apply (H t' i'); right; exact Hin).
  destruct t; try reflexivity. case_bool_decide; [|reflexivity].
  exfalso. apply (H (JStr s) i); [left; reflexivity|congruence].
Qed.

Lemma folders_get_last (key : pystr) (before after : list (json * json)) (i : json) :
  (forall t j, In (t, j) after -> t <> JStr key) ->
  folders_get key (before ++ (JStr key, i) :: after) = Some i.
Proof.
  intros Hafter. induction before as [|[t j] before IH]; cbn [app folders_get].
  - rewrite (folders_get_none key after Hafter).
    rewrite bool_decide_eq_true_2 by reflexivity. reflexivity.
  - rewrite IH. reflexivity.
Qed.

(** How [main] finds the folder to export. A name that no folder record of
    the account carries as title is used as the identifier itself (so is
    ["archive"], unless the account has a folder of that title); otherwise
    the identifier of the last folder record with that title is used. *)
Theorem folder_resolution (key : pystr) (items : list json)
    (pairs : list (json * json)) :
  fetch_folders (JList items) = inr pairs ->
  ((forall fields, In (JDict fields) items ->
      dict_field_is (lit "type") (lit "folder") (JDict fields) = true ->
      dict_get (lit "title") fields <> Some (JStr key)) ->
   resolve_folder key pairs = JStr key) /\
  (forall before after i,
      pairs = before ++ (JStr key, i) :: after ->
      (forall t j, In (t, j) after -> t <> JStr key) ->
      resolve_folder key pairs = i).
Proof.
  intros Hf. cbn [fetch_folders] in Hf. split.
  - intros Hno. unfold resolve_folder. rewrite folders_get_none; [reflexivity|].
    intros t i Hin ->.
    destruct (folder_pairs_origin items pairs _ _ Hf Hin) as (fields & Hi & Ht & Htt & _).
    exact (Hno fields Hi Ht Htt).
  - intros before after i -> Hafter. unfold resolve_folder.
    rewrite folders_get_last by exact Hafter. reflexivity.
Qed.

End ListAnswers.

Lemma folder_resolution_witness :
  exists pairs,
    LiveExport.fetch_folders Samples.folder_listing = inr pairs /\
    LiveExport.resolve_folder (lit "archive") pairs = JInt 102 /\
    LiveExport.resolve_folder (lit "starred") pairs = JStr (lit "starred").
Proof.
  exists [ (JStr (lit "archive"), JInt 100); (JStr (lit "Recipes"), JInt 101);
           (JStr (lit "archive"), JInt 102) ].
  assert (Hf : LiveExport.fetch_folders Samples.folder_listing
               = inr [ (JStr (lit "archive"), JInt 100);
                       (JStr (lit "Recipes"), JInt 101);
                       (JStr (lit "archive"), JInt 102) ])
    by (vm_compute; reflexivity).
  split; [exact Hf|]. split.
  - apply (proj2 (folder_resolution (lit "archive") _ _ Hf)
             [ (JStr (lit "archive"), JInt 100); (JStr (lit "Recipes"), JInt 101) ]
             [] (JInt 102)); [reflexivity|intros t j []].
  - apply (proj1 (folder_resolution (lit "starred") _ _ Hf)).
    intros fields Hin _ Ht. cbn in Hin.
    destruct Hin as [H|[H|[H|[]]]]; injection H as <-; vm_compute in Ht;
      discriminate Ht.
Defined.

(** ** The list request and the manifest file *)

Section ListRequest.

Import LiveExport.

Lemma hint_size_export (processed : gset Z) (folder : pystr) :
  hint_size (bookmarks_payload processed folder) = size processed.
Proof.
  unfold hint_size, bookmarks_payload. cbn [have].
  case_bool_decide as E; [|reflexivity].
  apply elements_empty_inv in E. apply leibniz_equiv in E. subst.
  rewrite size_empty. reflexivity.
Qed.

Lemma hint_size_test (seen : option (gset Z)) (folder : pystr) :
  hint_size (PaginationTest.bookmarks_payload seen folder)
  = match seen with None => 0%nat | Some ids => (50 `min` size ids)%nat end.
Proof.
  unfold hint_size, PaginationTest.bookmarks_payload. cbn [have].
  destruct seen as [ids|]; [|reflexivity].
  case_bool_decide as E.
  - apply elements_empty_inv in E. apply leibniz_equiv in E. subst.
    rewrite size_empty. reflexivity.
  - cbn. rewrite length_take. unfold size, set_size. cbn. lia.
Qed.

(** C9, as the scripts have it. Every list request carries the page-size
    ceiling 500. The request of the pagination test carries at most 50 of the
    identifiers seen; the request of the export carries every identifier of
    [processed]. *)
Theorem list_request_hint (processed : gset Z) (seen : option (gset Z))
    (folder : pystr) :
  limit (bookmarks_payload processed folder) = 500 /\
  limit (PaginationTest.bookmarks_payload seen folder) = 500 /\
  (hint_size (PaginationTest.bookmarks_payload seen folder) <= 50)%nat /\
  hint_size (bookmarks_payload processed folder) = size processed.
Proof.
  split; [reflexivity|]. split; [reflexivity|]. split.
  - rewrite hint_size_test. destruct seen; lia.
  - apply hint_size_export.
Qed.

(** C9, refuted for the export: no bound holds for the hint of its list
    requests. *)
Lemma export_hint_unbounded :
  ~ exists bound : nat, forall (processed : gset Z) (folder : pystr),
        (hint_size (bookmarks_payload processed folder) <= bound)%nat.
Proof.
  intros [bound H].
  specialize (H (list_to_set (Z.of_nat <$> seq 0 (S bound))) (lit "archive")).
  rewrite hint_size_export, size_list_to_set in H.
  - rewrite length_fmap, length_seq in H. lia.
  - apply NoDup_fmap; [apply Nat2Z.inj'|apply NoDup_seq].
Qed.

Lemma json_dumps_ints_nonempty (ids : list Z) : json_dumps_ints ids <> [].
Proof. unfold json_dumps_ints. discriminate. Qed.

Lemma write_text_states_opened (old : option pystr) (data : pystr) :
  write_text_states old data !! 1%nat = Some (Some []).
Proof. unfold write_text_states. rewrite <- cons_seq. reflexivity. Qed.

(** C1, as the scripts have it. [save_manifest] overwrites the manifest in
    place with [Path.write_text]: the file holds the previous document until
    it is opened, is empty once opened, then holds a growing prefix of the new
    document, and holds the complete new document when the call returns. *)
Theorem write_text_crash_states (old : option pystr) (data : pystr) :
  Forall (fun s => s = old \/ exists n, (n <= length data)%nat /\ s = Some (take n data))
         (write_text_states old data) /\
  write_text_states old data !! 0%nat = Some old /\
  write_text_states old data !! 1%nat = Some (Some []) /\
  last (write_text_states old data) = Some (Some data).
Proof.
  unfold write_text_states. split; [|split; [reflexivity|split]].
  - constructor; [left; reflexivity|].
    apply Forall_fmap, Forall_forall. intros n Hn. right. exists n.
    apply elem_of_seq in Hn. split; [lia|reflexivity].
  - apply write_text_states_opened.
  - rewrite seq_S, fmap_app. cbn [fmap list_fmap].
    rewrite app_comm_cons, last_snoc. rewrite Nat.add_0_l, firstn_all. reflexivity.
Qed.

(** C1, refuted: a crash right after the manifest has been opened for
    writing leaves an empty file, which is neither the previous document nor
    the new one. *)
Lemma save_manifest_not_atomic :
  let old := Some (json_dumps_ints [1]) in
  let ids : gset Z := {[ 1; 2 ]} in
  exists s, save_manifest_states old ids !! 1%nat = Some s /\
            s <> old /\
            s <> Some (json_dumps_ints (manifest_document ids)).
Proof.
  cbv zeta. exists (Some []). split; [|split].
  - apply write_text_states_opened.
  - discriminate.
  - intros H. injection H as H. symmetry in H.
    exact (json_dumps_ints_nonempty _ H).
Qed.

End ListRequest.

(** ** Titles in file names *)

Section Names.

Lemma char_in_elem (c : N) (s : pystr) : char_in c s = true <-> c ∈ s.
Proof.
  induction s as [|d s IH]; cbn [char_in].
  - split; [discriminate|intros H; inversion H].
  - rewrite orb_true_iff, IH, elem_of_cons. unfold code_eqb. rewrite N.eqb_eq.
    reflexivity.
Qed.

Lemma lstrip_split (s : pystr) :
  exists pre, s = pre ++ lstrip s /\ Forall (fun c => is_space c = true) pre.
Proof.
  induction s as [|c s IH]; cbn [lstrip].
  - exists []. split; [reflexivity|constructor].
  - destruct (is_space c) eqn:E.
    + destruct IH as (pre & H1 & H2). exists (c :: pre). split.
      * cbn [app]. f_equal. exact H1.
      * constructor; assumption.
    + exists []. split; [reflexivity|constructor].
Qed.

Lemma lstrip_head (s : pystr) (c : N) (r : pystr) :
  lstrip s = c :: r -> is_space c = false.
Proof.
  induction s as [|d s IH]; cbn [lstrip]; [discriminate|].
  destruct (is_space d) eqn:E; [exact IH|].
  intros H; injection H as <- _. exact E.
Qed.

Lemma lstrip_fixed (s : pystr) :
  (forall c r, s = c :: r -> is_space c = false) -> lstrip s = s.
Proof.
  destruct s as [|c s]; cbn [lstrip]; [reflexivity|].
  intros H. rewrite (H _ _ eq_refl). reflexivity.
Qed.

Lemma strip_split (s : pystr) :
  exists pre post, s = pre ++ strip s ++ post /\
                   Forall (fun c => is_space c = true) pre /\
                   Forall (fun c => is_space c = true) post.
Proof.
  unfold strip.
  destruct (lstrip_split s) as (pre & H1 & Hp).
  destruct (lstrip_split (rev (lstrip s))) as (q & H2 & Hq).
  exists pre, (rev q). split; [|split; [exact Hp|apply Forall_rev; exact Hq]].
  transitivity (pre ++ lstrip s); [exact H1|]. f_equal.
  apply (f_equal (@rev N)) in H2. rewrite rev_involutive, rev_app_distr in H2.
  exact H2.
Qed.

Lemma strip_head (s : pystr) (c : N) (rest : pystr) :
  strip s = c :: rest -> is_space c = false.
Proof.
  unfold strip. intros H.
  apply (f_equal (@rev N)) in H. rewrite rev_involutive in H. cbn [rev] in H.
  destruct (lstrip_split (rev (lstrip s))) as (q & H2 & _).
  rewrite H in H2. apply (f_equal (@rev N)) in H2.
  rewrite rev_involutive, app_assoc, rev_app_distr in H2. cbn [rev app] in H2.
  exact (lstrip_head _ _ _ H2).
Qed.

Lemma strip_last (s : pystr) (front : pystr) (c : N) :
  strip s = front ++ [c] -> is_space c = false.
Proof.
  unfold strip. intros H.
  apply (f_equal (@rev N)) in H. rewrite rev_involutive, rev_app_distr in H.
  cbn [rev app] in H. exact (lstrip_head _ _ _ H).
Qed.

Lemma strip_fixed (s : pystr) :
  (forall c r, s = c :: r -> is_space c = false) ->
  (forall front c, s = front ++ [c] -> is_space c = false) ->
  strip s = s.
Proof.
  intros Hhead Hlast. unfold strip. rewrite (lstrip_fixed s Hhead).
  rewrite lstrip_fixed; [apply rev_involutive|].
  intros c r H. apply (f_equal (@rev N)) in H. rewrite rev_involutive in H.
  cbn [rev] in H. exact (Hlast _ _ H).
Qed.

Lemma filter_fixed {A} (f : A -> bool) (l : list A) :
  (forall x, In x l -> f x = true) -> List.filter f l = l.
Proof.
  induction l as [|x l IH]; intros H; cbn [List.filter]; [reflexivity|].
  rewrite (H x (or_introl eq_refl)). f_equal. apply IH.
  intros y Hy. apply H. right. exact Hy.
Qed.

(** What stripping a filtered text keeps. *)
Lemma strip_filter_facts (f : N -> bool) (t : pystr) :
  sublist (strip (List.filter f t)) t /\
  (forall c, c ∈ strip (List.filter f t) -> f c = true) /\
  strip (List.filter f (strip (List.filter f t))) = strip (List.filter f t).
Proof.
  destruct (strip_split (List.filter f t)) as (pre & post & Hsplit & _ & _).
  assert (Hin : forall c, c ∈ strip (List.filter f t) -> f c = true).
  { intros c Hc.
    assert (Hc' : c ∈ List.filter f t).
    { rewrite Hsplit. apply elem_of_app. right. apply elem_of_app. left. exact Hc. }
    apply list_elem_of_In, filter_In in Hc'. exact (proj2 Hc'). }
  split; [|split; [exact Hin|]].
  - transitivity (List.filter f t); [|apply filter_sublist].
    rewrite Hsplit at 2. apply sublist_inserts_l, sublist_inserts_r. reflexivity.
  - rewrite filter_fixed.
    + apply strip_fixed; [apply strip_head|apply strip_last].
    + intros c Hc. apply Hin. apply list_elem_of_In. exact Hc.
Qed.

Lemma forbidden_alike (c : N) :
  char_in c BulkImport.FORBIDDEN = char_in c LiveExport.FORBIDDEN.
Proof.
  change BulkImport.FORBIDDEN with [60; 62; 58; 34; 47; 92; 124; 63; 42]%N.
  change LiveExport.FORBIDDEN with [60; 62; 58; 34; 47; 92; 92; 124; 63; 42]%N.
  cbn [char_in]. destruct (code_eqb c 92); cbn [orb]; reflexivity.
Qed.

Lemma forbidden_not_in_literals (c : N) :
  c ∈ LiveExport.FORBIDDEN ->
  (c ∉ lit " ") /\ (c <> EN_DASH) /\ (c ∉ lit ".md").
Proof.
  change LiveExport.FORBIDDEN with [60; 62; 58; 34; 47; 92; 92; 124; 63; 42]%N.
  intros H.
  repeat (apply elem_of_cons in H as [->|H]); [.. | inversion H];
    (split; [|split; [discriminate|]]);
    intros Hc; apply char_in_elem in Hc; vm_compute in Hc; discriminate Hc.
Qed.

(** [sanitize_title] only deletes characters: what it returns is the title
    with some characters left out, in the same order. The result holds none
    of the characters of [FORBIDDEN], neither starts nor ends with white
    space, and sanitising it again changes nothing. The import and the export
    sanitise alike (the doubled backslash in the raw string of the export
    adds nothing). *)
Theorem sanitize_title_safe (t : pystr) :
  sublist (LiveExport.sanitize_title t) t /\
  (forall c, c ∈ LiveExport.FORBIDDEN -> c ∉ LiveExport.sanitize_title t) /\
  (forall c rest, LiveExport.sanitize_title t = c :: rest -> is_space c = false) /\
  (forall front c, LiveExport.sanitize_title t = front ++ [c] -> is_space c = false) /\
  LiveExport.sanitize_title (LiveExport.sanitize_title t) = LiveExport.sanitize_title t /\
  BulkImport.sanitize_title t = LiveExport.sanitize_title t.
Proof.
  unfold LiveExport.sanitize_title, BulkImport.sanitize_title.
  destruct (strip_filter_facts (fun c => negb (char_in c LiveExport.FORBIDDEN)) t)
    as (Hsub & Hin & Hidem).
  split; [exact Hsub|]. split; [|split; [|split; [|split]]].
  - intros c Hc Hc'. apply char_in_elem in Hc. apply Hin in Hc'.
    rewrite Hc in Hc'. discriminate Hc'.
  - apply strip_head.
  - apply strip_last.
  - exact Hidem.
  - f_equal. apply filter_ext. intros c. rewrite forbidden_alike. reflexivity.
Qed.

(** The name of a document: whatever the title, no character of
    [FORBIDDEN] gets into the file name through it (one that occurs in the
    name comes from the date part), so the title cannot add a path separator,
    and the name is at most 86 characters longer than the date part. *)
Theorem file_name_title_part (saved title : pystr) :
  (forall c, c ∈ LiveExport.FORBIDDEN ->
             c ∈ LiveExport.file_name saved title -> c ∈ saved) /\
  (length (LiveExport.file_name saved title) <= length saved + 86)%nat.
Proof.
  unfold LiveExport.file_name. split.
  - intros c Hc Hin.
    destruct (forbidden_not_in_literals c Hc) as (Hsp & Hdash & Hmd).
    destruct (strip_filter_facts (fun c => negb (char_in c LiveExport.FORBIDDEN)) title)
      as (_ & Hok & _).
    apply elem_of_app in Hin as [Hin|Hin]; [exact Hin|exfalso].
    apply elem_of_app in Hin as [Hin|Hin]; [exact (Hsp Hin)|].
    apply elem_of_app in Hin as [Hin|Hin].
    { apply list_elem_of_singleton in Hin. exact (Hdash Hin). }
    apply elem_of_app in Hin as [Hin|Hin]; [exact (Hsp Hin)|].
    apply elem_of_app in Hin as [Hin|Hin]; [|exact (Hmd Hin)].
    assert (Hin' : c ∈ LiveExport.sanitize_title title).
    { rewrite <- (take_drop 80 (LiveExport.sanitize_title title)).
      apply elem_of_app. left. exact Hin. }
    apply Hok in Hin'. apply char_in_elem in Hc. rewrite Hc in Hin'.
    discriminate Hin'.
  - rewrite !length_app, length_take. cbn [length].
    change (length (lit " ")) with 1%nat. change (length (lit ".md")) with 3%nat.
    lia.
Qed.

End Names.

(** ** The credentials of the session *)

Section Session.

Import LiveExport.

Lemma split_go_clean (d : N) (s cur : pystr) :
  d ∉ s -> split_go [d] s cur 0 = [rev cur ++ s].
Proof.
  revert cur. induction s as [|c s IH]; intros cur Hd; cbn [split_go].
  - rewrite app_nil_r. reflexivity.
  - cbn [is_prefix]. unfold code_eqb.
    destruct (N.eqb d c) eqn:E.
    + apply N.eqb_eq in E. subst c. exfalso. apply Hd. left.
    + cbn [andb]. rewrite IH.
      * cbn [rev]. rewrite <- app_assoc. reflexivity.
      * intros H. apply Hd. right. exact H.
Qed.

Lemma split_go_first (d : N) (a s cur : pystr) :
  d ∉ a ->
  split_go [d] (a ++ d :: s) cur 0 = (rev cur ++ a) :: split_go [d] s [] 0.
Proof.
  revert cur. induction a as [|c a IH]; intros cur Hd; cbn [split_go app].
  - cbn [is_prefix]. unfold code_eqb. rewrite N.eqb_refl. cbn [andb length Nat.sub].
    rewrite app_nil_r. reflexivity.
  - cbn [is_prefix]. unfold code_eqb.
    destruct (N.eqb d c) eqn:E.
    + apply N.eqb_eq in E. subst c. exfalso. apply Hd. left.
    + cbn [andb]. rewrite IH.
      * cbn [rev]. rewrite <- app_assoc. reflexivity.
      * intros H. apply Hd. right. exact H.
Qed.

Lemma split_join (d : N) (rest : list pystr) :
  forall p, (forall q, q ∈ p :: rest -> d ∉ q) ->
            split (join [d] (p :: rest)) [d] = p :: rest.
Proof.
  unfold split. induction rest as [|q rest IH]; intros p Hclean.
  - cbn [join]. rewrite split_go_clean; [reflexivity|]. apply Hclean. left.
  - change (join [d] (p :: q :: rest)) with (p ++ d :: join [d] (q :: rest)).
    rewrite split_go_first by (apply Hclean; left). cbn [rev app].
    rewrite IH; [reflexivity|]. intros x Hx. apply Hclean. right. exact Hx.
Qed.

Lemma split_go_length (d : N) (s : pystr) :
  forall cur, length (split_go [d] s cur 0)
              = S (length (List.filter (N.eqb d) s)).
Proof.
  induction s as [|c s IH]; intros cur; cbn [split_go List.filter]; [reflexivity|].
  cbn [is_prefix]. unfold code_eqb. destruct (N.eqb d c); cbn [andb length Nat.sub].
  - rewrite IH. reflexivity.
  - apply IH.
Qed.

Lemma creds_pairs_some (pairs : list (list pystr)) :
  is_Some (creds_pairs pairs) <-> Forall (fun pair => length pair = 2%nat) pairs.
Proof.
  induction pairs as [|pair pairs IH]; cbn [creds_pairs].
  - split; [constructor|eexists; reflexivity].
  - destruct pair as [|k [|v [|x pair]]].
    + split; [intros [? H]; discriminate H|intros H; inversion H; discriminate].
    + split; [intros [? H]; discriminate H|intros H; inversion H; discriminate].
    + destruct (creds_pairs pairs) as [l|].
      * split; [|eexists; reflexivity]. intros _. constructor; [reflexivity|].
        apply IH. eexists. reflexivity.
      * split; [intros [? H]; discriminate H|].
        intros H. inversion H as [|? ? _ Hrest]. apply IH in Hrest as [? Hrest].
        discriminate Hrest.
    + split; [intros [? H]; discriminate H|intros H; inversion H; discriminate].
Qed.

Lemma creds_pairs_rendered (pairs : list (pystr * pystr)) :
  (forall k v, (k, v) ∈ pairs -> (61%N ∉ k) /\ (61%N ∉ v)) ->
  creds_pairs ((fun pair => split pair [61%N])
                 <$> ((fun kv => kv.1 ++ 61%N :: kv.2) <$> pairs))
  = Some pairs.
Proof.
  induction pairs as [|[k v] pairs IH]; intros Hclean; cbn [fmap list_fmap creds_pairs];
    [reflexivity|].
  destruct (Hclean k v) as [Hk Hv]; [left|].
  unfold split at 1. cbn [fst snd]. rewrite split_go_first by exact Hk.
  rewrite split_go_clean by exact Hv. cbn [rev app].
  change (list_fmap _ _ ?f ?l) with (f <$> l).
  rewrite IH; [reflexivity|]. intros k' v' H. apply Hclean. right. exact H.
Qed.

Lemma parse_creds_rendered (pair : pystr * pystr) (pairs : list (pystr * pystr)) :
  (forall k v, (k, v) ∈ pair :: pairs ->
     (38%N ∉ k) /\ (61%N ∉ k) /\ (38%N ∉ v) /\ (61%N ∉ v)) ->
  parse_creds (join [38%N] ((fun kv => kv.1 ++ 61%N :: kv.2) <$> pair :: pairs))
  = Some (pair :: pairs).
Proof.
  intros Hclean. unfold parse_creds. change (lit "=") with [61%N].
  change (lit "&") with [38%N].
  change ((fun kv : pystr * pystr => kv.1 ++ 61%N :: kv.2) <$> pair :: pairs)
    with ((pair.1 ++ 61%N :: pair.2)
            :: ((fun kv : pystr * pystr => kv.1 ++ 61%N :: kv.2) <$> pairs)).
  rewrite split_join.
  - apply (creds_pairs_rendered (pair :: pairs)).
    intros k v H. destruct (Hclean k v H) as (_ & Hk & _ & Hv). auto.
  - intros q Hq.
    change ((pair.1 ++ 61%N :: pair.2)
              :: ((fun kv : pystr * pystr => kv.1 ++ 61%N :: kv.2) <$> pairs))
      with ((fun kv : pystr * pystr => kv.1 ++ 61%N :: kv.2) <$> pair :: pairs)
      in Hq.
    apply list_elem_of_fmap in Hq as ([k v] & -> & Hkv). cbn [fst snd].
    destruct (Hclean k v Hkv) as (Hk & _ & Hv & _).
    intros H. apply elem_of_app in H as [H|H]; [exact (Hk H)|].
    apply elem_of_cons in H as [H|H]; [discriminate H|exact (Hv H)].
Qed.

(** Reading the credentials at line 80. The body is read back pair for pair
    when it is made of at least one key-value pair, the pairs joined by
    ampersands and key and value by an equals sign, and no key or value holds
    either character. In general the body is accepted exactly when every
    piece between ampersands has one equals sign: an empty body, or a value
    with an equals sign in it, raises [ValueError]. *)
Theorem parse_creds_round_trip :
  (forall pair pairs,
     (forall k v, (k, v) ∈ pair :: pairs ->
        (38%N ∉ k) /\ (61%N ∉ k) /\ (38%N ∉ v) /\ (61%N ∉ v)) ->
     parse_creds (join (lit "&")
                    ((fun kv => kv.1 ++ lit "=" ++ kv.2) <$> pair :: pairs))
     = Some (pair :: pairs)) /\
  (forall text,
     is_Some (parse_creds text) <->
     Forall (fun piece => length (List.filter (N.eqb 61) piece) = 1%nat)
            (split text (lit "&"))).
Proof.
  split.
  - exact parse_creds_rendered.
  - intros text. unfold parse_creds. change (lit "=") with [61%N].
    rewrite creds_pairs_some, Forall_fmap. apply Forall_iff. intros piece.
    unfold compose, split. rewrite split_go_length. split; lia.
Qed.

(** With a good status and a body that names the two credentials once each,
    with no ampersand or equals sign inside them, the session is made with
    exactly that token and that secret, whichever comes first in the body. *)
Theorem get_oauth_session_tokens (p : page) (token secret : pystr) :
  raise_for_status
    (Response (page_status p) (page_reason p) (page_url p) (page_json p)) = None ->
  (38%N ∉ token) -> (61%N ∉ token) -> (38%N ∉ secret) -> (61%N ∉ secret) ->
  page_text p = lit "oauth_token=" ++ token ++ lit "&oauth_token_secret=" ++ secret \/
  page_text p = lit "oauth_token_secret=" ++ secret ++ lit "&oauth_token=" ++ token ->
  get_oauth_session p = inr (token, secret).
Proof.
  intros Hstatus Ht1 Ht2 Hs1 Hs2 Htext. unfold get_oauth_session.
  rewrite Hstatus.
  assert (Hkey : forall key, key = lit "oauth_token" \/ key = lit "oauth_token_secret" ->
                             (38%N ∉ key) /\ (61%N ∉ key)).
  { intros key [-> | ->]; split; intros H; apply char_in_elem in H;
      vm_compute in H; discriminate H. }
  destruct (Hkey _ (or_introl eq_refl)) as [Ha1 Ha2].
  destruct (Hkey _ (or_intror eq_refl)) as [Hb1 Hb2].
  assert (Hne : lit "oauth_token_secret" <> lit "oauth_token")
    by (vm_compute; discriminate).
  destruct Htext as [Htext|Htext]; rewrite Htext.
  - change (lit "oauth_token=" ++ token ++ lit "&oauth_token_secret=" ++ secret)
      with (join [38%N] ((fun kv : pystr * pystr => kv.1 ++ 61%N :: kv.2)
                           <$> [(lit "oauth_token", token);
                                (lit "oauth_token_secret", secret)])).
    rewrite parse_creds_rendered.
    + cbn [creds_get]. rewrite (bool_decide_eq_false_2 _ Hne).
      rewrite !bool_decide_eq_true_2 by reflexivity. reflexivity.
    + intros k v H. apply elem_of_cons in H as [H|H].
      * injection H as -> ->. auto.
      * apply list_elem_of_singleton in H. injection H as -> ->. auto.
  - change (lit "oauth_token_secret=" ++ secret ++ lit "&oauth_token=" ++ token)
      with (join [38%N] ((fun kv : pystr * pystr => kv.1 ++ 61%N :: kv.2)
                           <$> [(lit "oauth_token_secret", secret);
                                (lit "oauth_token", token)])).
    rewrite parse_creds_rendered.
    + cbn [creds_get]. rewrite (bool_decide_eq_false_2 _ Hne).
      rewrite !bool_decide_eq_true_2 by reflexivity. reflexivity.
    + intros k v H. apply elem_of_cons in H as [H|H].
      * injection H as -> ->. auto.
      * apply list_elem_of_singleton in H. injection H as -> ->. auto.
Qed.

End Session.

Lemma get_oauth_session_tokens_witness :
  LiveExport.get_oauth_session
    (LiveExport.Page 200 (lit "OK") (lit "https://www.instapaper.com/api/1/oauth/access_token")
       (lit "oauth_token_secret=s3cr3t&oauth_token=t0k3n") (Undecodable []))
  = inr (lit "t0k3n", lit "s3cr3t").
Proof.
  apply (get_oauth_session_tokens
           (LiveExport.Page 200 (lit "OK")
              (lit "https://www.instapaper.com/api/1/oauth/access_token")
              (lit "oauth_token_secret=s3cr3t&oauth_token=t0k3n") (Undecodable []))
           (lit "t0k3n") (lit "s3cr3t")).
  - reflexivity.
  - intros H. apply char_in_elem in H. vm_compute in H. discriminate H.
  - intros H. apply char_in_elem in H. vm_compute in H. discriminate H.
  - intros H. apply char_in_elem in H. vm_compute in H. discriminate H.
  - intros H. apply char_in_elem in H. vm_compute in H. discriminate H.
  - right. reflexivity.
Defined.

(** ** Identifiers as text *)

Section Numbers.

Lemma digit_char (n : N) : is_digit (48 + n mod 10) = true.
Proof.
  unfold is_digit. pose proof (N.mod_lt n 10 ltac:(discriminate)) as H.
  revert H. generalize (n mod 10)%N. intros r H.
  apply andb_true_intro. split; apply N.leb_le; lia.
Qed.

Lemma digit_cases (c : N) :
  is_digit c = true ->
  c = 48%N \/ c = 49%N \/ c = 50%N \/ c = 51%N \/ c = 52%N \/
  c = 53%N \/ c = 54%N \/ c = 55%N \/ c = 56%N \/ c = 57%N.
Proof.
  unfold is_digit. intros H. apply andb_prop in H as [H1 H2].
  apply N.leb_le in H1, H2. lia.
Qed.

Lemma digit_not_space (c : N) : is_digit c = true -> is_space c = false.
Proof.
  intros H. apply digit_cases in H.
  repeat (destruct H as [->|H]; [reflexivity|]). subst c. reflexivity.
Qed.

Lemma digits_fuel_S (f : nat) (n : N) (acc : pystr) :
  digits_fuel (S f) n acc
  = if (n <? 10)%N then (48 + n mod 10)%N :: acc
    else digits_fuel f (n / 10)%N ((48 + n mod 10)%N :: acc).
Proof. reflexivity. Qed.

Lemma digits_fuel_digits (fuel : nat) :
  forall n acc, Forall (fun c => is_digit c = true) acc ->
                Forall (fun c => is_digit c = true) (digits_fuel fuel n acc).
Proof.
  induction fuel as [|fuel IH]; intros n acc Hacc; [exact Hacc|].
  rewrite digits_fuel_S. destruct (n <? 10)%N.
  - constructor; [apply digit_char|exact Hacc].
  - apply IH. constructor; [apply digit_char|exact Hacc].
Qed.

Lemma parse_digit_step (n : N) (acc : pystr) (a : Z) (b : bool) :
  parse_digits ((48 + n mod 10)%N :: acc) a b
  = parse_digits acc (10 * a + Z.of_N (n mod 10)) true.
Proof.
  cbn [parse_digits]. rewrite digit_char. f_equal.
  generalize (n mod 10)%N. intros r. lia.
Qed.

Lemma digits_fuel_parse (f : nat) :
  forall n acc M m,
    (n < 10 ^ N.of_nat (S f))%N ->
    (forall a, parse_digits acc a true = Some (a * M + m)) ->
    exists M', forall a b,
      parse_digits (digits_fuel (S f) n acc) a b
      = Some ((a * M' + Z.of_N n) * M + m).
Proof.
  induction f as [|f IH]; intros n acc M m Hn Hacc; rewrite digits_fuel_S.
  - change (10 ^ N.of_nat 1)%N with 10%N in Hn.
    destruct (n <? 10)%N eqn:E; [|apply N.ltb_ge in E; lia].
    exists 10. intros a b. rewrite parse_digit_step, Hacc.
    rewrite N.mod_small by exact Hn. f_equal. ring.
  - destruct (n <? 10)%N eqn:E.
    + apply N.ltb_lt in E. exists 10. intros a b.
      rewrite parse_digit_step, Hacc. rewrite N.mod_small by exact E.
      f_equal. ring.
    + destruct (IH (n / 10)%N ((48 + n mod 10)%N :: acc) (10 * M)
                  (Z.of_N (n mod 10) * M + m)) as [M1 H1].
      * apply N.Div0.div_lt_upper_bound.
        rewrite (Nat2N.inj_succ (S f)), N.pow_succ_r' in Hn. exact Hn.
      * intros a. rewrite parse_digit_step, Hacc. f_equal. ring.
      * exists (M1 * 10). intros a b. rewrite H1. f_equal.
        pose proof (N.div_mod' n 10) as Hdm. apply (f_equal Z.of_N) in Hdm.
        rewrite N2Z.inj_add, N2Z.inj_mul in Hdm. change (Z.of_N 10) with 10 in Hdm.
        rewrite Hdm. ring.
Qed.

Lemma size_nat_bound (n : N) : (n < 10 ^ N.of_nat (S (N.size_nat n)))%N.
Proof.
  assert (Hp : forall p, (N.pos p < 2 ^ N.of_nat (Pos.size_nat p))%N).
  { induction p as [p IH|p IH|]; cbn [Pos.size_nat];
      rewrite ?Nat2N.inj_succ, ?N.pow_succ_r'; cbn; lia. }
  assert (Hle : forall k, (2 ^ k <= 10 ^ k)%N)
    by (intros k; apply N.pow_le_mono_l; lia).
  rewrite Nat2N.inj_succ, N.pow_succ_r'.
  destruct n as [|p]; cbn [N.size_nat].
  - cbn. lia.
  - specialize (Hp p). specialize (Hle (N.of_nat (Pos.size_nat p))). lia.
Qed.

Lemma str_N_parse (n : N) :
  Forall (fun c => is_digit c = true) (str_N n) /\
  forall b, parse_digits (str_N n) 0 b = Some (Z.of_N n).
Proof.
  unfold str_N. split; [apply digits_fuel_digits; constructor|].
  destruct (digits_fuel_parse (N.size_nat n) n [] 1 0 (size_nat_bound n))
    as [M' H].
  - intros a. cbn [parse_digits]. f_equal. ring.
  - intros b. rewrite H. f_equal. ring.
Qed.

Lemma strip_no_space (s : pystr) :
  Forall (fun c => is_space c = false) s -> strip s = s.
Proof.
  intros H. rewrite Forall_forall in H. apply strip_fixed.
  - intros c r ->. apply H. left.
  - intros front c ->. apply H. apply elem_of_app. right. left.
Qed.

Lemma int_of_str_Z (z : Z) : int_of_str (str_Z z) = Some z.
Proof.
  unfold str_Z, int_of_str. destruct (z <? 0) eqn:Hz.
  - apply Z.ltb_lt in Hz.
    destruct (str_N_parse (Z.to_N (- z))) as [Hd Hp].
    rewrite strip_no_space.
    + change (code_eqb 45 45) with true. cbn match. rewrite Hp. cbn.
      f_equal. lia.
    + constructor; [reflexivity|].
      eapply Forall_impl; [exact Hd|]. intros c. apply digit_not_space.
  - apply Z.ltb_ge in Hz.
    destruct (str_N_parse (Z.to_N z)) as [Hd Hp].
    rewrite strip_no_space
      by (eapply Forall_impl; [exact Hd|]; intros c; apply digit_not_space).
    destruct (str_N (Z.to_N z)) as [|c t] eqn:Es.
    + specialize (Hp false). cbn in Hp. discriminate Hp.
    + assert (Hc : is_digit c = true) by (inversion Hd; assumption).
      apply digit_cases in Hc.
      assert (H45 : code_eqb c 45 = false)
        by (repeat (destruct Hc as [->|Hc]; [reflexivity|]); subst c; reflexivity).
      assert (H43 : code_eqb c 43 = false)
        by (repeat (destruct Hc as [->|Hc]; [reflexivity|]); subst c; reflexivity).
      rewrite H45, H43, Hp. f_equal. lia.
Qed.

(** Identifiers survive the trip through text. [int] reads back what [str]
    wrote, for every integer, so two different identifiers never share a key
    of the import's manifest or an entry of the [have] parameter, and an
    identifier that comes as a decimal string is read as the same number. *)
Theorem str_int_round_trip :
  (forall z, int_of_str (str_Z z) = Some z) /\
  (forall a b, str_Z a = str_Z b -> a = b) /\
  (forall z, py_int (JStr (str_Z z)) = inr z) /\
  (forall bm1 bm2 : BulkImport.bm_data,
     str_Z (BulkImport.id bm1) = str_Z (BulkImport.id bm2) ->
     BulkImport.id bm1 = BulkImport.id bm2).
Proof.
  assert (Hinj : forall a b, str_Z a = str_Z b -> a = b).
  { intros a b H. apply (f_equal int_of_str) in H.
    rewrite !int_of_str_Z in H. congruence. }
  split; [exact int_of_str_Z|]. split; [exact Hinj|]. split.
  - intros z. cbn [py_int]. rewrite int_of_str_Z. reflexivity.
  - intros bm1 bm2. apply Hinj.
Qed.

End Numbers.

(** ** Save dates, file names and front matter *)

(** Cases on the path [process_bookmark] takes. *)
Ltac bookmark_cases w st bm :=
  unfold LiveExport.process_bookmark;
  destruct (bool_decide (LiveExport.bookmark_id bm ∈ LiveExport.processed st)) eqn:Hseen;
  [|destruct (LiveExport.resolve_saved (LiveExport.utc_offset w)
              (LiveExport.clock w (LiveExport.handled st)) bm)
      as [esc|[saved_dt source]] eqn:Hsaved;
    [|destruct (bool_decide (LiveExport.full_text w (LiveExport.handled st) (LiveExport.bookmark_id bm) = [])) eqn:Hhtml;
      [|destruct (LiveExport.markdownify w (LiveExport.full_text w (LiveExport.handled st) (LiveExport.bookmark_id bm)))
          as [conv|mdt] eqn:Hmd;
        [|match goal with
          | |- context [LiveExport.write_document w ?k ?o ?t] =>
              destruct (LiveExport.write_document w k o t) as [|werr residue] eqn:Hwrite
          end]]]];
  cbn [LiveExport.set_processed LiveExport.processed LiveExport.count
       LiveExport.files LiveExport.written LiveExport.manifest_file
       LiveExport.requests LiveExport.handled].


Section SaveDate.

Import LiveExport.

Lemma day_of_scenario (o : Z) :
  -80000 <= o <= 6399 -> (1700000000 + o) / 86400 = 19675.
Proof. intros H. symmetry. apply (Z.div_unique _ _ _ (o + 80000)); lia. Qed.

Lemma fromtimestamp_scenario (off : Z -> Z) :
  -80000 <= off 1700000000 <= 6399 ->
  exists dt, fromtimestamp off 1700000000 = LocalTime dt
             /\ strftime_date dt = lit "2023-11-14".
Proof.
  intros H. unfold fromtimestamp, datetime_of_seconds.
  rewrite (day_of_scenario _ H).
  change (civil_from_days 19675) with (2023, 11, 14).
  cbn [year andb]. eexists. split; reflexivity.
Qed.

Lemma resolve_saved_primary (off : Z -> Z) (now : Z) (bm : bookmark) (v : json) :
  time_saved bm = Some v -> truthy v = true ->
  forall dn, fromtimestamp off now = LocalTime dn ->
  resolve_saved off now bm =
    match read_timestamp off v with
    | Reads dt => inr (dt, lit "original - time_saved")
    | Unreadable => inr (dn, lit "fallback - invalid format (time_saved)")
    | Escapes => inl OverflowError
    end.
Proof.
  intros Hv Ht dn Hn. unfold resolve_saved, choose_timestamp, read_timestamp.
  rewrite Hv. cbn [from_option]. rewrite Ht.
  destruct (py_int v) as [c|t].
  - rewrite Hn. reflexivity.
  - destruct (fromtimestamp off t); [reflexivity| |reflexivity].
    rewrite Hn. reflexivity.
Qed.

Lemma resolve_saved_secondary (off : Z -> Z) (now : Z) (bm : bookmark) (v : json) :
  from_option truthy false (time_saved bm) = false ->
  time bm = Some v -> truthy v = true ->
  forall dn, fromtimestamp off now = LocalTime dn ->
  resolve_saved off now bm =
    match read_timestamp off v with
    | Reads dt => inr (dt, lit "original - time")
    | Unreadable => inr (dn, lit "fallback - invalid format (time)")
    | Escapes => inl OverflowError
    end.
Proof.
  intros Hp Hv Ht dn Hn. unfold resolve_saved, choose_timestamp, read_timestamp.
  rewrite Hp, Hv. cbn [from_option]. rewrite Ht.
  destruct (py_int v) as [c|t].
  - rewrite Hn. reflexivity.
  - destruct (fromtimestamp off t); [reflexivity| |reflexivity].
    rewrite Hn. reflexivity.
Qed.

Lemma resolve_saved_missing (off : Z -> Z) (now : Z) (bm : bookmark) :
  from_option truthy false (time_saved bm) = false ->
  from_option truthy false (time bm) = false ->
  forall dn, fromtimestamp off now = LocalTime dn ->
  resolve_saved off now bm = inr (dn, lit "fallback - missing").
Proof.
  intros Hp Hs dn Hn. unfold resolve_saved, choose_timestamp.
  rewrite Hp, Hs, Hn. reflexivity.
Qed.

Lemma list_app_singleton_neq {A} (l : list A) (x : A) : l <> l ++ [x].
Proof.
  intros H. apply (f_equal length) in H. rewrite length_app in H. simpl in H. lia.
Qed.

(** A document whose write completes has the front matter of lines 394-400,
    with the source that [resolve_saved] noted. *)
Lemma process_bookmark_document (w : world) (st st' : state) (bm : bookmark)
    (out text : pystr) :
  process_bookmark w st bm = (None, st') ->
  written st' = written st ++ [(out, text)] ->
  exists dt source mdt,
    resolve_saved (utc_offset w) (clock w (handled st)) bm = inr (dt, source) /\
    out = VAULT_PATH w ++ lit "/" ++ file_name (strftime_date dt) (title_of bm) /\
    text = join [NEWLINE]
             (front_matter (title_of bm) (url_of bm) (bookmark_id bm)
                           (strftime_date dt) source) ++ mdt.
Proof.
  bookmark_cases w st bm; intros Hstep Hw; try discriminate Hstep;
    injection Hstep as Hst; subst st'; cbn [written set_processed] in Hw;
    try (exfalso; exact (list_app_singleton_neq _ _ Hw)).
  apply app_inv_head in Hw. injection Hw as <- <-.
  exists saved_dt, source, mdt. repeat split; reflexivity.
Qed.

(** C8, as the script has it. The primary field [time_saved], when present
    (truthy), is the one read; otherwise the secondary field [time], when
    present, is the one read; a field that is read and parses gives the save
    date; when the field read does not parse, or neither field is present,
    the wall clock gives it (the other field is not tried); the source noted
    is written to the front matter of the document. *)
Theorem save_date_priority (off : Z -> Z) (now : Z) (bm : bookmark) (dn : datetime) :
  fromtimestamp off now = LocalTime dn ->
  (forall v, time_saved bm = Some v -> truthy v = true ->
     resolve_saved off now bm =
       match read_timestamp off v with
       | Reads dt => inr (dt, lit "original - time_saved")
       | Unreadable => inr (dn, lit "fallback - invalid format (time_saved)")
       | Escapes => inl OverflowError
       end) /\
  (from_option truthy false (time_saved bm) = false ->
   forall v, time bm = Some v -> truthy v = true ->
     resolve_saved off now bm =
       match read_timestamp off v with
       | Reads dt => inr (dt, lit "original - time")
       | Unreadable => inr (dn, lit "fallback - invalid format (time)")
       | Escapes => inl OverflowError
       end) /\
  (from_option truthy false (time_saved bm) = false ->
   from_option truthy false (time bm) = false ->
     resolve_saved off now bm = inr (dn, lit "fallback - missing")) /\
  (forall (w : world) (st st' : state) (out text : pystr),
     utc_offset w = off -> clock w (handled st) = now ->
     process_bookmark w st bm = (None, st') ->
     written st' = written st ++ [(out, text)] ->
     exists dt source mdt,
       resolve_saved off now bm = inr (dt, source) /\
       text = join [NEWLINE]
                (front_matter (title_of bm) (url_of bm) (bookmark_id bm)
                              (strftime_date dt) source) ++ mdt /\
       In (lit "date_saved: " ++ strftime_date dt)
          (front_matter (title_of bm) (url_of bm) (bookmark_id bm)
                        (strftime_date dt) source) /\
       In (lit "date_saved_source: " ++ source)
          (front_matter (title_of bm) (url_of bm) (bookmark_id bm)
                        (strftime_date dt) source)).
Proof.
  intros Hn. split; [|split; [|split]].
  - intros v Hv Ht. exact (resolve_saved_primary off now bm v Hv Ht dn Hn).
  - intros Hp v Hv Ht. exact (resolve_saved_secondary off now bm v Hp Hv Ht dn Hn).
  - intros Hp Hs. exact (resolve_saved_missing off now bm Hp Hs dn Hn).
  - intros w st st' out text <- <- Hstep Hw.
    destruct (process_bookmark_document w st st' bm out text Hstep Hw)
      as (dt & source & mdt & Hr & _ & Htext).
    exists dt, source, mdt. split; [exact Hr|]. split; [exact Htext|].
    unfold front_matter. split.
    + do 4 right. left. reflexivity.
    + do 5 right. left. reflexivity.
Qed.

(** C8, refuted: with a primary timestamp that does not parse and a secondary
    one that does (2023-11-14), the save date is the wall clock's
    (2027-01-15), not the secondary timestamp's. *)
Lemma unparseable_primary_skips_secondary :
  let bm := Samples.item_bad_primary in
  from_option truthy false (time_saved bm) = true /\
  read_timestamp Samples.utc (JStr (lit "soon")) = Unreadable /\
  (exists dt, read_timestamp Samples.utc (JInt 1700000000) = Reads dt
              /\ strftime_date dt = lit "2023-11-14") /\
  exists dt, resolve_saved Samples.utc 1800000000 bm
             = inr (dt, lit "fallback - invalid format (time_saved)")
             /\ strftime_date dt = lit "2027-01-15"
             /\ strftime_date dt <> lit "2023-11-14".
Proof.
  cbv zeta. split; [reflexivity|]. split; [vm_compute; reflexivity|]. split.
  - exists (datetime_of_seconds 1700000000). split; vm_compute; reflexivity.
  - exists (datetime_of_seconds 1800000000).
    split; [vm_compute; reflexivity|].
    split; [vm_compute; reflexivity|vm_compute; discriminate].
Qed.

Lemma save_date_priority_witness :
  exists dt,
    resolve_saved Samples.utc 1800000000 Samples.item42
    = inr (dt, lit "original - time_saved")
    /\ strftime_date dt = lit "2023-11-14".
Proof.
  assert (Hn : fromtimestamp Samples.utc 1800000000
               = LocalTime (datetime_of_seconds 1800000000))
    by (vm_compute; reflexivity).
  destruct (save_date_priority Samples.utc 1800000000 Samples.item42
              (datetime_of_seconds 1800000000) Hn) as (H & _).
  specialize (H (JInt 1700000000) eq_refl eq_refl).
  exists (datetime_of_seconds 1700000000). split; [|vm_compute; reflexivity].
  rewrite H. vm_compute. reflexivity.
Defined.

(** C7, as the script has it. The file name is a function of the save date
    and the title. For the item with id 42, title [A "Quoted" Title] and
    [time_saved] 1700000000, in a process whose local time is between 80000
    seconds behind and 6399 seconds ahead of UTC at that instant, it is
    [2023-11-14 – A Quoted Title.md], and the front matter holds
    [instapaper_id: 42] and the title with its quotes escaped. *)
Theorem file_name_scenario :
  (forall off1 now1 off2 now2 bm1 bm2 dt1 s1 dt2 s2,
      bookmark_id bm1 = bookmark_id bm2 -> title_of bm1 = title_of bm2 ->
      resolve_saved off1 now1 bm1 = inr (dt1, s1) ->
      resolve_saved off2 now2 bm2 = inr (dt2, s2) ->
      strftime_date dt1 = strftime_date dt2 ->
      file_name (strftime_date dt1) (title_of bm1)
      = file_name (strftime_date dt2) (title_of bm2)) /\
  (forall off now bm,
      bookmark_id bm = 42 -> title bm = Some Samples.quoted_title ->
      time_saved bm = Some (JInt 1700000000) ->
      -80000 <= off 1700000000 <= 6399 ->
      exists dt,
        resolve_saved off now bm = inr (dt, lit "original - time_saved") /\
        file_name (strftime_date dt) (title_of bm)
        = lit "2023-11-14 " ++ [EN_DASH] ++ lit " A Quoted Title.md" /\
        In (lit "instapaper_id: 42")
           (front_matter (title_of bm) (url_of bm) (bookmark_id bm)
                         (strftime_date dt) (lit "original - time_saved")) /\
        In (lit "title: " ++ [QUOTE] ++ lit "A " ++ [BACKSLASH; QUOTE]
            ++ lit "Quoted" ++ [BACKSLASH; QUOTE] ++ lit " Title" ++ [QUOTE])
           (front_matter (title_of bm) (url_of bm) (bookmark_id bm)
                         (strftime_date dt) (lit "original - time_saved"))).
Proof.
  split.
  - intros off1 now1 off2 now2 bm1 bm2 dt1 s1 dt2 s2 _ Ht _ _ Hd.
    rewrite Ht, Hd. reflexivity.
  - intros off now bm Hid Ht Hts Hoff.
    destruct (fromtimestamp_scenario off Hoff) as (dt & Hdt & Hday).
    exists dt. split; [|split; [|split]].
    + unfold resolve_saved, choose_timestamp. rewrite Hts.
      cbn [from_option truthy py_int]. change (negb (1700000000 =? 0)) with true.
      cbn [py_int]. rewrite Hdt. reflexivity.
    + unfold title_of. rewrite Ht, Hday. reflexivity.
    + unfold front_matter. rewrite Hid. do 3 right. left. reflexivity.
    + unfold front_matter, title_of. rewrite Ht. right. left. reflexivity.
Qed.

Lemma file_name_scenario_witness :
  exists dt,
    resolve_saved Samples.utc 0 Samples.item42 = inr (dt, lit "original - time_saved")
    /\ file_name (strftime_date dt) (title_of Samples.item42)
        = lit "2023-11-14 " ++ [EN_DASH] ++ lit " A Quoted Title.md".
Proof.
  destruct file_name_scenario as [_ H].
  destruct (H Samples.utc 0 Samples.item42 eq_refl eq_refl eq_refl)
    as (dt & Hr & Hf & _).
  - unfold Samples.utc. lia.
  - exists dt. split; [exact Hr|exact Hf].
Defined.

(** C7, refuted: two hours east of UTC the timestamp 1700000000 falls on
    2023-11-15, and so does the file name. *)
Lemma file_name_depends_on_zone :
  exists dt,
    resolve_saved Samples.utc_plus_2 0 Samples.item42
    = inr (dt, lit "original - time_saved")
    /\ file_name (strftime_date dt) (title_of Samples.item42)
        = lit "2023-11-15 " ++ [EN_DASH] ++ lit " A Quoted Title.md"
    /\ file_name (strftime_date dt) (title_of Samples.item42)
        <> lit "2023-11-14 " ++ [EN_DASH] ++ lit " A Quoted Title.md".
Proof.
  exists (datetime_of_seconds 1700007200).
  split; [vm_compute; reflexivity|].
  split; [vm_compute; reflexivity|vm_compute; discriminate].
Qed.

End SaveDate.

(** ** The loop of the export *)

Section ExportLoop.

Import LiveExport.

Variable w : world.

Lemma process_bookmark_writes (st : state) (bm : bookmark) (out text : pystr) :
  document_for w st bm = Some (out, text) ->
  process_bookmark w st bm =
    (None,
     match write_document w (handled st) out text with
     | WriteCompletes =>
         State ({[bookmark_id bm]} ∪ processed st) (S (count st))
               (<[out := text]> (files st)) (written st ++ [(out, text)])
               (manifest_file st) (requests st) (S (handled st))
     | WriteRaises e residue =>
         State (processed st) (count st)
               (files_after (WriteRaises e residue) out text (files st))
               (written st) (manifest_file st) (requests st) (S (handled st))
     end).
Proof.
  unfold document_for, process_bookmark.
  destruct (bool_decide (bookmark_id bm ∈ processed st)); [discriminate|].
  destruct (resolve_saved (utc_offset w) (clock w (handled st)) bm)
    as [esc|[saved_dt source]]; [discriminate|].
  cbv zeta.
  destruct (bool_decide (full_text w (handled st) (bookmark_id bm) = []));
    [discriminate|].
  destruct (markdownify w (full_text w (handled st) (bookmark_id bm)))
    as [conv|mdt]; [discriminate|].
  intros Hdoc. injection Hdoc as <- <-.
  cbn [processed count files written manifest_file requests handled files_after].
  destruct (write_document w (handled st) _ _); reflexivity.
Qed.

Lemma accounted_bookmark (st0 st st' : state) (bm : bookmark) (r : option exn_class) :
  process_bookmark w st bm = (r, st') -> accounted w st0 st -> accounted w st0 st'.
Proof.
  bookmark_cases w st bm; intros Hstep Hacc; injection Hstep as _ <-;
    try exact Hacc; intros bid; cbn [processed written set_processed].
  - rewrite elem_of_union, elem_of_singleton. intros [->|Hin].
    + right. left. exists (handled st).
      apply bool_decide_eq_true_1 in Hhtml. exact Hhtml.
    + exact (Hacc bid Hin).
  - rewrite elem_of_union, elem_of_singleton. intros [->|Hin].
    + right. right. eexists _, _. split.
      * apply elem_of_app. right. apply list_elem_of_singleton. reflexivity.
      * unfold document_of. eexists _, _, _, _, _. reflexivity.
    + destruct (Hacc bid Hin) as [H|[H|(out & text & H & Hd)]]; auto.
      right. right. exists out, text. split; [|exact Hd].
      apply elem_of_app. left. exact H.
Qed.

Lemma accounted_batch (st0 : state) (bms : list bookmark) :
  forall st st' r, process_batch w st bms = (r, st') ->
                   accounted w st0 st -> accounted w st0 st'.
Proof.
  induction bms as [|bm bms IH]; intros st st' r; cbn [process_batch].
  - intros H; injection H as _ <-. auto.
  - destruct (process_bookmark w st bm) as [[e|] st1] eqn:E.
    + intros H; injection H as _ <-. eapply accounted_bookmark; eauto.
    + intros H Hacc. eapply IH; [exact H|]. eapply accounted_bookmark; eauto.
Qed.

Lemma accounted_main_loop (st0 : state) (fuel : nat) :
  forall st, accounted w st0 st -> accounted w st0 (final_state (main_loop fuel w st)).
Proof.
  induction fuel as [|fuel IH]; intros st Hacc; cbn [main_loop final_state].
  - exact Hacc.
  - destruct (list_bookmarks w (requests st) _) as [e|[|bm bms]]; cbn [final_state].
    + exact Hacc.
    + exact Hacc.
    + destruct (process_batch w _ (bm :: bms)) as [[e|] st1] eqn:E; cbn [final_state].
      * eapply accounted_batch; [exact E|exact Hacc].
      * apply IH. eapply accounted_batch in E; [exact E|exact Hacc].
Qed.

(** The loop is only left through an empty batch, and then the manifest
    holds [processed]. *)
Lemma main_loop_completed (fuel : nat) :
  forall st st1, main_loop fuel w st = Completed st1 ->
    manifest_file st1 = Some (manifest_document (processed st1)) /\
    exists k, list_bookmarks w k (bookmarks_payload (processed st1) (FOLDER_ID w))
              = inr [].
Proof.
  induction fuel as [|fuel IH]; intros st st1; cbn [main_loop]; [discriminate|].
  destruct (list_bookmarks w (requests st) _) as [e|[|bm bms]] eqn:E.
  - discriminate.
  - intros H; injection H as <-. split; [reflexivity|].
    exists (requests st). exact E.
  - destruct (process_batch w _ (bm :: bms)) as [[e|] st'] eqn:Eb; [discriminate|].
    apply IH.
Qed.

Lemma never_empty_never_completed (fuel : nat) :
  (forall k p, list_bookmarks w k p <> inr []) ->
  forall st st1, main_loop fuel w st <> Completed st1.
Proof.
  intros Hne st st1 H. apply main_loop_completed in H as [_ [k Hk]].
  exact (Hne _ _ Hk).
Qed.

End ExportLoop.

Lemma stubborn_batch (st : LiveExport.state) :
  exists st',
    LiveExport.process_batch Samples.stubborn_world st [Samples.item42] = (None, st')
    /\ LiveExport.requests st' = LiveExport.requests st.
Proof.
  cbn [LiveExport.process_batch].
  bookmark_cases Samples.stubborn_world st Samples.item42.
  - eexists. split; reflexivity.
  - vm_compute in Hsaved. discriminate Hsaved.
  - vm_compute in Hhtml. discriminate Hhtml.
  - vm_compute in Hmd. discriminate Hmd.
  - eexists. split; reflexivity.
  - vm_compute in Hwrite. discriminate Hwrite.
Qed.

Lemma stubborn_loop (fuel : nat) :
  forall st, exists st',
    LiveExport.main_loop fuel Samples.stubborn_world st = LiveExport.Running st'
    /\ LiveExport.requests st' = (LiveExport.requests st + fuel)%nat.
Proof.
  induction fuel as [|fuel IH]; intros st; cbn [LiveExport.main_loop].
  - exists st. split; [reflexivity|lia].
  - cbn [LiveExport.list_bookmarks Samples.stubborn_world].
    destruct (stubborn_batch
                (LiveExport.State (LiveExport.processed st) (LiveExport.count st)
                   (LiveExport.files st) (LiveExport.written st)
                   (LiveExport.manifest_file st) (S (LiveExport.requests st))
                   (LiveExport.handled st))) as (st1 & -> & Hreq).
    destruct (IH (LiveExport.save_manifest st1)) as (st2 & -> & Hreq2).
    exists st2. split; [reflexivity|].
    rewrite Hreq2. cbn [LiveExport.save_manifest LiveExport.requests] in *.
    rewrite Hreq. lia.
Qed.

(** C2, on the export: against a remote that ignores the exclusion hint and
    returns the same bookmark to every list request, the loop of [main] is
    still running after any number of iterations, having sent one list
    request in each; nothing ends it. *)
Theorem export_loop_never_done (fuel : nat) (fs : gmap pystr pystr)
    (manifest : option (list Z)) :
  exists st,
    LiveExport.main fuel Samples.stubborn_world fs manifest = LiveExport.Running st
    /\ LiveExport.requests st = fuel.
Proof.
  unfold LiveExport.main.
  destruct (stubborn_loop fuel
              (LiveExport.State (LiveExport.load_manifest manifest) 0 fs [] manifest 0 0))
    as (st & H & Hreq).
  exists st. split; [exact H|exact Hreq].
Qed.

(** ** What a run of the export keeps true *)

Section ExportInvariants.

Import LiveExport.

Variable w : world.

Lemma writes_fresh_bookmark (p0 : gset Z) (st st' : state) (bm : bookmark)
    (r : option exn_class) :
  process_bookmark w st bm = (r, st') -> writes_fresh p0 st -> writes_fresh p0 st'.
Proof.
  bookmark_cases w st bm; intros Hstep (Hsub & Hcount & ids & Hnd & Hdocs & Hids);
    injection Hstep as _ <-; unfold writes_fresh;
    cbn [processed count written set_processed].
  - split; [exact Hsub|]. split; [exact Hcount|]. exists ids. auto.
  - split; [exact Hsub|]. split; [exact Hcount|]. exists ids. auto.
  - split; [intros x Hx; apply elem_of_union; right; exact (Hsub _ Hx)|].
    split; [exact Hcount|]. exists ids. split; [exact Hnd|]. split; [exact Hdocs|].
    intros bid Hbid. destruct (Hids _ Hbid) as [H1 H2].
    split; [apply elem_of_union; right; exact H1|exact H2].
  - split; [exact Hsub|]. split; [exact Hcount|]. exists ids. auto.
  - apply bool_decide_eq_false_1 in Hseen.
    split; [intros x Hx; apply elem_of_union; right; exact (Hsub _ Hx)|].
    split; [rewrite length_app; cbn [length]; lia|].
    exists (ids ++ [bookmark_id bm]). split; [|split].
    + apply NoDup_app. split; [exact Hnd|]. split; [|apply NoDup_singleton].
      intros x Hx Hx'. apply list_elem_of_singleton in Hx' as ->.
      exact (Hseen (proj1 (Hids _ Hx))).
    + apply Forall2_app; [exact Hdocs|]. constructor; [|constructor].
      cbn [snd]. unfold document_of. eexists _, _, _, _, _. reflexivity.
    + intros bid Hbid. apply elem_of_app in Hbid as [Hbid|Hbid].
      * destruct (Hids _ Hbid) as [H1 H2].
        split; [apply elem_of_union; right; exact H1|exact H2].
      * apply list_elem_of_singleton in Hbid as ->.
        split; [apply elem_of_union; left; apply elem_of_singleton; reflexivity|].
        intros Hin. exact (Hseen (Hsub _ Hin)).
  - split; [exact Hsub|]. split; [exact Hcount|]. exists ids. auto.
Qed.

Lemma bookmark_keeps_manifest (st st' : state) (bm : bookmark) (r : option exn_class) :
  process_bookmark w st bm = (r, st') ->
  manifest_file st' = manifest_file st /\ processed st ⊆ processed st'.
Proof.
  bookmark_cases w st bm; intros Hstep; injection Hstep as _ <-;
    cbn [processed manifest_file set_processed]; split; try reflexivity;
    intros x Hx; apply elem_of_union; right; exact Hx.
Qed.

Lemma manifest_between_grows (m0 : option (list Z)) (st st' : state) :
  manifest_file st' = manifest_file st -> processed st ⊆ processed st' ->
  manifest_between m0 st -> manifest_between m0 st'.
Proof.
  intros Hm Hp [H|(p & ids & H & Hperm & H1 & H2)]; [left; congruence|].
  right. exists p, ids. split; [congruence|]. split; [exact Hperm|].
  split; [exact H1|]. intros x Hx. exact (Hp _ (H2 _ Hx)).
Qed.

Lemma batch_invariants (p0 : gset Z) (m0 : option (list Z)) (bms : list bookmark) :
  forall st st' r, process_batch w st bms = (r, st') ->
    writes_fresh p0 st -> manifest_between m0 st ->
    writes_fresh p0 st' /\ manifest_between m0 st'.
Proof.
  induction bms as [|bm bms IH]; intros st st' r; cbn [process_batch].
  - intros H; injection H as _ <-. auto.
  - destruct (process_bookmark w st bm) as [[e|] st1] eqn:E.
    + intros H Hf Hb; injection H as _ <-.
      destruct (bookmark_keeps_manifest _ _ _ _ E) as [Hm Hp].
      split; [eapply writes_fresh_bookmark; eauto|].
      eapply manifest_between_grows; eauto.
    + intros H Hf Hb.
      destruct (bookmark_keeps_manifest _ _ _ _ E) as [Hm Hp].
      eapply IH; [exact H| |].
      * eapply writes_fresh_bookmark; eauto.
      * eapply manifest_between_grows; eauto.
Qed.

Lemma main_loop_invariants (m0 : option (list Z)) (fuel : nat) :
  forall st, writes_fresh (load_manifest m0) st -> manifest_between m0 st ->
    writes_fresh (load_manifest m0) (final_state (main_loop fuel w st)) /\
    manifest_between m0 (final_state (main_loop fuel w st)).
Proof.
  assert (Hsave : forall st, writes_fresh (load_manifest m0) st ->
            writes_fresh (load_manifest m0) (save_manifest st) /\
            manifest_between m0 (save_manifest st)).
  { intros st Hf. split; [exact Hf|]. right.
    exists (processed st), (elements (processed st)).
    split; [reflexivity|]. split; [reflexivity|].
    split; [exact (proj1 Hf)|reflexivity]. }
  induction fuel as [|fuel IH]; intros st Hf Hb; cbn [main_loop final_state].
  - auto.
  - set (st1 := State (processed st) (count st) (files st) (written st)
                      (manifest_file st) (S (requests st)) (handled st)).
    assert (Hf1 : writes_fresh (load_manifest m0) st1) by exact Hf.
    assert (Hb1 : manifest_between m0 st1) by exact Hb.
    destruct (list_bookmarks w (requests st) _) as [e|[|bm bms]]; cbn [final_state].
    + auto.
    + apply Hsave. exact Hf1.
    + destruct (process_batch w st1 (bm :: bms)) as [[e|] st2] eqn:E;
        cbn [final_state].
      * eapply batch_invariants; eauto.
      * destruct (batch_invariants _ _ _ _ _ _ E Hf1 Hb1) as [Hf2 Hb2].
        destruct (Hsave _ Hf2) as [Hf3 Hb3]. apply IH; assumption.
Qed.

(** However a run of the export ends (completed, aborted by an exception,
    or cut off), the identifiers it loaded are still in [processed], [count]
    is the number of documents whose write completed, and those documents
    belong to pairwise different bookmarks, none of which was in the manifest
    the run loaded: no bookmark is archived twice. *)
Theorem export_writes_fresh_bookmarks (fuel : nat) (fs : gmap pystr pystr)
    (manifest : option (list Z)) :
  load_manifest manifest ⊆ processed (final_state (main fuel w fs manifest)) /\
  count (final_state (main fuel w fs manifest))
  = length (written (final_state (main fuel w fs manifest))) /\
  exists ids, NoDup ids /\
    Forall2 (fun bid doc => document_of bid doc.2) ids
            (written (final_state (main fuel w fs manifest))) /\
    forall bid, bid ∈ ids ->
      bid ∈ processed (final_state (main fuel w fs manifest)) /\
      bid ∉ load_manifest manifest.
Proof.
  unfold main.
  destruct (main_loop_invariants manifest fuel
              (State (load_manifest manifest) 0 fs [] manifest 0 0)) as [Hf _].
  - split; [reflexivity|]. split; [reflexivity|]. exists [].
    split; [constructor|]. split; [constructor|].
    intros bid Hbid. inversion Hbid.
  - left. reflexivity.
  - exact Hf.
Qed.

(** ** Termination against a remote that honours the hint *)

Lemma honest_bookmark (st : state) (bm : bookmark) :
  (forall k, exists r, resolve_saved (utc_offset w) (clock w k) bm = inr r) ->
  (forall html, exists m, markdownify w html = inr m) ->
  (forall k out text, write_document w k out text = WriteCompletes) ->
  exists st', process_bookmark w st bm = (None, st') /\
              processed st ⊆ processed st' /\
              bookmark_id bm ∈ processed st' /\
              requests st' = requests st.
Proof.
  intros Hsaved_ok Hmd_ok Hwrite_ok.
  destruct (Hsaved_ok (handled st)) as [r Hr].
  destruct (Hmd_ok (full_text w (handled st) (bookmark_id bm))) as [m Hm].
  bookmark_cases w st bm; try discriminate Hr; try discriminate Hm;
    try (rewrite Hwrite_ok in Hwrite; discriminate Hwrite);
    eexists; (split; [reflexivity|]); cbn [processed requests set_processed].
  - apply bool_decide_eq_true_1 in Hseen. auto.
  - split; [intros x Hx; apply elem_of_union; right; exact Hx|].
    split; [apply elem_of_union; left; apply elem_of_singleton; reflexivity|].
    reflexivity.
  - split; [intros x Hx; apply elem_of_union; right; exact Hx|].
    split; [apply elem_of_union; left; apply elem_of_singleton; reflexivity|].
    reflexivity.
Qed.

Lemma honest_batch (bms : list bookmark) :
  (forall bm, bm ∈ bms ->
     forall k, exists r, resolve_saved (utc_offset w) (clock w k) bm = inr r) ->
  (forall html, exists m, markdownify w html = inr m) ->
  (forall k out text, write_document w k out text = WriteCompletes) ->
  forall st, exists st', process_batch w st bms = (None, st') /\
              processed st ⊆ processed st' /\
              (forall bm, bm ∈ bms -> bookmark_id bm ∈ processed st') /\
              requests st' = requests st.
Proof.
  intros Hsaved_ok Hmd_ok Hwrite_ok.
  induction bms as [|bm bms IH]; intros st; cbn [process_batch].
  - exists st. split; [reflexivity|]. split; [reflexivity|].
    split; [intros bm Hbm; inversion Hbm|reflexivity].
  - destruct (honest_bookmark st bm) as (st1 & E & Hsub & Hin & Hreq); auto.
    { apply Hsaved_ok. left. }
    rewrite E.
    destruct IH with (st := st1) as (st2 & E2 & Hsub2 & Hin2 & Hreq2).
    { intros bm' Hbm'. apply Hsaved_ok. right. exact Hbm'. }
    exists st2. split; [exact E2|].
    split; [intros x Hx; exact (Hsub2 _ (Hsub _ Hx))|].
    split; [|congruence].
    intros bm' Hbm'. apply elem_of_cons in Hbm' as [->|Hbm'];
      [exact (Hsub2 _ Hin)|exact (Hin2 _ Hbm')].
Qed.

Lemma honest_main_loop (U : gset Z) :
  (forall k p, exists bms, list_bookmarks w k p = inr bms /\
     forall bm, bm ∈ bms ->
       bookmark_id bm ∈ U /\
       (forall ids, have p = Some ids -> bookmark_id bm ∉ ids) /\
       (forall k', exists r, resolve_saved (utc_offset w) (clock w k') bm = inr r)) ->
  (forall html, exists m, markdownify w html = inr m) ->
  (forall k out text, write_document w k out text = WriteCompletes) ->
  forall fuel st, (size (U ∖ processed st) < fuel)%nat ->
    exists st', main_loop fuel w st = Completed st' /\
                (requests st' <= requests st + S (size (U ∖ processed st)))%nat.
Proof.
  intros Hlist Hmd_ok Hwrite_ok fuel.
  induction fuel as [|fuel IH]; intros st Hfuel; [lia|].
  cbn [main_loop].
  set (st1 := State (processed st) (count st) (files st) (written st)
                    (manifest_file st) (S (requests st)) (handled st)).
  destruct (Hlist (requests st) (bookmarks_payload (processed st1) (FOLDER_ID w)))
    as (bms & Hbms & Hgood).
  rewrite Hbms. destruct bms as [|bm bms].
  - eexists. split; [reflexivity|]. cbn. lia.
  - destruct (honest_batch (bm :: bms)) with (st := st1)
      as (st2 & E & Hsub & Hin & Hreq); auto.
    { intros bm' Hbm'. exact (proj2 (proj2 (Hgood _ Hbm'))). }
    rewrite E.
    assert (Hnew : bookmark_id bm ∉ processed st).
    { destruct (Hgood bm) as (_ & Hhave & _); [left|].
      unfold bookmarks_payload in Hhave. cbn [have processed st1] in Hhave.
      case_bool_decide as Hempty.
      - intros Hx. apply elem_of_elements in Hx. rewrite Hempty in Hx.
        inversion Hx.
      - intros Hx. apply (Hhave _ eq_refl). apply elem_of_elements. exact Hx. }
    assert (Hless : (size (U ∖ processed st2) < size (U ∖ processed st))%nat).
    { apply subset_size. split.
      - intros x Hx. apply elem_of_difference in Hx as [HxU Hx].
        apply elem_of_difference. split; [exact HxU|].
        intros Hp. apply Hx. apply Hsub. exact Hp.
      - intros Hback.
        assert (Hb : bookmark_id bm ∈ U ∖ processed st2).
        { apply Hback. apply elem_of_difference.
          split; [exact (proj1 (Hgood bm ltac:(left)))|exact Hnew]. }
        apply elem_of_difference in Hb as [_ Hb]. apply Hb. apply Hin. left. }
    destruct (IH (save_manifest st2)) as (st' & Hrun & Hreqs).
    { cbn [save_manifest processed]. lia. }
    exists st'. split; [exact Hrun|].
    cbn [save_manifest processed requests] in Hreqs.
    rewrite Hreq in Hreqs. cbn [requests st1] in Hreqs. lia.
Qed.

(** Against a remote that honours the hint the export completes: when every
    list answer holds only bookmarks outside the [have] list of its request,
    with identifiers from a finite set [U] and readable save dates, and
    conversion and writing never fail, the run leaves its loop after at most
    [size U + 1] list requests. *)
Theorem export_completes_when_hint_honoured (U : gset Z) (fuel : nat)
    (fs : gmap pystr pystr) (manifest : option (list Z)) :
  (forall k p, exists bms, list_bookmarks w k p = inr bms /\
     forall bm, bm ∈ bms ->
       bookmark_id bm ∈ U /\
       (forall ids, have p = Some ids -> bookmark_id bm ∉ ids) /\
       (forall k', exists r, resolve_saved (utc_offset w) (clock w k') bm = inr r)) ->
  (forall html, exists m, markdownify w html = inr m) ->
  (forall k out text, write_document w k out text = WriteCompletes) ->
  (size U < fuel)%nat ->
  exists st, main fuel w fs manifest = Completed st /\
             (requests st <= S (size U))%nat.
Proof.
  intros Hlist Hmd_ok Hwrite_ok Hfuel. unfold main.
  assert (Hle : (size (U ∖ load_manifest manifest) <= size U)%nat).
  { apply subseteq_size. intros x Hx. apply elem_of_difference in Hx as [Hx _].
    exact Hx. }
  destruct (honest_main_loop U Hlist Hmd_ok Hwrite_ok fuel
              (State (load_manifest manifest) 0 fs [] manifest 0 0))
    as (st & Hrun & Hreq).
  - cbn [processed]. lia.
  - exists st. split; [exact Hrun|]. cbn [processed requests] in Hreq. lia.
Qed.

(** ** A document that cannot be written *)

Lemma unwritable_bookmark (id0 : Z) (st st' : state) (bm : bookmark)
    (r : option exn_class) :
  (forall k, full_text w k id0 <> []) ->
  (forall k out text, write_document w k out text <> WriteCompletes) ->
  process_bookmark w st bm = (r, st') ->
  id0 ∉ processed st -> id0 ∉ processed st'.
Proof.
  intros Htext Hwrite_fails.
  bookmark_cases w st bm; intros Hstep Hout; injection Hstep as _ <-;
    cbn [processed set_processed]; try exact Hout.
  - apply bool_decide_eq_true_1 in Hhtml.
    intros Hin. apply elem_of_union in Hin as [Hin|Hin]; [|exact (Hout Hin)].
    apply elem_of_singleton in Hin. subst id0. exact (Htext _ Hhtml).
  - exfalso. exact (Hwrite_fails _ _ _ Hwrite).
Qed.

Lemma unwritable_batch (id0 : Z) (bms : list bookmark) :
  (forall k, full_text w k id0 <> []) ->
  (forall k out text, write_document w k out text <> WriteCompletes) ->
  forall st st' r, process_batch w st bms = (r, st') ->
    id0 ∉ processed st -> id0 ∉ processed st'.
Proof.
  intros Htext Hwrite_fails.
  induction bms as [|bm bms IH]; intros st st' r; cbn [process_batch].
  - intros H; injection H as _ <-. auto.
  - destruct (process_bookmark w st bm) as [[e|] st1] eqn:E.
    + intros H; injection H as _ <-. eapply unwritable_bookmark; eauto.
    + intros H Hout. eapply IH; [exact H|]. eapply unwritable_bookmark; eauto.
Qed.

Lemma unwritable_main_loop (id0 : Z) (fuel : nat) :
  (forall k, full_text w k id0 <> []) ->
  (forall k out text, write_document w k out text <> WriteCompletes) ->
  forall st, id0 ∉ processed st -> id0 ∉ processed (final_state (main_loop fuel w st)).
Proof.
  intros Htext Hwrite_fails.
  induction fuel as [|fuel IH]; intros st Hout; cbn [main_loop final_state];
    [exact Hout|].
  destruct (list_bookmarks w (requests st) _) as [e|[|bm bms]]; cbn [final_state];
    try exact Hout.
  destruct (process_batch w _ (bm :: bms)) as [[e|] st1] eqn:E; cbn [final_state].
  - eapply unwritable_batch; [exact Htext|exact Hwrite_fails|exact E|exact Hout].
  - apply IH. cbn [save_manifest processed].
    eapply unwritable_batch; [exact Htext|exact Hwrite_fails|exact E|exact Hout].
Qed.

(** A document that cannot be written keeps the export from ever finishing.
    When no write completes, and the remote keeps returning a batch as long
    as the request does not list some bookmark [id0] that has text and is
    not in the manifest, the run never completes, whatever the number of
    iterations: [id0] never gets into [processed], so the empty batch that
    alone ends the loop never comes. *)
Theorem export_never_completes_when_writes_fail (id0 : Z) (fuel : nat)
    (fs : gmap pystr pystr) (manifest : option (list Z)) (st : state) :
  id0 ∉ load_manifest manifest ->
  (forall k, full_text w k id0 <> []) ->
  (forall k out text, write_document w k out text <> WriteCompletes) ->
  (forall k p, id0 ∉ default [] (have p) -> list_bookmarks w k p <> inr []) ->
  main fuel w fs manifest <> Completed st.
Proof.
  intros Hout Htext Hwrite_fails Hlist Hrun.
  pose proof (unwritable_main_loop id0 fuel Htext Hwrite_fails
                (State (load_manifest manifest) 0 fs [] manifest 0 0) Hout) as Hfinal.
  unfold main in Hrun. rewrite Hrun in Hfinal. cbn [final_state] in Hfinal.
  apply main_loop_completed in Hrun as [_ [k Hk]].
  apply (Hlist k _) in Hk; [exact Hk|].
  unfold bookmarks_payload. cbn [have]. case_bool_decide as Hempty; cbn [default].
  - intros H. inversion H.
  - intros H. change (id0 ∈ elements (processed st)) in H.
    apply elem_of_elements in H. exact (Hfinal H).
Qed.

(** ** Two bookmarks, one file name *)

Lemma document_for_path (st : state) (bm : bookmark) (out text : pystr) :
  document_for w st bm = Some (out, text) ->
  exists dt source,
    resolve_saved (utc_offset w) (clock w (handled st)) bm = inr (dt, source) /\
    out = VAULT_PATH w ++ lit "/" ++ file_name (strftime_date dt) (title_of bm).
Proof.
  unfold document_for.
  destruct (bool_decide (bookmark_id bm ∈ processed st)); [discriminate|].
  destruct (resolve_saved (utc_offset w) (clock w (handled st)) bm)
    as [esc|[saved_dt source]]; [discriminate|].
  destruct (bool_decide (full_text w (handled st) (bookmark_id bm) = []));
    [discriminate|].
  destruct (markdownify w (full_text w (handled st) (bookmark_id bm)))
    as [conv|mdt]; [discriminate|].
  intros H; injection H as <- _. exists saved_dt, source. split; reflexivity.
Qed.

(** The file name is made of the save date and the title alone, so two
    bookmarks saved on the same day whose titles agree after sanitising and
    cutting to 80 characters share one path: when both are written in a run,
    both are counted and marked processed, and the file holds the document
    of the second one only. *)
Theorem same_day_same_title_overwrites (st : state) (bm1 bm2 : bookmark)
    (out1 text1 out2 text2 : pystr) (dt1 dt2 : datetime) (s1 s2 : pystr) :
  document_for w st bm1 = Some (out1, text1) ->
  write_document w (handled st) out1 text1 = WriteCompletes ->
  document_for w (process_bookmark w st bm1).2 bm2 = Some (out2, text2) ->
  write_document w (S (handled st)) out2 text2 = WriteCompletes ->
  resolve_saved (utc_offset w) (clock w (handled st)) bm1 = inr (dt1, s1) ->
  resolve_saved (utc_offset w) (clock w (S (handled st))) bm2 = inr (dt2, s2) ->
  strftime_date dt1 = strftime_date dt2 ->
  take 80 (sanitize_title (title_of bm1)) = take 80 (sanitize_title (title_of bm2)) ->
  out1 = out2 /\
  bookmark_id bm1 <> bookmark_id bm2 /\
  forall st2, process_batch w st [bm1; bm2] = (None, st2) ->
    files st2 !! out1 = Some text2 /\
    count st2 = S (S (count st)) /\
    written st2 = written st ++ [(out1, text1); (out1, text2)] /\
    bookmark_id bm1 ∈ processed st2 /\ bookmark_id bm2 ∈ processed st2.
Proof.
  intros Hd1 Hw1 Hd2 Hw2 Hr1 Hr2 Hday Htitle.
  pose proof (process_bookmark_writes w st bm1 out1 text1 Hd1) as E1.
  rewrite Hw1 in E1. rewrite E1 in Hd2. cbn [snd] in Hd2.
  pose proof (process_bookmark_writes w _ bm2 out2 text2 Hd2) as E2.
  cbn [handled] in E2. rewrite Hw2 in E2.
  cbn [processed count files written manifest_file requests handled] in E2.
  assert (Hout : out1 = out2).
  { destruct (document_for_path _ _ _ _ Hd1) as (d1 & c1 & Hd1' & ->).
    destruct (document_for_path _ _ _ _ Hd2) as (d2 & c2 & Hd2' & ->).
    cbn [handled] in Hd2'. rewrite Hr1 in Hd1'. rewrite Hr2 in Hd2'.
    injection Hd1' as <- _. injection Hd2' as <- _.
    unfold file_name. rewrite Hday, Htitle. reflexivity. }
  split; [exact Hout|]. split.
  - intros Heq. unfold document_for in Hd2. cbn [processed] in Hd2.
    rewrite bool_decide_eq_true_2 in Hd2; [discriminate Hd2|].
    apply elem_of_union. left. apply elem_of_singleton. symmetry. exact Heq.
  - intros st2. cbn [process_batch]. rewrite E1, E2.
    intros H; injection H as <-. cbn [files count written processed].
    subst out2. split; [apply lookup_insert_eq|]. split; [reflexivity|].
    split; [rewrite <- app_assoc; reflexivity|].
    split; apply elem_of_union.
    + right. apply elem_of_union. left. apply elem_of_singleton. reflexivity.
    + left. apply elem_of_singleton. reflexivity.
Qed.

End ExportInvariants.

Lemma export_completes_when_hint_honoured_witness :
  exists st,
    LiveExport.main 2 (Samples.honest_world Samples.html_page) ∅ None
    = LiveExport.Completed st /\
    (LiveExport.requests st <= 2)%nat.
Proof.
  destruct (export_completes_when_hint_honoured
              (Samples.honest_world Samples.html_page) {[42]} 2 ∅ None)
    as (st & Hrun & Hreq);
    [| | | |exists st; split;
            [exact Hrun|rewrite size_singleton in Hreq; exact Hreq]].
  - intros k p. cbn [LiveExport.list_bookmarks Samples.honest_world].
    case_bool_decide as H42.
    + exists []. split; [reflexivity|]. intros bm Hbm. inversion Hbm.
    + exists [Samples.item42]. split; [reflexivity|].
      intros bm Hbm. apply list_elem_of_singleton in Hbm as ->.
      split; [apply elem_of_singleton; reflexivity|]. split.
      * intros ids Hids Hin. apply H42. rewrite Hids. exact Hin.
      * intros k'. eexists. vm_compute. reflexivity.
  - intros html. exists html. reflexivity.
  - reflexivity.
  - rewrite size_singleton. lia.
Defined.

Lemma same_day_same_title_overwrites_witness :
  exists st2,
    LiveExport.process_batch Samples.stubborn_world
      (LiveExport.State ∅ 0 ∅ [] None 1 0) [Samples.item42; Samples.item43]
    = (None, st2) /\
    LiveExport.count st2 = 2%nat /\
    exists out text1 text2,
      LiveExport.written st2 = [(out, text1); (out, text2)] /\
      LiveExport.files st2 !! out = Some text2.
Proof.
  destruct (LiveExport.process_batch Samples.stubborn_world
              (LiveExport.State ∅ 0 ∅ [] None 1 0) [Samples.item42; Samples.item43])
    as [r st2] eqn:Hrun.
  assert (Hr : r = None).
  { apply (f_equal fst) in Hrun. cbn [fst] in Hrun. rewrite <- Hrun.
    vm_compute. reflexivity. }
  subst r. exists st2. split; [reflexivity|].
  destruct (LiveExport.document_for Samples.stubborn_world
              (LiveExport.State ∅ 0 ∅ [] None 1 0) Samples.item42)
    as [[out1 text1]|] eqn:Hd1; [|vm_compute in Hd1; discriminate Hd1].
  destruct (LiveExport.document_for Samples.stubborn_world
              (LiveExport.process_bookmark Samples.stubborn_world
                 (LiveExport.State ∅ 0 ∅ [] None 1 0) Samples.item42).2
              Samples.item43)
    as [[out2 text2]|] eqn:Hd2; [|vm_compute in Hd2; discriminate Hd2].
  destruct (same_day_same_title_overwrites Samples.stubborn_world
              (LiveExport.State ∅ 0 ∅ [] None 1 0) Samples.item42 Samples.item43
              out1 text1 out2 text2
              (datetime_of_seconds 1700000000) (datetime_of_seconds 1700000000)
              (lit "original - time_saved") (lit "original - time_saved")
              Hd1 eq_refl Hd2 eq_refl)
    as (_ & _ & H).
  - vm_compute. reflexivity.
  - vm_compute. reflexivity.
  - reflexivity.
  - reflexivity.
  - destruct (H st2 Hrun) as (Hfile & Hcount & Hwritten & _).
    split; [exact Hcount|]. exists out1, text1, text2.
    split; [exact Hwritten|exact Hfile].
Defined.

Lemma export_never_completes_when_writes_fail_witness :
  LiveExport.main 7 Samples.read_only_world ∅ None
  <> LiveExport.Completed (LiveExport.State ∅ 0 ∅ [] (Some []) 7 6).
Proof.
  apply (export_never_completes_when_writes_fail Samples.read_only_world 42 7 ∅ None).
  - intros H. apply elem_of_empty in H. exact H.
  - intros k. vm_compute. discriminate.
  - intros k out text. cbn. discriminate.
  - intros k p Hp. cbn [LiveExport.list_bookmarks Samples.read_only_world
                         Samples.honest_world].
    rewrite bool_decide_eq_false_2 by exact Hp. discriminate.
Defined.

(** ** The export with the order of the set and the manifest write *)

Section SetOrder.

Import OrderedExport.

Lemma elem_of_list_set (pref : list Z) (s : gset Z) (x : Z) :
  x ∈ list_set pref s <-> x ∈ s.
Proof.
  unfold list_set.
  rewrite elem_of_app, !list_elem_of_filter, elem_of_remove_dups, elem_of_elements.
  split; [intros [[H _]|[_ H]]; exact H|].
  intros H. destruct (decide (x ∈ pref)) as [Hp|Hp]; [left|right]; split; assumption.
Qed.

Lemma NoDup_list_set (pref : list Z) (s : gset Z) : NoDup (list_set pref s).
Proof.
  unfold list_set. apply NoDup_app.
  split; [apply NoDup_filter, NoDup_remove_dups|].
  split; [|apply NoDup_filter, NoDup_elements].
  intros x H1 H2. apply list_elem_of_filter in H1 as [_ H1].
  rewrite elem_of_remove_dups in H1. apply list_elem_of_filter in H2 as [H2 _].
  exact (H2 H1).
Qed.

Lemma list_set_perm (pref : list Z) (s : gset Z) : list_set pref s ≡ₚ elements s.
Proof.
  apply NoDup_Permutation; [apply NoDup_list_set|apply NoDup_elements|].
  intros x. rewrite elem_of_list_set, elem_of_elements. reflexivity.
Qed.

Lemma list_to_set_list_set (pref : list Z) (s : gset Z) :
  list_to_set (list_set pref s) = s.
Proof.
  apply set_eq. intros x. rewrite elem_of_list_to_set. apply elem_of_list_set.
Qed.

Lemma filter_all {A} (P : A -> Prop) `{forall x, Decision (P x)} (l : list A) :
  (forall x, x ∈ l -> P x) -> filter P l = l.
Proof.
  induction l as [|x l IH]; intros Hall; [reflexivity|].
  rewrite filter_cons_True by (apply Hall; left).
  f_equal. apply IH. intros y Hy. apply Hall. right. exact Hy.
Qed.

Lemma filter_none {A} (P : A -> Prop) `{forall x, Decision (P x)} (l : list A) :
  (forall x, x ∈ l -> ~ P x) -> filter P l = [].
Proof.
  induction l as [|x l IH]; intros Hall; [reflexivity|].
  rewrite filter_cons_False by (apply Hall; left).
  apply IH. intros y Hy. apply Hall. right. exact Hy.
Qed.

Lemma remove_dups_NoDup (l : list Z) : NoDup l -> remove_dups l = l.
Proof.
  induction 1 as [|x l Hx Hl IH]; cbn [remove_dups]; [reflexivity|].
  destruct (decide_rel elem_of x l) as [Hin|_]; [exact (False_ind _ (Hx Hin))|].
  rewrite IH. reflexivity.
Qed.

(** Every listing of a set without repetition is the listing by some
    preference, and with no preference the listing is that of [elements]. *)
Lemma list_set_any (l : list Z) : NoDup l -> list_set l (list_to_set l) = l.
Proof.
  intros Hl. unfold list_set. rewrite (remove_dups_NoDup l Hl).
  rewrite filter_all by (intros x Hx; apply elem_of_list_to_set; exact Hx).
  rewrite filter_none; [apply app_nil_r|].
  intros x Hx Hout. apply Hout. apply elem_of_elements, elem_of_list_to_set in Hx.
  exact Hx.
Qed.

Lemma list_set_nil (s : gset Z) : list_set [] s = elements s.
Proof.
  unfold list_set. cbn [remove_dups]. rewrite filter_nil. cbn [app].
  apply filter_all. intros x _ H. inversion H.
Qed.

Lemma bookmarks_payload_same (a b : list Z) (s : gset Z) (f : pystr) :
  same_request (bookmarks_payload a s f) (bookmarks_payload b s f).
Proof.
  unfold same_request, bookmarks_payload. cbn [LiveExport.limit LiveExport.folder_id
                                                LiveExport.have].
  split; [reflexivity|]. split; [reflexivity|].
  case_bool_decide; [reflexivity|]. cbn [default].
  change (list_to_set (id (list_set a s)) = (list_to_set (id (list_set b s)) : gset Z)).
  unfold id. rewrite !list_to_set_list_set. reflexivity.
Qed.

End SetOrder.

Section OrderedLoop.

Import LiveExport OrderedExport.

Variable w : OrderedExport.world.

(** The loop is only left, completed, through an empty batch followed by a
    manifest write that completes. *)
Lemma ordered_loop_completed (fuel : nat) :
  forall st st1, OrderedExport.main_loop fuel w st = OrderedExport.Completed st1 ->
    manifest_file st1
    = Some (OrderedExport.manifest_document (dump_order w (requests st1))
              (processed st1)) /\
    exists k, list_bookmarks (base w) k
                (OrderedExport.bookmarks_payload (have_order w k) (processed st1)
                   (FOLDER_ID (base w)))
              = inr [].
Proof.
  induction fuel as [|fuel IH]; intros st st1; cbn [OrderedExport.main_loop];
    [discriminate|].
  destruct (list_bookmarks (base w) (requests st) _) as [e|[|bm bms]] eqn:E.
  - discriminate.
  - unfold OrderedExport.save_manifest.
    cbn [processed count files written manifest_file requests handled].
    destruct (write_manifest w _ _); [|discriminate].
    intros H; injection H as <-. split; [reflexivity|].
    exists (requests st). exact E.
  - destruct (process_batch (base w) _ (bm :: bms)) as [[e|] st'] eqn:Eb;
      [discriminate|].
    destruct (OrderedExport.save_manifest w st') as [st''|[cause residue]];
      [apply IH|discriminate].
Qed.

Lemma ordered_loop_save_failed (fuel : nat) :
  forall st cause st1 residue,
    OrderedExport.main_loop fuel w st = SaveFailed cause st1 residue ->
    exists progress,
      residue
      = (fun n => take n
           (json_dumps_ints
              (OrderedExport.manifest_document (dump_order w (requests st1))
                 (processed st1)))) <$> progress.
Proof.
  induction fuel as [|fuel IH]; intros st cause st1 residue;
    cbn [OrderedExport.main_loop]; [discriminate|].
  destruct (list_bookmarks (base w) (requests st) _) as [e|[|bm bms]] eqn:E.
  - discriminate.
  - unfold OrderedExport.save_manifest.
    cbn [processed count files written manifest_file requests handled].
    destruct (write_manifest w _ _) as [|c progress]; [discriminate|].
    intros H; injection H as _ <- <-. exists progress. reflexivity.
  - destruct (process_batch (base w) _ (bm :: bms)) as [[e|] st'] eqn:Eb;
      [discriminate|].
    unfold OrderedExport.save_manifest.
    destruct (write_manifest w _ _) as [|c progress].
    + apply IH.
    + intros H; injection H as _ <- <-. exists progress. reflexivity.
Qed.

Lemma manifest_between_batch (m0 : option (list Z)) (bms : list bookmark) :
  forall st st' r, process_batch (base w) st bms = (r, st') ->
    manifest_between m0 st /\ load_manifest m0 ⊆ processed st ->
    manifest_between m0 st' /\ load_manifest m0 ⊆ processed st'.
Proof.
  induction bms as [|bm bms IH]; intros st st' r; cbn [process_batch].
  - intros H; injection H as _ <-. auto.
  - destruct (process_bookmark (base w) st bm) as [[e|] st1] eqn:E.
    + intros H [Hb Hl]; injection H as _ <-.
      destruct (bookmark_keeps_manifest _ _ _ _ _ E) as [Hm Hp].
      split; [eapply manifest_between_grows; eauto|].
      intros x Hx. exact (Hp _ (Hl _ Hx)).
    + intros H [Hb Hl].
      destruct (bookmark_keeps_manifest _ _ _ _ _ E) as [Hm Hp].
      eapply IH; [exact H|]. split; [eapply manifest_between_grows; eauto|].
      intros x Hx. exact (Hp _ (Hl _ Hx)).
Qed.

Lemma manifest_between_save (m0 : option (list Z)) (st st' : state) :
  OrderedExport.save_manifest w st = inl st' ->
  load_manifest m0 ⊆ processed st ->
  manifest_between m0 st' /\ load_manifest m0 ⊆ processed st'.
Proof.
  unfold OrderedExport.save_manifest.
  destruct (write_manifest w _ _); [|discriminate].
  intros H Hl; injection H as <-. cbn [processed manifest_file]. split; [|exact Hl].
  right. eexists (processed st), _. split; [reflexivity|].
  split; [apply list_set_perm|]. split; [exact Hl|reflexivity].
Qed.

Lemma ordered_loop_between (m0 : option (list Z)) (fuel : nat) :
  forall st, manifest_between m0 st -> load_manifest m0 ⊆ processed st ->
    manifest_between m0 (OrderedExport.final_state (OrderedExport.main_loop fuel w st)).
Proof.
  induction fuel as [|fuel IH]; intros st Hb Hl;
    cbn [OrderedExport.main_loop OrderedExport.final_state]; [exact Hb|].
  set (st1 := State (processed st) (count st) (files st) (written st)
                    (manifest_file st) (S (requests st)) (handled st)).
  assert (Hb1 : manifest_between m0 st1) by exact Hb.
  assert (Hl1 : load_manifest m0 ⊆ processed st1) by exact Hl.
  destruct (list_bookmarks (base w) (requests st) _) as [e|[|bm bms]];
    cbn [OrderedExport.final_state].
  - exact Hb1.
  - destruct (OrderedExport.save_manifest w st1) as [st'|[cause residue]] eqn:Es;
      cbn [OrderedExport.final_state]; [|exact Hb1].
    exact (proj1 (manifest_between_save m0 _ _ Es Hl1)).
  - destruct (process_batch (base w) st1 (bm :: bms)) as [[e|] st2] eqn:E;
      cbn [OrderedExport.final_state].
    + exact (proj1 (manifest_between_batch m0 _ _ _ _ E (conj Hb1 Hl1))).
    + destruct (manifest_between_batch m0 _ _ _ _ E (conj Hb1 Hl1)) as [Hb2 Hl2].
      destruct (OrderedExport.save_manifest w st2) as [st'|[cause residue]] eqn:Es;
        cbn [OrderedExport.final_state]; [|exact Hb2].
      destruct (manifest_between_save m0 _ _ Es Hl2) as [Hb3 Hl3].
      apply IH; assumption.
Qed.

(** The manifest file during and after a run, with the order of the set and
    the writes that stop taken into account. However the run ends (completed,
    aborted, inside a manifest write, or stopped between two iterations),
    the last complete document of the file is the one the run found, or
    lists, once each and in some order, the identifiers of a set that
    contains everything the run loaded and only identifiers of [processed].
    When the run ends inside a manifest write that had opened the file, the
    file holds a prefix of the new document instead (so possibly nothing).
    After a completed run the file lists every identifier of [processed]
    once, and loading it gives [processed] back. *)
Theorem export_manifest_on_disk (fuel : nat) (fs : gmap pystr pystr)
    (manifest : option (list Z)) :
  manifest_between manifest
    (OrderedExport.final_state (OrderedExport.main fuel w fs manifest)) /\
  (forall cause st residue,
     OrderedExport.main fuel w fs manifest = SaveFailed cause st residue ->
     exists ids, ids ≡ₚ elements (processed st) /\
       forall text, residue = Some text ->
                    exists n, text = take n (json_dumps_ints ids)) /\
  (forall st, OrderedExport.main fuel w fs manifest = OrderedExport.Completed st ->
     exists ids, manifest_file st = Some ids /\ NoDup ids /\
                 (forall bid, bid ∈ ids <-> bid ∈ processed st) /\
                 load_manifest (manifest_file st) = processed st).
Proof.
  unfold OrderedExport.main. split; [|split].
  - apply ordered_loop_between; [left; reflexivity|reflexivity].
  - intros cause st residue Hrun.
    apply ordered_loop_save_failed in Hrun as [progress ->].
    eexists. split; [apply list_set_perm|].
    intros text Htext. destruct progress as [n|]; [|discriminate Htext].
    injection Htext as <-. exists n. reflexivity.
  - intros st Hrun. apply ordered_loop_completed in Hrun as [Hm _].
    eexists. split; [exact Hm|]. split; [apply NoDup_list_set|].
    split; [intros bid; apply elem_of_list_set|].
    rewrite Hm. unfold load_manifest. apply list_to_set_list_set.
Qed.

End OrderedLoop.

(** With the set listed in the order of [elements] and every manifest write
    completing, the run is the run of [LiveExport]. *)
Lemma plain_run (w : LiveExport.world) (fuel : nat) :
  forall st,
    OrderedExport.forget (OrderedExport.main_loop fuel (OrderedExport.plain w) st)
    = Some (LiveExport.main_loop fuel w st).
Proof.
  assert (Hpay : forall s f,
            OrderedExport.bookmarks_payload [] s f = LiveExport.bookmarks_payload s f).
  { intros s f. unfold OrderedExport.bookmarks_payload, LiveExport.bookmarks_payload.
    rewrite list_set_nil. f_equal.
    destruct (decide (s = ∅)) as [->|Hne].
    - rewrite bool_decide_eq_true_2 by reflexivity.
      rewrite bool_decide_eq_true_2 by apply elements_empty. reflexivity.
    - rewrite bool_decide_eq_false_2 by exact Hne.
      rewrite bool_decide_eq_false_2; [reflexivity|].
      intros H. apply Hne. apply leibniz_equiv, elements_empty_inv.
      rewrite H. reflexivity. }
  assert (Hsave : forall st,
            OrderedExport.save_manifest (OrderedExport.plain w) st
            = inl (LiveExport.save_manifest st)).
  { intros st. unfold OrderedExport.save_manifest, LiveExport.save_manifest.
    cbn [OrderedExport.write_manifest OrderedExport.plain OrderedExport.dump_order].
    unfold OrderedExport.manifest_document, LiveExport.manifest_document.
    rewrite list_set_nil. reflexivity. }
  induction fuel as [|fuel IH]; intros st;
    cbn [OrderedExport.main_loop LiveExport.main_loop]; [reflexivity|].
  cbn [OrderedExport.base OrderedExport.plain OrderedExport.have_order].
  rewrite Hpay.
  destruct (LiveExport.list_bookmarks w (LiveExport.requests st) _) as [e|[|bm bms]].
  - reflexivity.
  - rewrite Hsave. reflexivity.
  - destruct (LiveExport.process_batch w _ (bm :: bms)) as [[e|] st'];
      [reflexivity|].
    rewrite Hsave. apply IH.
Qed.

(** C3, as the script has it. After a run of the export has completed, a
    second run against the same remote, one whose answer to a list request
    depends only on the folder, the limit and the set of identifiers in
    [have], started on the files and the manifest the first run left, is
    over at its first list request: it fetches no text and writes no
    document, and its manifest write, if it completes, leaves a manifest
    that lists the identifiers the first run saved, once each, in an order
    that need not be the first run's. If that write stops, the file holds a
    prefix of this document, or is untouched. *)
Theorem second_run_is_noop (w1 w2 : OrderedExport.world) (fuel n : nat)
    (fs : gmap pystr pystr) (manifest : option (list Z)) (st1 : LiveExport.state) :
  LiveExport.FOLDER_ID (OrderedExport.base w2)
  = LiveExport.FOLDER_ID (OrderedExport.base w1) ->
  (forall k k' p p', OrderedExport.same_request p p' ->
     LiveExport.list_bookmarks (OrderedExport.base w2) k' p'
     = LiveExport.list_bookmarks (OrderedExport.base w1) k p) ->
  OrderedExport.main fuel w1 fs manifest = OrderedExport.Completed st1 ->
  exists ids1 ids2,
    LiveExport.manifest_file st1 = Some ids1 /\
    ids2 ≡ₚ ids1 /\
    LiveExport.load_manifest (Some ids2) = LiveExport.processed st1 /\
    OrderedExport.main (S n) w2 (LiveExport.files st1) (LiveExport.manifest_file st1)
    = match OrderedExport.write_manifest w2 1 (LiveExport.json_dumps_ints ids2) with
      | OrderedExport.SaveCompletes =>
          OrderedExport.Completed
            (LiveExport.State (LiveExport.processed st1) 0 (LiveExport.files st1) []
               (Some ids2) 1 0)
      | OrderedExport.SaveStops cause progress =>
          OrderedExport.SaveFailed cause
            (LiveExport.State (LiveExport.processed st1) 0 (LiveExport.files st1) []
               (Some ids1) 1 0)
            ((fun n => take n (LiveExport.json_dumps_ints ids2)) <$> progress)
      end.
Proof.
  intros Hfolder Hsame Hrun. unfold OrderedExport.main in Hrun.
  apply ordered_loop_completed in Hrun as [Hm [k Hk]].
  exists (OrderedExport.list_set
            (OrderedExport.dump_order w1 (LiveExport.requests st1))
            (LiveExport.processed st1)),
         (OrderedExport.list_set (OrderedExport.dump_order w2 1)
            (LiveExport.processed st1)).
  split; [exact Hm|]. split.
  { rewrite !list_set_perm. reflexivity. }
  split.
  { unfold LiveExport.load_manifest. apply list_to_set_list_set. }
  unfold OrderedExport.main. rewrite Hm at 1. unfold LiveExport.load_manifest.
  rewrite list_to_set_list_set.
  cbn [OrderedExport.main_loop LiveExport.processed LiveExport.requests
       LiveExport.count LiveExport.files LiveExport.written
       LiveExport.manifest_file LiveExport.handled].
  rewrite Hfolder.
  rewrite (Hsame k 0%nat
             (OrderedExport.bookmarks_payload (OrderedExport.have_order w1 k)
                (LiveExport.processed st1)
                (LiveExport.FOLDER_ID (OrderedExport.base w1))))
    by apply bookmarks_payload_same.
  rewrite Hk. unfold OrderedExport.save_manifest, OrderedExport.manifest_document.
  cbn [LiveExport.processed LiveExport.requests LiveExport.count LiveExport.files
       LiveExport.written LiveExport.manifest_file LiveExport.handled].
  destruct (OrderedExport.write_manifest w2 1 _); rewrite ?Hm; reflexivity.
Qed.

Lemma second_run_is_noop_witness :
  exists st1 ids1 ids2,
    OrderedExport.main 2 Samples.first_run ∅ None = OrderedExport.Completed st1 /\
    LiveExport.manifest_file st1 = Some ids1 /\
    ids2 ≡ₚ ids1 /\
    OrderedExport.main 1 Samples.second_run (LiveExport.files st1)
      (LiveExport.manifest_file st1)
    = OrderedExport.Completed
        (LiveExport.State (LiveExport.processed st1) 0 (LiveExport.files st1) []
           (Some ids2) 1 0).
Proof.
  assert (Hrun : OrderedExport.main 2 Samples.first_run ∅ None
                 = OrderedExport.Completed
                     (OrderedExport.final_state
                        (OrderedExport.main 2 Samples.first_run ∅ None)))
    by (vm_compute; reflexivity).
  assert (Hsame : forall k k' p p', OrderedExport.same_request p p' ->
            LiveExport.list_bookmarks (OrderedExport.base Samples.second_run) k' p'
            = LiveExport.list_bookmarks (OrderedExport.base Samples.first_run) k p).
  { intros k k' p p' (_ & _ & Hhave).
    cbn [LiveExport.list_bookmarks OrderedExport.base Samples.second_run
         Samples.first_run Samples.six_remote].
    f_equal. f_equal. apply filter_ext. intros bid. f_equal.
    apply bool_decide_ext.
    rewrite <- (elem_of_list_to_set (C := gset Z) bid (default [] (LiveExport.have p'))).
    rewrite <- (elem_of_list_to_set (C := gset Z) bid (default [] (LiveExport.have p))).
    rewrite Hhave. reflexivity. }
  destruct (second_run_is_noop Samples.first_run Samples.second_run 2 0 ∅ None _
              eq_refl Hsame Hrun)
    as (ids1 & ids2 & Hm & Hperm & _ & Hsecond).
  eexists _, ids1, ids2. split; [exact Hrun|]. split; [exact Hm|].
  split; [exact Hperm|]. exact Hsecond.
Defined.

(** The second run saves the identifiers in another order: the manifest is
    not the document the first run persisted. *)
Lemma second_run_reorders_manifest :
  exists st1 st2,
    OrderedExport.main 2 Samples.first_run ∅ None = OrderedExport.Completed st1 /\
    OrderedExport.main 1 Samples.second_run (LiveExport.files st1)
      (LiveExport.manifest_file st1)
    = OrderedExport.Completed st2 /\
    LiveExport.written st2 = [] /\
    LiveExport.manifest_file st1 = Some [27; 8; 82; 152; 185; 59] /\
    LiveExport.manifest_file st2 = Some [8; 59; 82; 152; 185; 27] /\
    LiveExport.manifest_file st2 <> LiveExport.manifest_file st1.
Proof.
  exists (OrderedExport.final_state (OrderedExport.main 2 Samples.first_run ∅ None)),
         (OrderedExport.final_state
            (OrderedExport.main 1 Samples.second_run
               (LiveExport.files
                  (OrderedExport.final_state
                     (OrderedExport.main 2 Samples.first_run ∅ None)))
               (Some [27; 8; 82; 152; 185; 59]))).
  split; [vm_compute; reflexivity|]. split; [vm_compute; reflexivity|].
  split; [vm_compute; reflexivity|]. split; [vm_compute; reflexivity|].
  split; [vm_compute; reflexivity|].
  vm_compute. discriminate.
Qed.

Lemma export_manifest_on_disk_witness :
  exists cause st ids n,
    OrderedExport.main 1 Samples.disk_full_run ∅ None
    = OrderedExport.SaveFailed cause st (Some (lit "[27")) /\
    ids ≡ₚ elements (LiveExport.processed st) /\
    lit "[27" = take n (LiveExport.json_dumps_ints ids).
Proof.
  assert (Hrun : OrderedExport.main 1 Samples.disk_full_run ∅ None
                 = OrderedExport.SaveFailed
                     (Some (Exn RuntimeError
                              (lit "[Errno 28] No space left on device") None))
                     (OrderedExport.final_state
                        (OrderedExport.main 1 Samples.disk_full_run ∅ None))
                     (Some (lit "[27")))
    by (vm_compute; reflexivity).
  destruct (export_manifest_on_disk Samples.disk_full_run 1 ∅ None)
    as (_ & Hstop & _).
  destruct (Hstop _ _ _ Hrun) as (ids & Hperm & Htext).
  destruct (Htext _ eq_refl) as [n Hn].
  eexists _, _, ids, n. split; [exact Hrun|]. split; [exact Hperm|exact Hn].
Defined.

(** ** The loop of the bulk import *)

Section BulkLoop.

Import BulkImport.

Variable w : world.

Lemma save_every_fields (n : nat) (st : state) :
  processed_manifest (save_every n st) = processed_manifest st /\
  files (save_every n st) = files st /\
  written (save_every n st) = written st /\
  count (save_every n st) = count st /\
  (saves (save_every n st) = saves st \/
   saves (save_every n st) = saves st ++ [processed_manifest st]).
Proof.
  unfold save_every. case_bool_decide; cbn; auto 10.
Qed.

Lemma process_row_writes (st : state) (bm : bm_data) (out text : pystr) :
  document_for w st bm = Some (out, text) ->
  let st' := process_row w st bm in
  match write_document w (handled st) out text with
  | LiveExport.WriteCompletes =>
      processed_manifest st'
      = <[str_Z (id bm) := Entry STATUS_SUCCESS (title bm) None (Some out)]>
          (processed_manifest st) /\
      files st' = <[out := text]> (files st) /\
      written st' = written st ++ [(out, text)]
  | LiveExport.WriteRaises _ _ =>
      processed_manifest st' = processed_manifest st /\
      count st' = count st /\
      written st' = written st /\
      saves st' = saves st
  end.
Proof.
  unfold document_for, process_row.
  destruct (bool_decide (is_Some (processed_manifest st !! str_Z (id bm))));
    [discriminate|].
  cbv zeta.
  destruct (full_text w (handled st) (id bm)) as [html err]. cbn [fst].
  destruct (bool_decide (html = [])); [discriminate|].
  destruct (markdownify w html) as [msg|md_content]; [discriminate|].
  intros Hdoc. injection Hdoc as <- <-.
  cbn [processed_manifest count processed_in_session files written saves handled].
  destruct (write_document w (handled st) _ _).
  - destruct (save_every_fields 20
      (record_entry (str_Z (id bm))
         (Entry STATUS_SUCCESS (title bm) None (Some (output_file_path w bm)))
         (State (processed_manifest st) (S (count st)) (processed_in_session st)
            (LiveExport.files_after LiveExport.WriteCompletes (output_file_path w bm)
               (join [NEWLINE] (frontmatter bm) ++ md_content) (files st))
            (written st ++ [(output_file_path w bm,
                             join [NEWLINE] (frontmatter bm) ++ md_content)])
            (saves st) (S (handled st)))))
      as (-> & -> & -> & _).
    repeat split.
  - repeat split.
Qed.

End BulkLoop.

(** Properties of the manifest that every row keeps. *)
Section BulkInvariant.

Import BulkImport.

Variable w : world.
Variable rows : list bm_data.
Variable P : list (pystr * pystr) -> gmap pystr entry -> Prop.

Hypothesis P_more : forall wr wr' doc, wr ⊆ wr' -> P wr doc -> P wr' doc.
Hypothesis P_failure : forall wr doc bm tag msg,
  bm ∈ rows -> tag = STATUS_FETCH_FAILED \/ tag = STATUS_CONVERSION_FAILED ->
  P wr doc -> P wr (<[str_Z (id bm) := Entry tag (title bm) (Some msg) None]> doc).
Hypothesis P_success : forall wr doc bm out text,
  bm ∈ rows -> P wr doc ->
  P (wr ++ [(out, text)])
    (<[str_Z (id bm) := Entry STATUS_SUCCESS (title bm) None (Some out)]> doc).

Lemma kept_save (st : state) : kept P st -> kept P (save_manifest st).
Proof.
  intros [Hp Hs]. unfold kept, save_manifest. cbn [processed_manifest written saves].
  split; [exact Hp|]. apply Forall_app. split; [exact Hs|].
  constructor; [exact Hp|constructor].
Qed.

Lemma kept_save_every (n : nat) (st : state) : kept P st -> kept P (save_every n st).
Proof.
  intros H. unfold save_every. case_bool_decide; [apply kept_save|]; exact H.
Qed.

Lemma kept_failure (st : state) (bm : bm_data) (tag msg : pystr) (h : nat) :
  bm ∈ rows ->
  tag = STATUS_FETCH_FAILED \/ tag = STATUS_CONVERSION_FAILED ->
  kept P st ->
  kept P (record_entry (str_Z (id bm)) (Entry tag (title bm) (Some msg) None)
            (State (processed_manifest st) (count st) (processed_in_session st)
                   (files st) (written st) (saves st) h)).
Proof.
  intros Hrow Htag [Hp Hs]. unfold kept, record_entry.
  cbn [processed_manifest written saves]. split; [|exact Hs].
  apply P_failure; assumption.
Qed.

Lemma kept_success (st : state) (bm : bm_data) (out text : pystr)
    (fs : gmap pystr pystr) (c p h : nat) :
  bm ∈ rows ->
  kept P st ->
  kept P (record_entry (str_Z (id bm))
            (Entry STATUS_SUCCESS (title bm) None (Some out))
            (State (processed_manifest st) c p fs (written st ++ [(out, text)])
                   (saves st) h)).
Proof.
  intros Hrow [Hp Hs]. unfold kept, record_entry.
  cbn [processed_manifest written saves]. split.
  - apply P_success; assumption.
  - eapply Forall_impl; [exact Hs|]. intros doc. apply P_more.
    intros x Hx. apply elem_of_app. left. exact Hx.
Qed.

Lemma kept_row (st : state) (bm : bm_data) :
  bm ∈ rows -> kept P st -> kept P (process_row w st bm).
Proof.
  intros Hrow Hk. unfold process_row.
  destruct (bool_decide (is_Some (processed_manifest st !! str_Z (id bm))));
    [exact Hk|].
  cbv zeta. destruct (full_text w (handled st) (id bm)) as [html err].
  destruct (bool_decide (html = [])).
  - apply kept_save_every. apply kept_failure; auto.
  - destruct (markdownify w html) as [msg|md_content].
    + apply kept_failure; auto.
    + cbn [processed_manifest count processed_in_session files written saves handled].
      destruct (write_document w (handled st) _ _).
      * apply kept_save_every. apply (kept_success st bm _ _ _ _ _ _ Hrow Hk).
      * exact Hk.
Qed.

Lemma kept_rows (l : list bm_data) :
  forall st, l ⊆ rows -> kept P st -> kept P (foldl (process_row w) st l).
Proof.
  induction l as [|bm l IH]; intros st Hsub Hk; cbn [foldl]; [exact Hk|].
  apply IH.
  - intros x Hx. apply Hsub. right. exact Hx.
  - apply kept_row; [|exact Hk]. apply Hsub. left.
Qed.

Lemma kept_main (fs : gmap pystr pystr) (manifest : option (gmap pystr entry)) :
  P [] (default ∅ manifest) -> kept P (main w fs manifest rows).
Proof.
  intros H0.
  assert (Hk : kept P (State (default ∅ manifest) 0 0 fs [] [] 0)).
  { unfold kept. cbn [processed_manifest written saves].
    split; [exact H0|constructor]. }
  pose proof (kept_save _ (kept_rows rows _ (reflexivity rows) Hk)) as Hf.
  unfold main. revert Hf.
  generalize (foldl (process_row w) (State (default ∅ manifest) 0 0 fs [] [] 0) rows).
  intros st Hf. case rows; [exact Hk|intros _ _; exact Hf].
Qed.

End BulkInvariant.

Lemma backed_main (w : BulkImport.world) (fs : gmap pystr pystr)
    (manifest : option (gmap pystr BulkImport.entry)) (rows : list BulkImport.bm_data) :
  BulkImport.kept (BulkImport.backed (default ∅ manifest))
                  (BulkImport.main w fs manifest rows).
Proof.
  apply kept_main.
  - intros wr wr' doc Hsub Hb key e Hk Hs.
    destruct (Hb key e Hk Hs) as [H|(out & text & Hf & Hin)]; [left; exact H|].
    right. exists out, text. split; [exact Hf|apply Hsub; exact Hin].
  - intros wr doc bm tag msg _ Htag Hb key e Hk Hs.
    destruct (decide (key = str_Z (BulkImport.id bm))) as [->|Hne].
    + rewrite lookup_insert_eq in Hk. injection Hk as <-. cbn [BulkImport.status] in Hs.
      destruct Htag as [->| ->]; vm_compute in Hs; discriminate Hs.
    + rewrite lookup_insert_ne in Hk by congruence. exact (Hb key e Hk Hs).
  - intros wr doc bm out text _ Hb key e Hk Hs.
    destruct (decide (key = str_Z (BulkImport.id bm))) as [->|Hne].
    + rewrite lookup_insert_eq in Hk. injection Hk as <-.
      right. exists out, text. split; [reflexivity|].
      apply elem_of_app. right. apply list_elem_of_singleton. reflexivity.
    + rewrite lookup_insert_ne in Hk by congruence.
      destruct (Hb key e Hk Hs) as [H|(o & t & Hf & Hin)]; [left; exact H|].
      right. exists o, t. split; [exact Hf|apply elem_of_app; left; exact Hin].
  - intros key e Hk _. left. exact Hk.
Qed.

Lemma manifest_ok_main (w : BulkImport.world) (fs : gmap pystr pystr)
    (manifest : option (gmap pystr BulkImport.entry)) (rows : list BulkImport.bm_data) :
  (forall key e, default ∅ manifest !! key = Some e -> BulkImport.entry_ok e = true) ->
  BulkImport.kept (fun _ => BulkImport.manifest_ok (default ∅ manifest) rows)
                  (BulkImport.main w fs manifest rows).
Proof.
  intros Hinit. apply kept_main.
  - auto.
  - intros _ doc bm tag msg Hrow Htag Ho key e Hk.
    destruct (decide (key = str_Z (BulkImport.id bm))) as [->|Hne].
    + rewrite lookup_insert_eq in Hk. injection Hk as <-. split.
      * destruct Htag as [->| ->]; vm_compute; reflexivity.
      * right. exists bm. split; [exact Hrow|]. split; reflexivity.
    + rewrite lookup_insert_ne in Hk by congruence. exact (Ho key e Hk).
  - intros _ doc bm out text Hrow Ho key e Hk.
    destruct (decide (key = str_Z (BulkImport.id bm))) as [->|Hne].
    + rewrite lookup_insert_eq in Hk. injection Hk as <-. split.
      * vm_compute. reflexivity.
      * right. exists bm. split; [exact Hrow|]. split; reflexivity.
    + rewrite lookup_insert_ne in Hk by congruence. exact (Ho key e Hk).
  - intros key e Hk. split; [exact (Hinit key e Hk)|left; exact Hk].
Qed.

(** ** What a run of the bulk import keeps true *)

Section BulkGrowth.

Import BulkImport.

Variable w : world.














End BulkGrowth.




(** ** Writing and recording *)

(** C5, as the scripts have it. When a document is about to be written:
    if the write completes, the file holds the document and the item is then
    recorded (added to [processed]; entered with status ["success"] and the
    path); if the write raises, nothing is recorded for the item. An item
    whose text cannot be fetched is recorded without any document. So, in
    every state of a run of the export, an identifier of [processed] was there
    at the start, or its text came back empty, or its document has been
    written; in the import, every entry with status ["success"], in the
    manifest and in every document saved, was there at the start or names a
    file that has been written. *)
Theorem write_then_record :
  (forall (w : LiveExport.world) (st : LiveExport.state) (bm : LiveExport.bookmark)
          (out text : pystr),
      LiveExport.document_for w st bm = Some (out, text) ->
      let st' := snd (LiveExport.process_bookmark w st bm) in
      match LiveExport.write_document w (LiveExport.handled st) out text with
      | LiveExport.WriteCompletes =>
          LiveExport.processed st'
          = {[LiveExport.bookmark_id bm]} ∪ LiveExport.processed st /\
          LiveExport.files st' !! out = Some text /\
          LiveExport.written st' = LiveExport.written st ++ [(out, text)]
      | LiveExport.WriteRaises _ _ =>
          LiveExport.processed st' = LiveExport.processed st /\
          LiveExport.count st' = LiveExport.count st /\
          LiveExport.written st' = LiveExport.written st /\
          LiveExport.manifest_file st' = LiveExport.manifest_file st
      end) /\
  (forall (w : LiveExport.world) (fuel : nat) (st0 : LiveExport.state),
      LiveExport.accounted w st0
        (LiveExport.final_state (LiveExport.main_loop fuel w st0))) /\
  (forall (w : BulkImport.world) (st : BulkImport.state) (bm : BulkImport.bm_data)
          (out text : pystr),
      BulkImport.document_for w st bm = Some (out, text) ->
      let st' := BulkImport.process_row w st bm in
      match BulkImport.write_document w (BulkImport.handled st) out text with
      | LiveExport.WriteCompletes =>
          BulkImport.processed_manifest st'
          = <[str_Z (BulkImport.id bm) :=
                BulkImport.Entry BulkImport.STATUS_SUCCESS (BulkImport.title bm)
                                 None (Some out)]>
              (BulkImport.processed_manifest st) /\
          BulkImport.files st' = <[out := text]> (BulkImport.files st) /\
          BulkImport.written st' = BulkImport.written st ++ [(out, text)]
      | LiveExport.WriteRaises _ _ =>
          BulkImport.processed_manifest st' = BulkImport.processed_manifest st /\
          BulkImport.count st' = BulkImport.count st /\
          BulkImport.written st' = BulkImport.written st /\
          BulkImport.saves st' = BulkImport.saves st
      end) /\
  (forall (w : BulkImport.world) (fs : gmap pystr pystr)
          (manifest : option (gmap pystr BulkImport.entry))
          (rows : list BulkImport.bm_data),
      let st := BulkImport.main w fs manifest rows in
      BulkImport.backed (default ∅ manifest) (BulkImport.written st)
                        (BulkImport.processed_manifest st) /\
      Forall (BulkImport.backed (default ∅ manifest) (BulkImport.written st))
             (BulkImport.saves st)).
Proof.
  split; [|split; [|split]].
  - intros w st bm out text Hdoc st'. subst st'.
    rewrite (process_bookmark_writes w st bm out text Hdoc). cbn [snd].
    destruct (LiveExport.write_document w (LiveExport.handled st) out text).
    + cbn [LiveExport.processed LiveExport.files LiveExport.written].
      split; [reflexivity|]. split; [apply lookup_insert_eq|reflexivity].
    + cbn [LiveExport.processed LiveExport.count LiveExport.written
             LiveExport.manifest_file]. auto.
  - intros w fuel st0. apply accounted_main_loop. intros bid Hin. left. exact Hin.
  - intros w st bm out text Hdoc. exact (process_row_writes w st bm out text Hdoc).
  - intros w fs manifest rows st. exact (backed_main w fs manifest rows).
Qed.

Lemma write_then_record_witness :
  let st0 := LiveExport.State ∅ 0 ∅ [] None 0 0 in
  let st' := snd (LiveExport.process_bookmark Samples.read_only_world st0
                    Samples.item42) in
  LiveExport.processed st' = ∅ /\ LiveExport.written st' = [].
Proof.
  cbv zeta.
  destruct (LiveExport.document_for Samples.read_only_world
              (LiveExport.State ∅ 0 ∅ [] None 0 0) Samples.item42)
    as [[out text]|] eqn:Hdoc; [|vm_compute in Hdoc; discriminate Hdoc].
  destruct write_then_record as [H _].
  specialize (H Samples.read_only_world (LiveExport.State ∅ 0 ∅ [] None 0 0)
                Samples.item42 out text Hdoc).
  cbv zeta in H. cbn [LiveExport.write_document Samples.read_only_world] in H.
  destruct H as (Hp & _ & Hw & _). split; [exact Hp|exact Hw].
Defined.

(** C5, refuted as stated: an item whose text comes back empty is put in the
    ledger although no output file is written for it. *)
Lemma no_content_is_recorded_without_file :
  let st0 := LiveExport.State ∅ 0 ∅ [] None 0 0 in
  let st' := snd (LiveExport.process_bookmark (Samples.honest_world []) st0
                    Samples.item42) in
  elements (LiveExport.processed st') = [42] /\
  LiveExport.written st' = [] /\
  LiveExport.files st' = ∅.
Proof. cbv zeta. split; [|split]; vm_compute; reflexivity. Qed.

(** C6, as the scripts have it. Every manifest the import saves maps keys to
    records of one of three shapes: status ["success"] with the path and no
    error message, or status ["text_fetch_failed"] or
    ["markdown_conversion_failed"] with an error message and no path; an
    entry the run did not find at its start is keyed by the stringified
    identifier of a row and carries the row's title; the three tags differ.
    The manifest the export saves is the list of the identifiers in
    [processed], with no record beside them. *)
Theorem manifest_shapes :
  (forall (w : BulkImport.world) (fs : gmap pystr pystr)
          (manifest : option (gmap pystr BulkImport.entry))
          (rows : list BulkImport.bm_data),
      (forall key e, default ∅ manifest !! key = Some e ->
                     BulkImport.entry_ok e = true) ->
      Forall (BulkImport.manifest_ok (default ∅ manifest) rows)
             (BulkImport.saves (BulkImport.main w fs manifest rows))) /\
  (BulkImport.STATUS_SUCCESS <> BulkImport.STATUS_FETCH_FAILED /\
   BulkImport.STATUS_SUCCESS <> BulkImport.STATUS_CONVERSION_FAILED /\
   BulkImport.STATUS_FETCH_FAILED <> BulkImport.STATUS_CONVERSION_FAILED) /\
  (forall (w : LiveExport.world) (fuel : nat) (fs : gmap pystr pystr)
          (manifest : option (list Z)) (st : LiveExport.state),
      LiveExport.main fuel w fs manifest = LiveExport.Completed st ->
      LiveExport.manifest_file st = Some (elements (LiveExport.processed st))).
Proof.
  split; [|split].
  - intros w fs manifest rows Hinit.
    exact (proj2 (manifest_ok_main w fs manifest rows Hinit)).
  - repeat split; vm_compute; discriminate.
  - intros w fuel fs manifest st Hrun. unfold LiveExport.main in Hrun.
    exact (proj1 (main_loop_completed w fuel _ st Hrun)).
Qed.

Lemma manifest_shapes_witness :
  let st := BulkImport.main Samples.bulk_world ∅ None [Samples.row42; Samples.row43] in
  Forall (BulkImport.manifest_ok ∅ [Samples.row42; Samples.row43])
         (BulkImport.saves st) /\
  length (BulkImport.saves st) = 1%nat /\
  BulkImport.status <$> (BulkImport.processed_manifest st !! lit "42")
  = Some BulkImport.STATUS_SUCCESS /\
  BulkImport.status <$> (BulkImport.processed_manifest st !! lit "43")
  = Some BulkImport.STATUS_FETCH_FAILED.
Proof.
  cbv zeta. split; [|split; [|split]]; [|vm_compute; reflexivity..].
  destruct manifest_shapes as [H _].
  apply (H Samples.bulk_world ∅ None [Samples.row42; Samples.row43]).
  intros key e Hk. cbn [default] in Hk. rewrite lookup_empty in Hk. discriminate Hk.
Defined.

(** C6, refuted for the export: a run in which the text of item 42 is fetched
    and its document written, and a run in which the text cannot be fetched,
    save the same manifest, the list [42]. *)
Lemma export_manifest_hides_outcome :
  exists st_saved st_failed,
    LiveExport.main 2 (Samples.honest_world Samples.html_page) ∅ None
    = LiveExport.Completed st_saved /\
    LiveExport.main 2 (Samples.honest_world []) ∅ None
    = LiveExport.Completed st_failed /\
    length (LiveExport.written st_saved) = 1%nat /\
    LiveExport.written st_failed = [] /\
    LiveExport.manifest_file st_saved = Some [42] /\
    LiveExport.manifest_file st_failed = Some [42].
Proof.
  exists (LiveExport.final_state
            (LiveExport.main 2 (Samples.honest_world Samples.html_page) ∅ None)),
         (LiveExport.final_state
            (LiveExport.main 2 (Samples.honest_world []) ∅ None)).
  repeat split; vm_compute; reflexivity.
Qed.

(** ** The pagination test *)

Section Pagination.

Import PaginationTest.

Lemma add_new_spec (batch : list Z) :
  forall all ids n, add_new batch all = (ids, n) ->
    (forall x, x ∈ ids <-> x ∈ all \/ (x ∈ batch /\ 0 < x)) /\
    size ids = (size all + n)%nat.
Proof.
  induction batch as [|i rest IH]; intros all ids n; cbn [add_new].
  - intros H; injection H as <- <-. split; [|lia].
    intros x. split; [auto|]. intros [H|[H _]]; [exact H|]. inversion H.
  - destruct (0 <? i) eqn:Hpos; cbn [andb].
    + apply Z.ltb_lt in Hpos. case_bool_decide as Hin; cbn [negb].
      * intros H. destruct (IH _ _ _ H) as [Hm Hs]. split; [|exact Hs].
        intros x. rewrite Hm, elem_of_cons. split.
        -- intros [Hx|[Hx Hp]]; auto.
        -- intros [Hx|[[->|Hx] Hp]]; auto.
      * destruct (add_new rest ({[i]} ∪ all)) as [s m] eqn:E.
        intros H; injection H as <- <-.
        destruct (IH _ _ _ E) as [Hm Hs]. split.
        -- intros x. rewrite Hm, elem_of_union, elem_of_singleton, elem_of_cons.
           split.
           ++ intros [[->|Hx]|[Hx Hp]]; auto.
           ++ intros [Hx|[[->|Hx] Hp]]; auto.
        -- rewrite Hs, size_union by (apply disjoint_singleton_l; exact Hin).
           rewrite size_singleton. lia.
    + apply Z.ltb_ge in Hpos. intros H.
      destruct (IH _ _ _ H) as [Hm Hs]. split; [|exact Hs].
      intros x. rewrite Hm, elem_of_cons. split.
      * intros [Hx|[Hx Hp]]; auto.
      * intros [Hx|[[->|Hx] Hp]]; auto. lia.
Qed.

(** The batch bookkeeping of lines 105-110: after a batch the set of seen
    identifiers is the old set together with the positive identifiers of the
    batch, the number counted as new is exactly the growth of the set (an
    identifier that occurs twice in a batch is counted once), and it is zero
    exactly when every positive identifier of the batch had been seen. *)
Theorem add_new_counts_fresh (batch : list Z) (all : gset Z) :
  (forall i, i ∈ (add_new batch all).1 <-> i ∈ all \/ (i ∈ batch /\ 0 < i)) /\
  size (add_new batch all).1 = (size all + (add_new batch all).2)%nat /\
  ((add_new batch all).2 = 0%nat <-> forall i, i ∈ batch -> 0 < i -> i ∈ all).
Proof.
  destruct (add_new batch all) as [ids n] eqn:E. cbn [fst snd].
  destruct (add_new_spec _ _ _ _ E) as [Hin Hsize].
  split; [exact Hin|]. split; [exact Hsize|]. split.
  - intros -> i Hb Hpos.
    assert (Heq : all = ids).
    { apply set_subseteq_size_eq; [|lia].
      intros x Hx. apply Hin. left. exact Hx. }
    rewrite Heq. apply Hin. right. split; assumption.
  - intros Hall.
    assert (Heq : ids = all).
    { apply leibniz_equiv. intros x. rewrite Hin. split; [|auto].
      intros [Hx|[Hb Hpos]]; [exact Hx|exact (Hall _ Hb Hpos)]. }
    rewrite Heq in Hsize. lia.
Qed.

Lemma main_loop_finishes (U : gset Z)
    (remote : nat -> LiveExport.payload -> option (list Z)) (folder : pystr) :
  (forall k p batch, remote k p = Some batch ->
     forall i, i ∈ batch -> 0 < i -> i ∈ U) ->
  forall fuel b all t, all ⊆ U -> (size U - size all < fuel)%nat ->
    exists total ids,
      main_loop fuel remote folder b all t = Finished total ids /\
      all ⊆ ids /\ ids ⊆ U /\ (total + size all = t + size ids)%nat.
Proof.
  intros Hremote fuel. induction fuel as [|fuel IH]; intros b all t Hall Hfuel;
    [lia|].
  cbn [main_loop].
  generalize (if bool_decide (elements all = []) then None else Some all).
  intros have_ids.
  destruct (remote (b - 1)%nat _) as [batch|] eqn:Er.
  - destruct (add_new batch all) as [ids n] eqn:E.
    destruct (add_new_spec _ _ _ _ E) as [Hin Hsize].
    assert (Hsub : all ⊆ ids) by (intros x Hx; apply Hin; left; exact Hx).
    assert (HU : ids ⊆ U).
    { intros x Hx. apply Hin in Hx as [Hx|[Hb Hpos]]; [exact (Hall _ Hx)|].
      exact (Hremote _ _ _ Er _ Hb Hpos). }
    case_bool_decide as Hn.
    + exists (t + n)%nat, ids. split; [reflexivity|]. split; [exact Hsub|].
      split; [exact HU|lia].
    + pose proof (subseteq_size _ _ HU) as Hle.
      destruct (IH (S b) ids (t + n)%nat HU) as (total & ids' & Hrun & Hs' & HU' & Ht);
        [lia|].
      exists total, ids'. split; [exact Hrun|].
      split; [intros x Hx; exact (Hs' _ (Hsub _ Hx))|].
      split; [exact HU'|lia].
  - exists t, all. split; [reflexivity|]. split; [reflexivity|].
    split; [exact Hall|lia].
Qed.

(** The test always leaves its loop: when the positive identifiers the
    remote ever returns come from a finite set [U], the loop ends within
    [size U + 1] batches, whether or not the remote honours the hint; the
    total it reports is the number of distinct identifiers it has seen, all
    of them in [U]. *)
Theorem pagination_test_finishes (U : gset Z) (fuel : nat)
    (remote : nat -> LiveExport.payload -> option (list Z)) :
  (forall k p batch, remote k p = Some batch ->
     forall i, i ∈ batch -> 0 < i -> i ∈ U) ->
  (size U < fuel)%nat ->
  exists total ids,
    main fuel remote = Finished total ids /\ ids ⊆ U /\ total = size ids.
Proof.
  intros Hremote Hfuel. unfold main.
  destruct (main_loop_finishes U remote (lit "archive") Hremote fuel 1%nat ∅ 0%nat)
    as (total & ids & Hrun & _ & HU & Ht).
  - intros x Hx. apply elem_of_empty in Hx as [].
  - rewrite size_empty. lia.
  - exists total, ids. split; [exact Hrun|]. split; [exact HU|].
    rewrite size_empty in Ht. lia.
Qed.

End Pagination.

Lemma pagination_test_finishes_witness :
  exists total ids,
    PaginationTest.main 2 (fun _ _ => Some [42; 42; -1])
    = PaginationTest.Finished total ids /\ ids ⊆ {[42]} /\ total = size ids.
Proof.
  apply (pagination_test_finishes {[42]} 2 (fun _ _ => Some [42; 42; -1])).
  - intros k p batch H. injection H as <-. intros i Hi Hpos.
    apply elem_of_cons in Hi as [->|Hi]; [apply elem_of_singleton; reflexivity|].
    apply elem_of_cons in Hi as [->|Hi]; [apply elem_of_singleton; reflexivity|].
    apply list_elem_of_singleton in Hi as ->. lia.
  - rewrite size_singleton. lia.
Defined.
